(** * DocGen: a shallow embedding of [source/docgen.js]

    The generator is a chain of stages ([run], [loadTemplates], [loadMeta],
    [loadMarkdown], [processContent], [writePages], [checkPdfVersion],
    [generatePdf], [cleanUp]) over module-level state.  The embedding keeps the
    stage names, threads the state explicitly and records every effect on the
    outside world (console, file system, child processes) in a trace. *)

From Stdlib Require Import ZArith NArith QArith String Ascii List Lia.
From stdpp Require Import base list gmap.
Import ListNotations.

Local Open Scope Z_scope.

Set Warnings "-register-all".

(** ** JavaScript strings

    A JavaScript string is a sequence of UTF-16 code units. *)

Definition jsstring := list N.

(** String literals of the source, written as Rocq strings. *)
Definition js (s : string) : jsstring :=
  List.map N_of_ascii (list_ascii_of_string s).

(** [WhiteSpace] and [LineTerminator] code units: the class [\s] of regular
    expressions, and what [String.prototype.trim] removes. *)
Definition is_whitespace (c : N) : bool :=
  ((9 <=? c) && (c <=? 13) || (c =? 32) || (c =? 160) || (c =? 5760)
   || (8192 <=? c) && (c <=? 8202) || (c =? 8232) || (c =? 8233)
   || (c =? 8239) || (c =? 8287) || (c =? 12288) || (c =? 65279))%N.

(** [String.prototype.toLowerCase], one code unit at a time: the simple case
    mapping of Basic Latin and of the Latin-1 Supplement.  The mappings of the
    other Unicode blocks are not part of this model: those code units are kept
    as they are. *)
Definition toLowerCase_unit (c : N) : N :=
  (if (65 <=? c) && (c <=? 90) then c + 32
   else if (192 <=? c) && (c <=? 222) && negb (c =? 215) then c + 32
   else c)%N.

Definition toLowerCase (s : jsstring) : jsstring := List.map toLowerCase_unit s.

Definition hyphen : N := 45%N.

(** [s.replace(/\s+/g, '-')]: every maximal run of white space becomes one
    hyphen. *)
Fixpoint replace_whitespace_runs (s : jsstring) : jsstring :=
  match s with
  | [] => []
  | c :: rest =>
      if is_whitespace c then
        match rest with
        | c' :: _ =>
            if is_whitespace c' then replace_whitespace_runs rest
            else hyphen :: replace_whitespace_runs rest
        | [] => [hyphen]
        end
      else c :: replace_whitespace_runs rest
  end.

(** [processContent]: [let anchor = label.toLowerCase().replace(/\s+/g, '-')]. *)
Definition anchor (label : jsstring) : jsstring :=
  replace_whitespace_runs (toLowerCase label).

(** [s.trim()]. *)
Fixpoint trimStart (s : jsstring) : jsstring :=
  match s with
  | c :: rest => if is_whitespace c then trimStart rest else s
  | [] => []
  end.

Definition trim (s : jsstring) : jsstring := rev (trimStart (rev (trimStart s))).

(** [s.lastIndexOf('.')]: the index of the last full stop, [-1] when there is
    none. *)
Definition full_stop : N := 46%N.

Fixpoint lastIndexOf_from (c : N) (s : jsstring) (i : Z) (found : Z) : Z :=
  match s with
  | [] => found
  | d :: rest => lastIndexOf_from c rest (i + 1) (if (d =? c)%N then i else found)
  end.

Definition lastIndexOf (c : N) (s : jsstring) : Z := lastIndexOf_from c s 0 (-1).

(** [s.substr(0, len)]: a negative length counts as 0, a length past the end
    stops at the end. *)
Definition substr0 (s : jsstring) (len : Z) : jsstring :=
  if len <=? 0 then [] else firstn (Z.to_nat len) s.

(** [readFile]: [data.replace(/^\uFEFF/, '')]. *)
Definition BOM : N := 65279%N.

Definition stripBOM (data : jsstring) : jsstring :=
  match data with
  | c :: rest => if (c =? BOM)%N then rest else data
  | [] => []
  end.

(** [s === t] on strings. *)
Fixpoint jseqb (s t : jsstring) : bool :=
  match s, t with
  | [], [] => true
  | c :: s', d :: t' => (c =? d)%N && jseqb s' t'
  | _, _ => false
  end.

(** ** JSON values, as [JSON.parse] returns them

    Numbers are rationals (the decimal literals of JSON without the rounding
    of doubles); an object is the list of its own properties. *)

Inductive json : Type :=
| JNull
| JBool (b : bool)
| JNum (q : Q)
| JStr (s : jsstring)
| JArr (items : list json)
| JObj (fields : list (jsstring * json)).

(** [o[k]] for an own property: [None] stands for [undefined]. *)
Fixpoint get (k : jsstring) (fields : list (jsstring * json)) : option json :=
  match fields with
  | [] => None
  | (k', v) :: rest => if jseqb k k' then Some v else get k rest
  end.

Definition hasOwn (k : jsstring) (fields : list (jsstring * json)) : bool :=
  match get k fields with Some _ => true | None => false end.

(** ** JSON schemas (the keywords that [schemas] uses) and their validation

    z-schema itself is not part of the repository: [validate] follows JSON
    Schema draft 4 for [type], [required], [properties], [items], [oneOf],
    [minimum] and [maximum]. *)

Inductive JType := TObject | TArray | TString | TInteger | TBoolean.

Inductive Schema : Type :=
| MkSchema (type : option JType)
           (required : list jsstring)
           (properties : list (jsstring * Schema))
           (items : option Schema)
           (oneOf : list Schema)
           (minimum maximum : option Z).

(** The value is a whole number: z-schema's [what % 1 === 0]. *)
Definition is_integer (q : Q) : bool := Z.rem (Qnum q) (Zpos (Qden q)) =? 0.

Definition type_ok (t : JType) (j : json) : bool :=
  match t, j with
  | TObject, JObj _ => true
  | TArray, JArr _ => true
  | TString, JStr _ => true
  | TBoolean, JBool _ => true
  | TInteger, JNum q => is_integer q
  | _, _ => false
  end.

Definition minimum_ok (m : option Z) (j : json) : bool :=
  match m, j with
  | Some lo, JNum q => Qle_bool (inject_Z lo) q
  | _, _ => true
  end.

Definition maximum_ok (m : option Z) (j : json) : bool :=
  match m, j with
  | Some hi, JNum q => Qle_bool q (inject_Z hi)
  | _, _ => true
  end.

Definition required_ok (req : list jsstring) (j : json) : bool :=
  match j with
  | JObj fields => forallb (fun k => hasOwn k fields) req
  | _ => true
  end.

Fixpoint validate (s : Schema) (j : json) {struct s} : bool :=
  match s with
  | MkSchema type required properties items oneOf minimum maximum =>
      match type with Some t => type_ok t j | None => true end
      && required_ok required j
      && match j with
         | JObj fields =>
             forallb (fun '(k, sk) => match get k fields with
                                      | Some v => validate sk v
                                      | None => true
                                      end) properties
         | _ => true
         end
      && match items, j with
         | Some si, JArr xs => forallb (validate si) xs
         | _, _ => true
         end
      && match oneOf with
         | [] => true
         | _ => (length (List.filter (fun s' => validate s' j) oneOf) =? 1)%nat
         end
      && minimum_ok minimum j
      && maximum_ok maximum j
  end.

(** The shapes of schema literal that occur in [schemas]. *)
Definition sString : Schema := MkSchema (Some TString) [] [] None [] None None.
Definition sBoolean : Schema := MkSchema (Some TBoolean) [] [] None [] None None.
Definition sInteger (lo hi : Z) : Schema :=
  MkSchema (Some TInteger) [] [] None [] (Some lo) (Some hi).
Definition sObject (required : list jsstring) (properties : list (jsstring * Schema)) : Schema :=
  MkSchema (Some TObject) required properties None [] None None.
Definition sArray (items : Schema) : Schema :=
  MkSchema (Some TArray) [] [] (Some items) [] None None.
Definition sOneOf (alternatives : list Schema) : Schema :=
  MkSchema None [] [] None alternatives None None.

Module schemas.

(** [{type: 'object', required: ['name', 'url'], properties: {name, url}}] *)
Definition link : Schema :=
  sObject [js "name"; js "url"] [(js "name", sString); (js "url", sString)].

Definition parameters : Schema :=
  sObject
    [js "title"; js "name"; js "version"; js "date"; js "organization";
     js "author"; js "owner"; js "contributors"; js "website"; js "module";
     js "id"; js "summary"; js "marking"; js "legalese"]
    [(js "title", sString);
     (js "name", sString);
     (js "version", sString);
     (js "date", sString);
     (js "organization", link);
     (js "author", link);
     (js "owner", link);
     (js "contributors", sArray (sOneOf [link]));
     (js "website", link);
     (js "backlink", link);
     (js "module", sString);
     (js "id", sString);
     (js "summary", sString);
     (js "marking", sString);
     (js "legalese", sString)].

Definition page : Schema :=
  sObject [js "title"; js "source"]
    [(js "title", sString); (js "source", sString); (js "html", sBoolean)].

Definition section : Schema :=
  sObject [js "heading"; js "column"; js "pages"]
    [(js "name", sString);
     (js "column", sInteger 1 4);
     (js "pages", sArray (sOneOf [page]))].

Definition contents : Schema := sArray (sOneOf [section]).

End schemas.

(** ** Data model: the typed view of validated metadata *)

(** A name with a URL ([organization], [author], ..., each contributor). *)
Record Link := { link_name : jsstring; link_url : jsstring }.

(** [meta.parameters].  [backlink] is the one property of the schema that is
    not in its [required] list. *)
Record Parameters := {
  p_title : jsstring;
  p_name : jsstring;
  p_version : jsstring;
  p_date : jsstring;
  p_organization : Link;
  p_author : Link;
  p_owner : Link;
  p_contributors : list Link;
  p_website : Link;
  p_backlink : option Link;
  p_module : jsstring;
  p_id : jsstring;
  p_summary : jsstring;
  p_marking : jsstring;
  p_legalese : jsstring
}.

(** A page of a section; [page_html] is the test [page.html === true]. *)
Record Page := {
  page_title : jsstring;
  page_source : jsstring;
  page_html : bool
}.

(** A section of [meta.contents].  The schema requires [heading] without
    giving it a type, so it stays a JSON value. *)
Record Section := {
  section_heading : json;
  section_column : Z;
  section_pages : list Page
}.

Record Meta := {
  parameters : Parameters;
  contents : list Section
}.

Definition as_string (j : option json) : option jsstring :=
  match j with Some (JStr s) => Some s | _ => None end.

Definition as_link (j : option json) : option Link :=
  match j with
  | Some (JObj fields) =>
      n ← as_string (get (js "name") fields);
      u ← as_string (get (js "url") fields);
      Some {| link_name := n; link_url := u |}
  | _ => None
  end.

Definition as_list {A} (f : option json -> option A) (j : option json) : option (list A) :=
  match j with
  | Some (JArr xs) => mapM (fun x => f (Some x)) xs
  | _ => None
  end.

Definition decodeParameters (j : json) : option Parameters :=
  match j with
  | JObj o =>
      title ← as_string (get (js "title") o);
      name ← as_string (get (js "name") o);
      version ← as_string (get (js "version") o);
      date ← as_string (get (js "date") o);
      organization ← as_link (get (js "organization") o);
      author ← as_link (get (js "author") o);
      owner ← as_link (get (js "owner") o);
      contributors ← as_list as_link (get (js "contributors") o);
      website ← as_link (get (js "website") o);
      backlink ← match get (js "backlink") o with
                 | None => Some None
                 | Some b => Some <$> as_link (Some b)
                 end;
      module ← as_string (get (js "module") o);
      id ← as_string (get (js "id") o);
      summary ← as_string (get (js "summary") o);
      marking ← as_string (get (js "marking") o);
      legalese ← as_string (get (js "legalese") o);
      Some {| p_title := title; p_name := name; p_version := version;
              p_date := date; p_organization := organization;
              p_author := author; p_owner := owner;
              p_contributors := contributors; p_website := website;
              p_backlink := backlink; p_module := module; p_id := id;
              p_summary := summary; p_marking := marking;
              p_legalese := legalese |}
  | _ => None
  end.

Definition as_page (j : option json) : option Page :=
  match j with
  | Some (JObj o) =>
      title ← as_string (get (js "title") o);
      source ← as_string (get (js "source") o);
      Some {| page_title := title; page_source := source;
              page_html := match get (js "html") o with
                           | Some (JBool true) => true
                           | _ => false
                           end |}
  | _ => None
  end.

Definition as_integer (j : option json) : option Z :=
  match j with
  | Some (JNum q) => if is_integer q then Some (Qnum q / Zpos (Qden q)) else None
  | _ => None
  end.

Definition as_section (j : option json) : option Section :=
  match j with
  | Some (JObj o) =>
      heading ← get (js "heading") o;
      column ← as_integer (get (js "column") o);
      pages ← as_list as_page (get (js "pages") o);
      Some {| section_heading := heading; section_column := column;
              section_pages := pages |}
  | _ => None
  end.

Definition decodeContents (j : json) : option (list Section) :=
  as_list as_section (Some j).

(** ** Options, as [setOptions] leaves them *)

Record Options := {
  input : jsstring;
  output : jsstring;
  verbose : bool;
  pdf : bool;
  redirect : bool;
  pageToc : bool;
  mathKatex : bool;
  mathMathjax : bool;
  wkhtmltopdfPath : jsstring;
  pdfDelay : jsstring;
  setVersion : option jsstring;      (* [None] is the value [false] *)
  setReleaseDate : option jsstring   (* [None] is the value [false] *)
}.

Definition version : jsstring := js "2.1.3".

(** The output of [wkhtmltopdf -V] that the tool was tested with. *)
Definition wkhtmltopdfVersion : jsstring :=
  js "wkhtmltopdf 0.12.2.1 (with patched qt)".

(** ** The DOM of cheerio

    A document is kept as the text it was loaded from and the mutations made
    on it since; how cheerio serialises it and which headings it finds there
    is left to the library ([Libraries] below). *)

Inductive DomOp :=
| set_html (selector content : jsstring)            (* $(sel).html(content) *)
| set_text (selector content : jsstring)            (* $(sel).text(content) *)
| set_attr (selector name value : jsstring)         (* $(sel).attr(name, value) *)
| set_css (selector property value : jsstring)      (* $(sel).css(property, value) *)
| addClass (selector class : jsstring)              (* $(sel).addClass(class) *)
| prepend (selector content : jsstring)             (* $(sel).prepend(content) *)
| append (selector content : jsstring)              (* $(sel).append(content) *)
| set_heading_id (index : nat) (value : jsstring).  (* $(this).attr('id', value) in headings.each *)

Record Dom := { dom_loaded : jsstring; dom_ops : list DomOp }.

(** [cheerio.load(text)] *)
Definition cheerio_load (text : jsstring) : Dom :=
  {| dom_loaded := text; dom_ops := [] |}.

Definition mutate (d : Dom) (ops : list DomOp) : Dom :=
  {| dom_loaded := dom_loaded d; dom_ops := dom_ops d ++ ops |}.

Record Templates := {
  t_main : Dom;
  t_redirect : Dom;
  t_webCover : Dom;
  t_pdfCover : Dom;
  t_pdfHeader : Dom;
  t_pdfFooter : Dom
}.

(** A value of the [pages] object: the HTML text that [loadMarkdown] stores,
    then the document that [processContent] puts in its place. *)
Inductive PageValue :=
| Rendered (text : jsstring)
| Composed (d : Dom).

(** ** Errors, effects and the outside world *)

Inductive Error :=
| IOError (path : jsstring)        (* a failed fs call *)
| SyntaxError                      (* JSON.parse *)
| ValidationError                  (* validator.getLastError() *)
| TypeError (property : jsstring)  (* a property read on undefined *)
| ReferenceError (name : jsstring) (* an undeclared variable *)
| RenderError                      (* thrown by markdown.render *)
| ExecError.                       (* a child process that cannot be started *)

Inductive Colour := green | greenBold | red | yellow | plain.

Inductive Event :=
| console_log (c : Colour) (msg : jsstring)
| console_log_error (e : Error)                (* console.log(chalk.red(error)) *)
| fs_readFile (path : jsstring)
| fs_writeFile (path data : jsstring)
| fs_outputFileSync (path data : jsstring)
| fs_copySync (source destination : jsstring)
| fs_removeSync (path : jsstring)
| fs_mkdirpSync (path : jsstring)
| fs_mkdirsSync (path : jsstring)
| childProcess_exec (command : jsstring)
| childProcess_spawn (command : jsstring) (args : list jsstring).

(** What the outside world answers.  Every answer is a function of the call
    alone. *)
Record World := {
  dirname : jsstring;                                (* __dirname *)
  readFile_data : jsstring -> option jsstring;       (* decoded text, or an error *)
  writeFile_ok : jsstring -> bool;
  outputFileSync_ok : jsstring -> bool;
  copySync_ok : jsstring -> jsstring -> bool;
  removeSync_ok : jsstring -> bool;
  mkdirpSync_ok : jsstring -> bool;
  mkdirsSync_ok : jsstring -> bool;
  imageSizeOf : jsstring -> option (Z * Z);          (* width and height, or an error *)
  moment_format : jsstring -> jsstring;              (* moment().format(pattern) *)
  exec_stdout : jsstring -> option jsstring;         (* stdout, or an error *)
  spawn_error : jsstring -> list jsstring -> bool;   (* an 'error' event before 'close' *)
  spawn_code : jsstring -> list jsstring -> Z        (* the code of the 'close' event *)
}.

(** The libraries the generator calls and that are not part of it. *)
Record Libraries := {
  JSON_parse : jsstring -> option json;              (* [None]: it throws *)
  markdown_render : jsstring -> option jsstring;     (* [None]: it throws *)
  spawnArgs : jsstring -> list jsstring;
  ToString : json -> jsstring;                       (* string conversion in ['...' + v] *)
  cheerio_html : Dom -> jsstring;                    (* $.html() *)
  cheerio_headings : Dom -> list jsstring;           (* the texts of $('h1, h2, h3, h4, h5, h6') *)
  cheerio_as_content : Dom -> jsstring               (* a document's $ passed where a string is expected *)
}.

(** A computation leaves a trace and returns, ends the process
    ([mainProcess.exit]) or throws (also: rejects its promise). *)
Inductive Outcome (A : Type) :=
| Return (a : A)
| Exit (code : Z)
| Throw (e : Error).
Arguments Return {A} a.
Arguments Exit {A} code.
Arguments Throw {A} e.

Definition IO (A : Type) : Type := list Event * Outcome A.

Definition ret {A} (a : A) : IO A := ([], Return a).

Definition bind {A B} (m : IO A) (k : A -> IO B) : IO B :=
  match m with
  | (t, Return a) => let (t', o) := k a in (t ++ t', o)
  | (t, Exit code) => (t, Exit code)
  | (t, Throw e) => (t, Throw e)
  end.

Notation "x <- m ;; k" := (bind m (fun x => k))
  (at level 100, m at next level, right associativity).
Notation "m ;;; k" := (bind m (fun _ => k))
  (at level 100, right associativity).

Definition emit (e : Event) : IO unit := ([e], Return tt).
Definition exit {A} (code : Z) : IO A := ([], Exit code).
Definition throw {A} (e : Error) : IO A := ([], Throw e).

(** [try { m } catch (error) { handler }], and [promise.catch(handler)]. *)
Definition catch {A} (m : IO A) (handler : Error -> IO A) : IO A :=
  match m with
  | (t, Throw e) => let (t', o) := handler e in (t ++ t', o)
  | _ => m
  end.

Definition when (b : bool) (m : IO unit) : IO unit := if b then m else ret tt.

Definition log (c : Colour) (msg : jsstring) : IO unit := emit (console_log c msg).

(** The exit status of the process once nothing is left to run: an uncaught
    exception ends Node with status 1. *)
Definition status {A} (o : Outcome A) : Z :=
  match o with
  | Return _ => 0
  | Exit code => code
  | Throw _ => 1
  end.

(** [rsvp.all] and [rsvp.hash] over promises made one after the other: the
    results are taken in the order of the calls, and the first rejection is
    the one that the [catch] of the promise gets. *)
Fixpoint mapIO {A B} (f : A -> IO B) (l : list A) : IO (list B) :=
  match l with
  | [] => ret []
  | x :: l' => y <- f x ;; ys <- mapIO f l' ;; ret (y :: ys)
  end.

Fixpoint foldIO {A S} (f : S -> A -> IO S) (l : list A) (s : S) : IO S :=
  match l with
  | [] => ret s
  | x :: l' => s' <- f s x ;; foldIO f l' s'
  end.

(** A double quote inside a literal of the source. *)
Definition dq : jsstring := [34%N].
Definition quoted (s : jsstring) : jsstring := dq ++ s ++ dq.

(** ** Navigation *)

(** [page.source.substr(0, page.source.lastIndexOf('.'))] *)
Definition name_of (source : jsstring) : jsstring :=
  substr0 source (lastIndexOf full_stop source).

(** The synthetic section that [loadMeta] pushes. *)
Definition extra : Section :=
  {| section_heading := JStr (js "Extra");
     section_column := 5;
     section_pages := [ {| page_title := js "Release notes";
                           page_source := js "release-notes.txt";
                           page_html := false |} ] |}.

(** [sortedPages]: the object [{1: [], 2: [], 3: [], 4: [], 5: []}], whose
    keys [for ... in] visits in ascending order. *)
Definition SortedPages := list (Z * list Section).

(** [headings[section.column].push(section)] *)
Definition push (key : Z) (s : Section) (headings : SortedPages) : SortedPages :=
  List.map (fun '(k, sections) => if k =? key then (k, sections ++ [s]) else (k, sections))
           headings.

Definition hasOwnProperty (headings : SortedPages) (key : Z) : bool :=
  existsb (fun '(k, _) => k =? key) headings.

(** [sortPages]: every section goes to the end of the bucket of its column,
    when there is such a bucket. *)
Definition sortPages (contents : list Section) : SortedPages :=
  fold_left (fun headings section =>
               if hasOwnProperty headings (section_column section)
               then push (section_column section) section headings
               else headings)
            contents
            [(1, []); (2, []); (3, []); (4, []); (5, [])].

Definition bucket (key : Z) (sorted : SortedPages) : list Section :=
  flat_map (fun '(k, sections) => if k =? key then sections else []) sorted.

(** The buckets that [webToc] shows: [if (key != 5)], the extra column is
    skipped. *)
Definition tocColumns (sorted : SortedPages) : SortedPages :=
  List.filter (fun '(key, _) => negb (key =? 5)) sorted.

(** The link target of a page in the table of contents:
    [let path = name + '.html']. *)
Definition tocPath (page : Page) : jsstring :=
  name_of (page_source page) ++ js ".html".

(** The sequence of [path] values that the loops of [webToc] compute. *)
Definition webTocPaths (sorted : SortedPages) : list jsstring :=
  flat_map (fun '(_, sections) =>
              flat_map (fun s => List.map tocPath (section_pages s)) sections)
           (tocColumns sorted).

(** The page paths that [getPdfArguments] appends to [allPages]:
    [let path = options.output + name + '.html']. *)
Definition pdfPath (output : jsstring) (page : Page) : jsstring :=
  output ++ name_of (page_source page) ++ js ".html".

Definition pdfPagePaths (output : jsstring) (sorted : SortedPages) : list jsstring :=
  flat_map (fun '(_, sections) =>
              flat_map (fun s => List.map (pdfPath output) (section_pages s)) sections)
           sorted.

(** An entry of [loadMarkdown]'s [keys]: a page, or the string ['ownership']. *)
Inductive Key :=
| KPage (page : Page)
| KOwnership.

(** [key.html === true]: a string has no [html] property. *)
Definition key_html (k : Key) : bool :=
  match k with KPage p => page_html p | KOwnership => false end.

(** The property name under which [pages[key.source]] stores: a string has no
    [source] property, and [undefined] as a property name reads ['undefined']. *)
Definition key_source (k : Key) : jsstring :=
  match k with KPage p => page_source p | KOwnership => js "undefined" end.

Definition pagesOf (contents : list Section) : list Page :=
  flat_map section_pages contents.

Definition keys (contents : list Section) : list Key :=
  List.map KPage (pagesOf contents) ++ [KOwnership].

Definition files (input : jsstring) (contents : list Section) : list jsstring :=
  List.map (fun p => input ++ js "/" ++ page_source p) (pagesOf contents)
  ++ [input ++ js "/release-notes.txt"].

(** [contributors.replace(/,\s*$/, '')]: a last comma followed by white space
    only is removed with that white space. *)
Definition strip_trailing_comma (s : jsstring) : jsstring :=
  match trimStart (rev s) with
  | c :: before => if (c =? 44)%N then rev before else s
  | [] => s
  end.

(** A name as a link when it has a URL, as plain text otherwise. *)
Definition link_or_text (l : Link) : jsstring :=
  if negb (jseqb (link_url l) [])
  then js "<a href=" ++ quoted (link_url l) ++ js ">" ++ link_name l ++ js "</a>"
  else link_name l.

(** [parent.split(path.sep).slice(-1).pop()] after [replace(/\/$/, '')]: the
    last component of the output path. *)
Definition slash : N := 47%N.

Definition strip_trailing_slash (s : jsstring) : jsstring :=
  match rev s with
  | c :: before => if (c =? slash)%N then rev before else s
  | [] => s
  end.

Fixpoint last_component_from (s acc : jsstring) : jsstring :=
  match s with
  | [] => rev acc
  | c :: rest =>
      if (c =? slash)%N then last_component_from rest []
      else last_component_from rest (c :: acc)
  end.

Definition last_component (s : jsstring) : jsstring := last_component_from s [].

(** ** The stages of the generator *)

Section Generator.

Variable W : World.
Variable L : Libraries.
Variable options : Options.

(** [console.log(chalk.red(error))] under [options.verbose === true]. *)
Definition log_detail (error : Error) : IO unit :=
  when (verbose options) (emit (console_log_error error)).

(** [readFile]: the promise of a file's text, without its byte-order mark. *)
Definition readFile (path : jsstring) : IO jsstring :=
  emit (fs_readFile path) ;;;
  match readFile_data W path with
  | None => log red (js "Error reading file: " ++ path) ;;; throw (IOError path)
  | Some data => ret (stripBOM data)
  end.

(** [copyDirSync] *)
Definition copyDirSync (source destination : jsstring) : IO unit :=
  catch
    (emit (fs_copySync source destination) ;;;
     (if copySync_ok W source destination then ret tt else throw (IOError source)))
    (fun error =>
       log red (js "Error copying directory: " ++ source ++ js " to " ++ destination) ;;;
       if verbose options then
         emit (console_log_error error) ;;;
         exit 1
       else ret tt).

(** [remakeDirSync] *)
Definition remakeDirSync (path : jsstring) : IO unit :=
  catch
    (emit (fs_removeSync path) ;;;
     (if removeSync_ok W path then ret tt else throw (IOError path)) ;;;
     emit (fs_mkdirpSync path) ;;;
     (if mkdirpSync_ok W path then ret tt else throw (IOError path)))
    (fun error =>
       log red (js "Error recreating directory: " ++ path) ;;;
       if verbose options then
         emit (console_log_error error) ;;;
         exit 1
       else ret tt).

(** [removeDirSync] *)
Definition removeDirSync (path : jsstring) : IO unit :=
  catch
    (emit (fs_removeSync path) ;;;
     (if removeSync_ok W path then ret tt else throw (IOError path)))
    (fun error =>
       log red (js "Error removing directory: " ++ path) ;;;
       if verbose options then
         emit (console_log_error error) ;;;
         exit 1
       else ret tt).

(** [validateJSON] *)
Definition schema_of (key : jsstring) : Schema :=
  if jseqb key (js "parameters") then schemas.parameters else schemas.contents.

Definition validateJSON (key : jsstring) (data : json) : IO bool :=
  let valid := validate (schema_of key) data in
  (if valid then ret tt
   else
     log red (js "Error parsing required file: " ++ key
              ++ js ".json (failed schema validation)") ;;;
     log_detail ValidationError) ;;;
  ret valid.

(** The body of the loop of [loadMeta] for one key: parse, validate, keep. *)
Definition parseMeta (key text : jsstring) : IO json :=
  match JSON_parse L text with
  | Some file =>
      valid <- validateJSON key file ;;
      if valid then ret file else exit 1
  | None =>
      log red (js "Error parsing required file: " ++ key ++ js ".json (invalid JSON)") ;;;
      log_detail SyntaxError ;;;
      exit 1
  end.

(** The typed view of a value kept in [meta]: a shape that the schema
    excludes would fail at the first property read. *)
Definition typed {A} (decode : json -> option A) (what : jsstring) (file : json) : IO A :=
  match decode file with
  | Some a => ret a
  | None => throw (TypeError what)
  end.

(** [webToc]: the fragments pushed on [html], in order. *)
Definition tocLink (page : Page) : jsstring :=
  js "<li><a href=" ++ quoted (tocPath page) ++ js ">" ++ page_title page ++ js "</a></li>".

Definition tocSection (section : Section) : list jsstring :=
  [js "<ul><li class=" ++ quoted (js "dg-tocHeading") ++ js ">"
    ++ ToString L (section_heading section) ++ js "</li>"]
  ++ List.map tocLink (section_pages section)
  ++ [js "</li></ul>"].

Definition tocGroup (sections : list Section) : list jsstring :=
  [js "<td class=" ++ quoted (js "dg-tocGroup") ++ js ">"]
  ++ flat_map tocSection sections
  ++ [js "</td>"].

Definition pdfName (meta : Meta) : jsstring :=
  toLowerCase (p_name (parameters meta)) ++ js ".pdf".

Definition webTocHtml (meta : Meta) (sorted : SortedPages) : list jsstring :=
  [js "<div><table class=" ++ quoted (js "unstyled") ++ js "><tr>"]
  ++ flat_map (fun '(_, sections) => tocGroup sections) (tocColumns sorted)
  ++ [js "<td class=" ++ quoted (js "dg-tocGroup") ++ js " id="
        ++ quoted (js "dg-tocFixedColumn") ++ js "><ul>";
      js "<li><span class=" ++ quoted (js "w-icon dg-tocIcon") ++ js " data-name="
        ++ quoted (js "person_group") ++ js " title=" ++ quoted (js "archive")
        ++ js "></span><a href=" ++ quoted (js "ownership.html")
        ++ js ">Ownership</a></li>";
      js "<li><span class=" ++ quoted (js "w-icon dg-tocIcon") ++ js " data-name="
        ++ quoted (js "refresh") ++ js " title=" ++ quoted (js "archive")
        ++ js "></span><a href=" ++ quoted (js "release-notes.html")
        ++ js ">Release Notes</a></li>";
      js "</ul><div>"]
  ++ (if pdf options then
        [js "<button class=" ++ quoted (js "w-icon-button")
           ++ js " onclick=" ++ quoted (js "window.location='" ++ pdfName meta ++ js "';")
           ++ js ">";
         js "<span class=" ++ quoted (js "w-icon") ++ js " data-name="
           ++ quoted (js "document") ++ js "></span>";
         js "<span>PDF copy</span>";
         js "</button>"]
      else [])
  ++ [js "</div></td>"; js "</tr></table></div>"].

(** [webToc] sorts the pages and fills [#dg-toc] of the main template. *)
Definition webToc (meta : Meta) (templates : Templates) : SortedPages * Templates :=
  let sorted := sortPages (contents meta) in
  (sorted,
   {| t_main := mutate (t_main templates)
                  [set_html (js "#dg-toc") (concat (webTocHtml meta sorted))];
      t_redirect := t_redirect templates;
      t_webCover := t_webCover templates;
      t_pdfCover := t_pdfCover templates;
      t_pdfHeader := t_pdfHeader templates;
      t_pdfFooter := t_pdfFooter templates |}).

(** [insertParameters]: the strings it computes, then the mutations of every
    template. *)
Definition number (n : Z) : jsstring := ToString L (JNum (inject_Z n)).

Definition homelink (meta : Meta) : IO jsstring :=
  match contents meta with
  | section :: _ =>
      match section_pages section with
      | page :: _ => ret (name_of (page_source page) ++ js ".html")
      | [] => throw (TypeError (js "source"))
      end
  | [] => throw (TypeError (js "pages"))
  end.

Definition contributors_text (contributors : list Link) : jsstring :=
  strip_trailing_comma
    (fold_left (fun text contributor => text ++ link_or_text contributor ++ js ", ")
               contributors []).

Definition logo_ops : list DomOp :=
  match imageSizeOf W (input options ++ js "/files/images/logo.png") with
  | Some (logoWidth, logoHeight) =>
      [set_css (js "#dg-logo") (js "background-image")
               (js "url(" ++ js "files/images/logo.png" ++ js ")");
       set_css (js "#dg-logo") (js "height") (number logoHeight ++ js "px");
       set_css (js "#dg-logo") (js "line-height") (number logoHeight ++ js "px");
       set_css (js "#dg-logo") (js "padding-left") (number (logoWidth + 25) ++ js "px")]
  | None => [set_css (js "#dg-logo") (js "padding-left") (js "0")]
  end.

Definition katex_ops : list DomOp :=
  [append (js "head")
     (js "<link rel=" ++ quoted (js "stylesheet") ++ js " href="
        ++ quoted (js "require/katex/katex.min.css") ++ js " type="
        ++ quoted (js "text/css") ++ js ">");
   append (js "head")
     (js "<script type=" ++ quoted (js "text/javascript") ++ js " src="
        ++ quoted (js "require/katex/katex.min.js") ++ js "></script>");
   append (js "head")
     (js "<script type=" ++ quoted (js "text/javascript") ++ js " src="
        ++ quoted (js "require/katexInjector.js") ++ js "></script>")].

Definition mathjax_ops : list DomOp :=
  [append (js "head")
     (js "<script type=" ++ quoted (js "text/javascript") ++ js " src="
        ++ quoted (js "https://cdn.mathjax.org/mathjax/latest/MathJax.js?config=TeX-AMS_HTML-full")
        ++ js "></script>")].

Definition insertParameters (meta : Meta) (templates : Templates) : IO Templates :=
  let p := parameters meta in
  home <- homelink meta ;;
  let date := moment_format W (js "DD/MM/YYYY") in
  let time := moment_format W (js "HH:mm:ss") in
  let year := moment_format W (js "YYYY") in
  let attribution :=
    js "Created by DocGen " ++ version ++ js " on " ++ date ++ js " at " ++ time ++ js "." in
  let releaseVersion :=
    match setVersion options with Some v => v | None => p_version p end in
  let releaseDate :=
    match setReleaseDate options with Some d => d | None => p_date p end in
  let author := link_or_text (p_author p) in
  let owner := link_or_text (p_owner p) in
  let organization := link_or_text (p_organization p) in
  let website := link_or_text (p_website p) in
  (* [meta.parameters.backlink.url]: a property read on [undefined] when
     parameters.json has no backlink *)
  backlink <- match p_backlink p with
              | Some l => ret (link_or_text l)
              | None => throw (TypeError (js "url"))
              end ;;
  let contributors := contributors_text (p_contributors p) in
  let copyright := js "&copy; " ++ year ++ js " " ++ organization in
  let webFooter :=
    js "Version " ++ releaseVersion ++ js " released on " ++ releaseDate ++ js "." in
  let ops :=
    logo_ops ++
    [set_text (js "title") (p_title p);
     set_attr (js "#dg-homelink") (js "href") home;
     set_text (js "#dg-title") (p_title p);
     set_html (js "#dg-owner") owner;
     set_text (js "#dg-version") releaseVersion;
     set_text (js "#dg-web-title-version") (js "(" ++ releaseVersion ++ js ")");
     set_text (js "#dg-release-date") releaseDate;
     set_text (js "#dg-web-footer") webFooter;
     set_html (js "#dg-author") author;
     set_html (js "#dg-contributors") contributors;
     set_text (js "#dg-module") (p_module p);
     set_html (js "#dg-id") (p_id p);
     set_html (js "#dg-website") website;
     set_html (js "#dg-backlink") backlink;
     set_text (js "#dg-summary") (p_summary p);
     set_html (js "#dg-copyright") copyright;
     set_text (js "#dg-marking") (p_marking p);
     set_text (js "#dg-legalese") (p_legalese p);
     set_text (js "#dg-attribution") attribution] in
  (* after the loop the global [$] is the last template, [pdfFooter];
     [mathKatex] resets it to [main] *)
  let main_ops :=
    ops ++ (if mathKatex options then katex_ops else [])
        ++ (if mathMathjax options && mathKatex options then mathjax_ops else []) in
  let footer_ops :=
    ops ++ (if mathMathjax options && negb (mathKatex options) then mathjax_ops else []) in
  ret {| t_main := mutate (t_main templates) main_ops;
         t_redirect := mutate (t_redirect templates) ops;
         t_webCover := mutate (t_webCover templates) ops;
         t_pdfCover := mutate (t_pdfCover templates) ops;
         t_pdfHeader := mutate (t_pdfHeader templates) ops;
         t_pdfFooter := mutate (t_pdfFooter templates) footer_ops |}.

(** [processContent], the body of its loop for one page: a clone of the main
    template around the content of [pages[key]]. *)
Definition fixed_width_container : jsstring :=
  js "<div class=" ++ quoted (js "w-fixed-width") ++ js "><div id="
    ++ quoted (js "dg-innerContent") ++ js "></div></div>".

Definition pageTocHtml (headings : list jsstring) : list jsstring :=
  match headings with
  | [] => []
  | _ =>
      [js "<ul class=" ++ quoted (js "dg-pageToc") ++ js ">"]
      ++ List.map (fun label =>
                     js "<li><a href=" ++ quoted (js "#" ++ anchor label) ++ js ">"
                       ++ label ++ js "</a></li>") headings
      ++ [js "</ul>"]
  end.

Definition heading_id_ops (headings : list jsstring) : list DomOp :=
  imap (fun index label => set_heading_id index (anchor label)) headings.

Definition composePage (templates : Templates) (pages : gmap jsstring PageValue)
           (page : Page) : gmap jsstring PageValue :=
  let key := page_source page in
  let d0 := cheerio_load (cheerio_html L (t_main templates)) in
  let d1 := mutate d0
              [set_html (js "#dg-content")
                 (if page_html page
                  then js "<div id=" ++ quoted (js "dg-innerContent") ++ js "></div>"
                  else fixed_width_container)] in
  let d2 := match pages !! key with
            | Some (Rendered text) => mutate d1 [set_html (js "#dg-innerContent") text]
            | Some (Composed c) =>
                mutate d1 [set_html (js "#dg-innerContent") (cheerio_as_content L c)]
            | None => d1
            end in
  let headings := cheerio_headings L d2 in
  let d3 := mutate d2 (heading_id_ops headings) in
  let d4 := if pageToc options && negb (page_html page)
            then mutate d3 [prepend (js "#dg-innerContent") (concat (pageTocHtml headings))]
            else d3 in
  let d5 := mutate d4
              [prepend (js "#dg-innerContent")
                 (js "<h1 id=" ++ quoted (js "dg-autoTitle") ++ js ">"
                    ++ page_title page ++ js "</h1>")] in
  let d6 := if page_html page
            then mutate d5 [addClass (js "#dg-autoTitle") (js "dg-hiddenTitle")]
            else d5 in
  let d7 := mutate d6 [addClass (js "table:not(.unstyled)") (js "w-table w-fixed w-stripe")] in
  <[key := Composed d7]> pages.

(** The web ownership page, which replaces [templates.webCover]. *)
Definition ownershipPage (templates : Templates) : Templates :=
  let d := mutate (cheerio_load (cheerio_html L (t_main templates)))
             [set_html (js "#dg-content") fixed_width_container;
              set_html (js "#dg-innerContent") (cheerio_html L (t_webCover templates))] in
  {| t_main := t_main templates;
     t_redirect := t_redirect templates;
     t_webCover := d;
     t_pdfCover := t_pdfCover templates;
     t_pdfHeader := t_pdfHeader templates;
     t_pdfFooter := t_pdfFooter templates |}.

(** [createRedirect] *)
Definition createRedirect (meta : Meta) (templates : Templates) : IO unit :=
  if redirect options then
    let parent := last_component (strip_trailing_slash (output options)) in
    homepage <- homelink meta ;;
    let redirectLink := parent ++ js "/" ++ homepage in
    let d := mutate (t_redirect templates)
               [set_attr (js "a") (js "href") redirectLink;
                set_attr (js "meta[http-equiv=REFRESH]") (js "content")
                         (js "0;url=" ++ redirectLink)] in
    let file := output options ++ js "../" ++ js "index.html" in
    catch
      (emit (fs_outputFileSync file (cheerio_html L d)) ;;;
       (if outputFileSync_ok W file then ret tt else throw (IOError file)))
      (fun error =>
         log red (js "Error writing redirect file: " ++ file) ;;;
         log_detail error)
         (* no exit: a redirect error is not a fatal error *)
  else ret tt.

(** [cleanUp] *)
Definition cleanUp (meta : Meta) (templates : Templates) : IO unit :=
  createRedirect meta templates ;;;
  when (pdf options) (removeDirSync (output options ++ js "temp")) ;;;
  log greenBold (js "Done!").

(** [pdfOptions], before [getPdfArguments] pushes on it. *)
Definition pdfOptions : list jsstring :=
  [js " --zoom 1.0";
   js " --image-quality 100";
   js " --print-media-type";
   js " --orientation portrait";
   js " --page-size A4";
   js " --margin-top 25";
   js " --margin-right 15";
   js " --margin-bottom 16";
   js " --margin-left 15";
   js " --header-spacing 5";
   js " --footer-spacing 5";
   js " --no-stop-slow-scripts"].

(** [allPages]: every page path after a space. *)
Definition allPages (sorted : SortedPages) : jsstring :=
  concat (List.map (fun path => js " " ++ path) (pdfPagePaths (output options) sorted)).

(** [getPdfArguments] *)
Definition getPdfArguments (meta : Meta) (sorted : SortedPages) : list jsstring :=
  let pdfOptions' :=
    pdfOptions ++
    [js " --javascript-delay " ++ pdfDelay options;
     js " --user-style-sheet " ++ dirname W ++ js "/pdf-stylesheet.css";
     js " --header-html " ++ output options ++ js "temp/pdfHeader.html";
     js " --footer-html " ++ output options ++ js "temp/pdfFooter.html";
     js " cover " ++ output options ++ js "temp/pdfCover.html";
     js " toc --xsl-style-sheet " ++ dirname W ++ js "/pdf-contents.xsl"] in
  let args := concat pdfOptions' ++ allPages sorted
              ++ js " " ++ output options ++ pdfName meta in
  spawnArgs L args.

(** [generatePdf]: the child process, its ['error'] event if any, then its
    ['close'] event.  The spinner, and the renderer's error stream that
    verbose diagnostics pipe to the console, are not recorded. *)
Definition generatePdf (meta : Meta) (templates : Templates) (sorted : SortedPages)
  : IO unit :=
  log green (js "Creating the PDF copy (may take some time)") ;;;
  let args := getPdfArguments meta sorted in
  emit (childProcess_spawn (wkhtmltopdfPath options) args) ;;;
  when (spawn_error W (wkhtmltopdfPath options) args)
       (log red (js "Error calling wkhtmltopdf to generate the PDF") ;;;
        log_detail ExecError) ;;;
  when (negb (verbose options)) (log plain []) ;;;
  when (negb (spawn_code W (wkhtmltopdfPath options) args =? 0))
       (log yellow (js "wkhtmltopdf exited with a warning or error: try the -v option for details")) ;;;
  cleanUp meta templates.

(** [checkPdfVersion], when [options.pdf === true]: the call of
    [wkhtmltopdf -V] and its callback. *)
Definition checkPdfVersion_pdf (meta : Meta) (templates : Templates) (sorted : SortedPages)
  : IO unit :=
  emit (childProcess_exec (wkhtmltopdfPath options ++ js " -V")) ;;;
  match exec_stdout W (wkhtmltopdfPath options ++ js " -V") with
  | None =>
      log red (js "Unable to call wkhtmltopdf. Is it installed and in path? See http://wkhtmltopdf.org") ;;;
      log_detail ExecError ;;;
      exit 1
  | Some stdout =>
      let actualWkhtmltopdfVersion := trim stdout in
      when (negb (jseqb actualWkhtmltopdfVersion wkhtmltopdfVersion))
           (log yellow (js "Warning: unexpected version of wkhtmltopdf, which may work but is not tested or supported") ;;;
            log yellow (js "   expected version: " ++ wkhtmltopdfVersion) ;;;
            log yellow (js "   detected version: " ++ actualWkhtmltopdfVersion)) ;;;
      generatePdf meta templates sorted
  end.

(** [checkPdfVersion] *)
Definition checkPdfVersion (meta : Meta) (templates : Templates) (sorted : SortedPages)
  : IO unit :=
  if pdf options then checkPdfVersion_pdf meta templates sorted
  else cleanUp meta templates.

(** [writePages], up to [rsvp.hash(promises)]: every write is started, and
    [promises] keeps, per key, the path of the last write started under it. *)
Definition pagePath (page : Page) : jsstring :=
  output options ++ name_of (page_source page) ++ js ".html".

Definition writeFile (path data : jsstring) : IO unit :=
  emit (fs_writeFile path data).

Definition writePage (pages : gmap jsstring PageValue) (page : Page)
  : IO (jsstring * jsstring) :=
  let key := page_source page in
  match pages !! key with
  | Some (Composed d) =>
      writeFile (pagePath page) (cheerio_html L d) ;;;
      ret (key, pagePath page)
  | _ => throw (TypeError (js "html"))
  end.

Definition writePdfTemplates (templates : Templates) : IO (list (jsstring * jsstring)) :=
  if pdf options then
    let pdfTempDir := output options ++ js "temp/" in
    emit (fs_mkdirsSync pdfTempDir) ;;;
    (if mkdirsSync_ok W pdfTempDir then ret tt else throw (IOError pdfTempDir)) ;;;
    writeFile (pdfTempDir ++ js "pdfCover.html") (cheerio_html L (t_pdfCover templates)) ;;;
    writeFile (pdfTempDir ++ js "pdfHeader.html") (cheerio_html L (t_pdfHeader templates)) ;;;
    writeFile (pdfTempDir ++ js "pdfFooter.html") (cheerio_html L (t_pdfFooter templates)) ;;;
    ret [(js "docgenPdfCover", pdfTempDir ++ js "pdfCover.html");
         (js "docgenPdfHeader", pdfTempDir ++ js "pdfHeader.html");
         (js "docgenPdfFooter", pdfTempDir ++ js "pdfFooter.html")]
  else ret [].

Definition writePages (meta : Meta) (templates : Templates)
           (pages : gmap jsstring PageValue) : IO (list (jsstring * jsstring)) :=
  log green (js "Writing the web page files") ;;;
  pagePromises <- mapIO (writePage pages) (pagesOf (contents meta)) ;;
  writeFile (output options ++ js "ownership.html") (cheerio_html L (t_webCover templates)) ;;;
  pdfPromises <- writePdfTemplates templates ;;
  ret (pagePromises
       ++ [(js "ownership", output options ++ js "ownership.html")]
       ++ pdfPromises).

(** [rsvp.hash(promises)]: a failed write reports itself; it rejects the
    hash unless a later write took its key in [promises]. *)
Fixpoint awaitWrites (promises : list (jsstring * jsstring)) : IO unit :=
  match promises with
  | [] => ret tt
  | (key, path) :: rest =>
      (if writeFile_ok W path then ret tt
       else
         log red (js "Error writing file: " ++ path) ;;;
         if existsb (fun '(k, _) => jseqb k key) rest then ret tt
         else throw (IOError path)) ;;;
      awaitWrites rest
  end.

(** [writePages], from [rsvp.hash(promises)] on.  The callback of
    [childProcess.exec] runs outside the promise and its [catch]. *)
Definition writePages_then (meta : Meta) (templates : Templates) (sorted : SortedPages)
           (promises : list (jsstring * jsstring)) : IO unit :=
  catch
    (awaitWrites promises ;;;
     copyDirSync (dirname W ++ js "/require") (output options ++ js "require") ;;;
     copyDirSync (input options ++ js "/files") (output options ++ js "files") ;;;
     when (mathKatex options)
          (copyDirSync (dirname W ++ js "/optional/katex")
                       (output options ++ js "require/katex")) ;;;
     if pdf options then ret tt else checkPdfVersion meta templates sorted)
    (fun error =>
       log red (js "Error writing the web page files") ;;;
       log_detail error ;;;
       exit 1) ;;;
  if pdf options then checkPdfVersion meta templates sorted else ret tt.

(** [processContent], which ends in the first half of [writePages]. *)
Definition processContent (meta : Meta) (templates : Templates)
           (pages : gmap jsstring PageValue)
  : IO (Templates * SortedPages * list (jsstring * jsstring)) :=
  log green (js "Generating the static web content") ;;;
  let '(sorted, templates1) := webToc meta templates in
  templates2 <- insertParameters meta templates1 ;;
  let pages' := fold_left (composePage templates2) (pagesOf (contents meta)) pages in
  let templates3 := ownershipPage templates2 in
  promises <- writePages meta templates3 pages' ;;
  ret (templates3, sorted, promises).

(** [loadMarkdown], the body of [files.forEach]: the text read for a key is
    stored as it is when [key.html === true], rendered otherwise.  The
    handler of the [try] reads the undeclared [file]. *)
Definition loadPage (pages : gmap jsstring PageValue) (entry : Key * jsstring)
  : IO (gmap jsstring PageValue) :=
  let '(key, page) := entry in
  catch
    (if key_html key then ret (<[key_source key := Rendered page]> pages)
     else
       match markdown_render L page with
       | Some html => ret (<[key_source key := Rendered html]> pages)
       | None => throw RenderError
       end)
    (fun error => throw (ReferenceError (js "file"))).

(** [loadMarkdown], up to [processContent()]: read every file, then store
    every text in [pages]. *)
Definition loadPages (meta : Meta) : IO (gmap jsstring PageValue) :=
  texts <- mapIO readFile (files (input options) (contents meta)) ;;
  foldIO loadPage (combine (keys (contents meta)) texts) ∅.

(** [loadMarkdown] *)
Definition loadMarkdown (meta : Meta) (templates : Templates) : IO unit :=
  log green (js "Loading source files") ;;;
  composed <-
    catch
      (pages <- loadPages meta ;;
       processContent meta templates pages)
      (fun error =>
         log red (js "Error loading source files") ;;;
         log_detail error ;;;
         exit 1) ;;
  let '(templates', sorted, promises) := composed in
  writePages_then meta templates' sorted promises.

(** [loadMeta], up to [loadMarkdown()]: read, parse and validate both files,
    then push the extra section. *)
Definition readMeta : IO Meta :=
  parameters_text <- readFile (input options ++ js "/parameters.json") ;;
  contents_text <- readFile (input options ++ js "/contents.json") ;;
  parameters_file <- parseMeta (js "parameters") parameters_text ;;
  contents_file <- parseMeta (js "contents") contents_text ;;
  parameters <- typed decodeParameters (js "parameters") parameters_file ;;
  contents <- typed decodeContents (js "contents") contents_file ;;
  (* meta.contents.push(extra) *)
  ret {| parameters := parameters; contents := contents ++ [extra] |}.

(** [loadMeta] *)
Definition loadMeta (templates : Templates) : IO unit :=
  log green (js "Loading required JSON metadata files") ;;;
  meta <-
    catch readMeta
      (fun error =>
         log red (js "Error loading required JSON metadata files") ;;;
         log_detail error ;;;
         exit 1) ;;
  loadMarkdown meta templates.

(** [loadTemplates], up to [loadMeta()]. *)
Definition readTemplates : IO Templates :=
  main <- readFile (dirname W ++ js "/templates/main.html") ;;
  redirect <- readFile (dirname W ++ js "/templates/redirect.html") ;;
  webCover <- readFile (dirname W ++ js "/templates/webCover.html") ;;
  pdfCover <- readFile (dirname W ++ js "/templates/pdfCover.html") ;;
  pdfHeader <- readFile (dirname W ++ js "/templates/pdfHeader.html") ;;
  pdfFooter <- readFile (dirname W ++ js "/templates/pdfFooter.html") ;;
  ret {| t_main := cheerio_load main;
         t_redirect := cheerio_load redirect;
         t_webCover := cheerio_load webCover;
         t_pdfCover := cheerio_load pdfCover;
         t_pdfHeader := cheerio_load pdfHeader;
         t_pdfFooter := cheerio_load pdfFooter |}.

(** [loadTemplates] *)
Definition loadTemplates : IO unit :=
  log green (js "Loading templates") ;;;
  templates <-
    catch readTemplates
      (fun error =>
         log red (js "Error loading templates") ;;;
         log_detail error ;;;
         exit 1) ;;
  loadMeta templates.

(** [run] *)
Definition run : IO unit :=
  log greenBold (js "DocGen version " ++ version) ;;;
  remakeDirSync (output options) ;;;
  loadTemplates.

End Generator.

(** ** Observations on a trace *)

(** The paths of the files that a trace writes ([fs.writeFile] and
    [fs.outputFileSync]), in the order in which the writes start. *)
Definition written (e : Event) : list jsstring :=
  match e with
  | fs_writeFile path _ => [path]
  | fs_outputFileSync path _ => [path]
  | _ => []
  end.

Definition filesWritten (t : list Event) : list jsstring := flat_map written t.

(** The directory copies that a trace starts. *)
Definition copied (e : Event) : list (jsstring * jsstring) :=
  match e with
  | fs_copySync source destination => [(source, destination)]
  | _ => []
  end.

Definition copiesStarted (t : list Event) : list (jsstring * jsstring) := flat_map copied t.

(** The renderer runs that a trace starts. *)
Definition spawned (e : Event) : list (jsstring * list jsstring) :=
  match e with
  | childProcess_spawn command args => [(command, args)]
  | _ => []
  end.

Definition rendererRuns (t : list Event) : list (jsstring * list jsstring) :=
  flat_map spawned t.

(** The contents that contents.json declares, before the extra section. *)
Definition declaredContents (W : World) (L : Libraries) (options : Options)
  : option (list Section) :=
  text ← readFile_data W (input options ++ js "/contents.json");
  file ← JSON_parse L (stripBOM text);
  decodeContents file.

(** A section of contents.json with exactly the three required properties and
    a whole number as its column. *)
Definition section_json (heading : json) (column : Z) (pages : list json) : json :=
  JObj [(js "heading", heading);
        (js "column", JNum (inject_Z column));
        (js "pages", JArr pages)].

(** ** An example project

    One section "Guide" in column 1 with one Markdown page "Intro"
    (intro.md); the site is called "Widget", version "1.0". *)

Module Example.

Definition link (name url : string) : json :=
  JObj [(js "name", JStr (js name)); (js "url", JStr (js url))].

(** parameters.json without its backlink property. *)
Definition required_parameters : list (jsstring * json) :=
  [(js "title", JStr (js "Widget manual"));
   (js "name", JStr (js "Widget"));
   (js "version", JStr (js "1.0"));
   (js "date", JStr (js "01/02/2020"));
   (js "organization", link "Acme" "http://acme.example");
   (js "author", link "Ann" "");
   (js "owner", link "Bob" "http://bob.example");
   (js "contributors", JArr [link "Cy" ""; link "Di" "http://di.example"]);
   (js "website", link "Site" "http://widget.example");
   (js "module", JStr (js "Core"));
   (js "id", JStr (js "W-1"));
   (js "summary", JStr (js "How to use the widget"));
   (js "marking", JStr (js "Public"));
   (js "legalese", JStr (js "None"))].

Definition parameters_json : json :=
  JObj (required_parameters ++ [(js "backlink", link "Back" "http://back.example")]).

Definition parameters_without_backlink : json := JObj required_parameters.

(** A parameters.json without its title. *)
Definition parameters_without_title : json :=
  JObj (List.tl required_parameters).

Definition page_json (title source : string) (flags : list (jsstring * json)) : json :=
  JObj ([(js "title", JStr (js title)); (js "source", JStr (js source))] ++ flags).

Definition contents_json : json :=
  JArr [section_json (JStr (js "Guide")) 1 [page_json "Intro" "intro.md" []]].

(** A contents.json with a raw HTML page after the Markdown page. *)
Definition contents_with_html : json :=
  JArr [section_json (JStr (js "Guide")) 2
          [page_json "Intro" "intro.md" [];
           page_json "Table" "table.html" [(js "html", JBool true)]]].

(** The same raw HTML file listed a second time, as Markdown. *)
Definition contents_with_html_twice : json :=
  JArr [section_json (JStr (js "Guide")) 2
          [page_json "Table" "table.html" [(js "html", JBool true)];
           page_json "Table again" "table.html" []]].

Definition lookup_text {A} (table : list (jsstring * A)) (key : jsstring) : option A :=
  snd <$> List.find (fun entry => jseqb (fst entry) key) table.

(** The files of the tool and of the project: a name and a text each.  The
    text of a JSON file is a tag that [JSON.parse] below maps to its value. *)
Definition disk (parameters_tag contents_tag : string) : list (jsstring * jsstring) :=
  [(js "/docgen/templates/main.html", js "<html>main</html>");
   (js "/docgen/templates/redirect.html", js "<html>redirect</html>");
   (js "/docgen/templates/webCover.html", js "<html>webCover</html>");
   (js "/docgen/templates/pdfCover.html", js "<html>pdfCover</html>");
   (js "/docgen/templates/pdfHeader.html", js "<html>pdfHeader</html>");
   (js "/docgen/templates/pdfFooter.html", js "<html>pdfFooter</html>");
   (js "docs//parameters.json", js parameters_tag);
   (js "docs//contents.json", js contents_tag);
   (js "docs//intro.md", BOM :: js "# Intro");
   (js "docs//table.html", BOM :: js "<h2>Sizes</h2> *not markdown*");
   (js "docs//release-notes.txt", js "Widget 1.0 released")].

Definition world (parameters_tag contents_tag : string) (copies_work : bool)
           (version_output : option jsstring) : World :=
  {| dirname := js "/docgen";
     readFile_data := lookup_text (disk parameters_tag contents_tag);
     writeFile_ok := fun _ => true;
     outputFileSync_ok := fun _ => true;
     copySync_ok := fun _ _ => copies_work;
     removeSync_ok := fun _ => true;
     mkdirpSync_ok := fun _ => true;
     mkdirsSync_ok := fun _ => true;
     imageSizeOf := fun _ => None;
     moment_format := fun pattern => pattern;
     exec_stdout := fun _ => version_output;
     spawn_error := fun _ _ => false;
     spawn_code := fun _ _ => 0 |}.

Definition libraries : Libraries :=
  {| JSON_parse :=
       lookup_text
         [(js "parameters", parameters_json);
          (js "parameters without backlink", parameters_without_backlink);
          (js "parameters without title", parameters_without_title);
          (js "contents", contents_json);
          (js "contents with html", contents_with_html);
          (js "contents with html twice", contents_with_html_twice)];
     markdown_render := fun text => Some (js "<p>" ++ text ++ js "</p>");
     spawnArgs := fun args => [args];
     ToString := fun v => match v with JStr s => s | _ => js "?" end;
     cheerio_html := fun d => dom_loaded d;
     cheerio_headings := fun _ => [];
     cheerio_as_content := fun d => dom_loaded d |}.

Definition options (verbose pdf : bool) : Options :=
  {| input := js "docs/";
     output := js "out/";
     verbose := verbose;
     pdf := pdf;
     redirect := false;
     pageToc := false;
     mathKatex := false;
     mathMathjax := false;
     wkhtmltopdfPath := js "wkhtmltopdf";
     pdfDelay := js "1000";
     setVersion := None;
     setReleaseDate := None |}.

End Example.

(** The shape of [sortedPages]. *)
Definition buckets (b1 b2 b3 b4 b5 : list Section) : SortedPages :=
  [(1, b1); (2, b2); (3, b3); (4, b4); (5, b5)].

(** [key] is the bucket of a section. *)
Definition in_column (key : Z) (s : Section) : bool := key =? section_column s.

(** Parameters and templates to run a single stage on. *)
Definition default_link : Link := {| link_name := js "Ann"; link_url := [] |}.

Definition default_parameters : Parameters :=
  {| p_title := js "Widget manual"; p_name := js "Widget"; p_version := js "1.0";
     p_date := js "01/02/2020"; p_organization := default_link;
     p_author := default_link; p_owner := default_link; p_contributors := [];
     p_website := default_link; p_backlink := Some default_link;
     p_module := js "Core"; p_id := js "W-1"; p_summary := js "Summary";
     p_marking := js "Public"; p_legalese := js "None" |}.

Definition default_templates : Templates :=
  {| t_main := cheerio_load (js "<html>main</html>");
     t_redirect := cheerio_load (js "<html>redirect</html>");
     t_webCover := cheerio_load (js "<html>webCover</html>");
     t_pdfCover := cheerio_load (js "<html>pdfCover</html>");
     t_pdfHeader := cheerio_load (js "<html>pdfHeader</html>");
     t_pdfFooter := cheerio_load (js "<html>pdfFooter</html>") |}.

(** A computation whose trace shows nothing to the observation [f]. *)
Definition silent {X A} (f : Event -> list X) (m : IO A) : Prop :=
  flat_map f (fst m) = [].

(** A computation that returns or ends the process with status 1, and never
    throws. *)
Definition returns_or_exits_1 {A} (m : IO A) : Prop :=
  (exists a, snd m = Return a) \/ snd m = Exit 1.

(** An observation that sees no reading, no logging and no making or removing
    of directories. *)
Definition ignores_preparation {X} (f : Event -> list X) : Prop :=
  (forall path, f (fs_readFile path) = [])
  /\ (forall c msg, f (console_log c msg) = [])
  /\ (forall e, f (console_log_error e) = [])
  /\ (forall path, f (fs_removeSync path) = [])
  /\ (forall path, f (fs_mkdirpSync path) = []).

(** The file that [loadMarkdown] reads for a key. *)
Definition key_file (input : jsstring) (k : Key) : jsstring :=
  match k with
  | KPage p => input ++ js "/" ++ page_source p
  | KOwnership => input ++ js "/release-notes.txt"
  end.

(** The sections that a contents.json value declares. *)
Definition decoded (file : json) : list Section :=
  match decodeContents file with Some sections => sections | None => [] end.

(** The files that a run writes outside the pages: the transient files of the
    PDF and the redirect file. *)
Definition pdfTemplateFiles (options : Options) : list jsstring :=
  if pdf options
  then [(output options ++ js "temp/") ++ js "pdfCover.html";
        (output options ++ js "temp/") ++ js "pdfHeader.html";
        (output options ++ js "temp/") ++ js "pdfFooter.html"]
  else [].

Definition redirectFile (options : Options) : list jsstring :=
  if redirect options then [output options ++ js "../" ++ js "index.html"] else [].

(** The output files in the words of the specification: "exactly one output
    HTML file per declared page plus ownership.html; no extra or missing
    files". *)
Definition spec_outputFiles (options : Options) (declared : list Section) : list jsstring :=
  List.map (pagePath options) (pagesOf declared) ++ [output options ++ js "ownership.html"].

(** ** Further definitions *)

(** [scaffold] *)
Definition scaffold (W : World) (options : Options) : IO unit :=
  log green (js "Creating scaffold template directory") ;;;
  copyDirSync W options (dirname W ++ js "/example") (output options).

(** The warnings of a trace: its yellow lines. *)
Definition warned (e : Event) : list jsstring :=
  match e with
  | console_log yellow msg => [msg]
  | _ => []
  end.

Definition warnings (t : list Event) : list jsstring := flat_map warned t.

(** The child processes that a trace starts, and the temp directory it
    makes. *)
Definition external (e : Event) : list Event :=
  match e with
  | childProcess_exec _ | childProcess_spawn _ _ | fs_mkdirsSync _ => [e]
  | _ => []
  end.

(** The [required] list of a schema. *)
Definition schema_required (s : Schema) : list jsstring :=
  match s with MkSchema _ required _ _ _ _ _ => required end.

(** The [type] of a schema. *)
Definition schema_type (s : Schema) : option JType :=
  match s with MkSchema type _ _ _ _ _ _ => type end.


(** The libraries with a Markdown renderer that throws on every text. *)
Definition with_failing_renderer (L : Libraries) : Libraries :=
  {| JSON_parse := JSON_parse L;
     markdown_render := fun _ => None;
     spawnArgs := spawnArgs L;
     ToString := ToString L;
     cheerio_html := cheerio_html L;
     cheerio_headings := cheerio_headings L;
     cheerio_as_content := cheerio_as_content L |}.

(** The template files that [loadTemplates] reads. *)
Definition templateFiles (W : World) : list jsstring :=
  [dirname W ++ js "/templates/main.html";
   dirname W ++ js "/templates/redirect.html";
   dirname W ++ js "/templates/webCover.html";
   dirname W ++ js "/templates/pdfCover.html";
   dirname W ++ js "/templates/pdfHeader.html";
   dirname W ++ js "/templates/pdfFooter.html"].


(** * Properties *)

(** ** Heading anchors *)










(** ** Schema validation *)

Lemma validate_unfold (s : Schema) (j : json) :
  validate s j =
  match s with
  | MkSchema type required properties items oneOf minimum maximum =>
      match type with Some t => type_ok t j | None => true end
      && required_ok required j
      && match j with
         | JObj fields =>
             forallb (fun '(k, sk) => match get k fields with
                                      | Some v => validate sk v
                                      | None => true
                                      end) properties
         | _ => true
         end
      && match items, j with
         | Some si, JArr xs => forallb (validate si) xs
         | _, _ => true
         end
      && match oneOf with
         | [] => true
         | _ => (length (List.filter (fun s' => validate s' j) oneOf) =? 1)%nat
         end
      && minimum_ok minimum j
      && maximum_ok maximum j
  end.
Proof. destruct s; reflexivity. Qed.

Lemma validate_oneOf_single (s : Schema) (j : json) :
  validate (sOneOf [s]) j = validate s j.
Proof.
  rewrite validate_unfold. unfold sOneOf. cbn -[validate].
  destruct (validate s j); destruct j; reflexivity.
Qed.

Lemma validate_array_of (s : Schema) (xs : list json) :
  validate (sArray (sOneOf [s])) (JArr xs) = forallb (validate s) xs.
Proof.
  rewrite validate_unfold. unfold sArray. cbn -[validate].
  rewrite !andb_true_r.
  induction xs as [|x xs IH]; [reflexivity|].
  cbn [forallb]. rewrite IH, validate_oneOf_single. reflexivity.
Qed.

Lemma validate_integer (lo hi c : Z) :
  validate (sInteger lo hi) (JNum (inject_Z c)) = (lo <=? c) && (c <=? hi).
Proof.
  rewrite validate_unfold. unfold sInteger.
  cbn [type_ok required_ok forallb minimum_ok maximum_ok].
  unfold is_integer, Qle_bool, inject_Z. cbn [Qnum Qden].
  rewrite Z.rem_1_r, !Z.mul_1_r. reflexivity.
Qed.

Ltac get_fields :=
  repeat match goal with
         | |- context [get ?k ?f] =>
             let r := eval vm_compute in (get k f) in
             change (get k f) with r
         end.

Lemma validate_section (h : json) (c : Z) (ps : list json) :
  validate schemas.section (section_json h c ps)
  = (1 <=? c) && (c <=? 4) && forallb (validate schemas.page) ps.
Proof.
  rewrite validate_unfold.
  unfold schemas.section, section_json, sObject, hasOwn.
  cbn [type_ok required_ok forallb minimum_ok maximum_ok].
  get_fields. cbv beta iota.
  change (JNum (c # 1)) with (JNum (inject_Z c)).
  rewrite validate_integer, validate_array_of.
  cbn [andb]. rewrite !andb_true_r. reflexivity.
Qed.

Lemma validate_contents (sections : list json) :
  validate schemas.contents (JArr sections) = forallb (validate schemas.section) sections.
Proof. apply validate_array_of. Qed.

(** C4 (as the code has it).  Among sections that are valid otherwise, a
    section with a whole-number column passes the validation of contents.json
    exactly when that column is 1, 2, 3 or 4. *)
Theorem section_column_range (before after pages : list json) (heading : json) (column : Z) :
  Forall (fun s => validate schemas.section s = true) (before ++ after) ->
  Forall (fun p => validate schemas.page p = true) pages ->
  validate schemas.contents (JArr (before ++ section_json heading column pages :: after)) = true
  <-> 1 <= column <= 4.
Proof.
  intros Hothers Hpages.
  rewrite validate_contents, forallb_app. cbn [forallb].
  apply Forall_app in Hothers as [Hbefore Hafter].
  rewrite (proj2 (forallb_forall _ _)), (proj2 (forallb_forall _ after)).
  - rewrite validate_section, (proj2 (forallb_forall _ pages)).
    + cbn [andb]. rewrite !andb_true_r, andb_true_iff, !Z.leb_le. reflexivity.
    + intros p Hp. rewrite Forall_forall in Hpages. apply Hpages.
      apply list_elem_of_In. exact Hp.
  - intros x Hx. rewrite Forall_forall in Hafter. apply Hafter, list_elem_of_In, Hx.
  - intros x Hx. rewrite Forall_forall in Hbefore. apply Hbefore, list_elem_of_In, Hx.
Qed.

Lemma section_column_range_witness :
  Forall (fun s => validate schemas.section s = true) ([] ++ []) /\
  Forall (fun p => validate schemas.page p = true) [Example.page_json "Intro" "intro.md" []] /\
  (validate schemas.contents
     (JArr ([] ++ section_json (JStr (js "Guide")) 4
                    [Example.page_json "Intro" "intro.md" []] :: [])) = true
   <-> 1 <= 4 <= 4).
Proof.
  assert (H1 : Forall (fun s => validate schemas.section s = true) ([] ++ []))
    by constructor.
  assert (H2 : Forall (fun p => validate schemas.page p = true)
                 [Example.page_json "Intro" "intro.md" []])
    by (constructor; [vm_compute; reflexivity|constructor]).
  split; [exact H1|]. split; [exact H2|].
  exact (section_column_range [] [] _ (JStr (js "Guide")) 4 H1 H2).
Defined.

(** C4, as claimed, fails: column 5 is a whole number of [1,5], and a section
    in column 5 does not pass the validation. *)
Lemma column_5_is_rejected :
  1 <= 5 <= 5
  /\ validate schemas.contents (JArr [section_json (JStr (js "Guide")) 5 []]) = false.
Proof. split; [lia|vm_compute; reflexivity]. Qed.

(** ** Navigation order *)

Lemma sortPages_step (b1 b2 b3 b4 b5 : list Section) (s : Section) :
  (if hasOwnProperty (buckets b1 b2 b3 b4 b5) (section_column s)
   then push (section_column s) s (buckets b1 b2 b3 b4 b5)
   else buckets b1 b2 b3 b4 b5)
  = buckets (b1 ++ List.filter (in_column 1) [s]) (b2 ++ List.filter (in_column 2) [s])
            (b3 ++ List.filter (in_column 3) [s]) (b4 ++ List.filter (in_column 4) [s])
            (b5 ++ List.filter (in_column 5) [s]).
Proof.
  unfold hasOwnProperty, push, buckets, in_column.
  cbn [existsb List.map List.filter].
  destruct (1 =? section_column s) eqn:E1, (2 =? section_column s) eqn:E2,
           (3 =? section_column s) eqn:E3, (4 =? section_column s) eqn:E4,
           (5 =? section_column s) eqn:E5;
    cbn [orb]; rewrite ?app_nil_r; try reflexivity;
    exfalso; rewrite ?Z.eqb_eq in *; lia.
Qed.

Lemma sortPages_from (contents : list Section) (b1 b2 b3 b4 b5 : list Section) :
  fold_left (fun headings section =>
               if hasOwnProperty headings (section_column section)
               then push (section_column section) section headings
               else headings)
            contents (buckets b1 b2 b3 b4 b5)
  = buckets (b1 ++ List.filter (in_column 1) contents)
            (b2 ++ List.filter (in_column 2) contents)
            (b3 ++ List.filter (in_column 3) contents)
            (b4 ++ List.filter (in_column 4) contents)
            (b5 ++ List.filter (in_column 5) contents).
Proof.
  revert b1 b2 b3 b4 b5.
  induction contents as [|s contents IH]; intros b1 b2 b3 b4 b5.
  - cbn [fold_left List.filter]. rewrite !app_nil_r. reflexivity.
  - cbn [fold_left]. rewrite sortPages_step, IH.
    rewrite <- !app_assoc.
    change (s :: contents) with ([s] ++ contents).
    rewrite !List.filter_app. reflexivity.
Qed.

(** Each bucket of [sortedPages] holds the sections of its column, in the
    order of [meta.contents]. *)
Lemma sortPages_buckets (contents : list Section) :
  sortPages contents
  = buckets (List.filter (in_column 1) contents) (List.filter (in_column 2) contents)
            (List.filter (in_column 3) contents) (List.filter (in_column 4) contents)
            (List.filter (in_column 5) contents).
Proof. unfold sortPages. apply (sortPages_from contents [] [] [] [] []). Qed.

Lemma bucket_sortPages_5 (contents : list Section) :
  bucket 5 (sortPages contents) = List.filter (in_column 5) contents.
Proof.
  rewrite sortPages_buckets. unfold bucket, buckets.
  cbn [flat_map Z.eqb Pos.eqb app]. rewrite app_nil_r. reflexivity.
Qed.

Lemma pdfPath_tocPath (output : jsstring) (sections : list Section) :
  flat_map (fun s => List.map (pdfPath output) (section_pages s)) sections
  = List.map (app output)
             (flat_map (fun s => List.map tocPath (section_pages s)) sections).
Proof.
  induction sections as [|s sections IH]; [reflexivity|].
  cbn [flat_map]. rewrite List.map_app, IH, List.map_map. reflexivity.
Qed.

(** C2 (as the code has it).  The page list of the PDF is the sequence of
    paths of the web table of contents, each after the output root, followed
    by the pages of column 5, which the web table of contents skips. *)
Theorem pdf_page_list_extends_toc (contents : list Section) (output : jsstring) :
  pdfPagePaths output (sortPages contents)
  = List.map (app output)
      (webTocPaths (sortPages contents)
       ++ flat_map (fun s => List.map tocPath (section_pages s))
                   (bucket 5 (sortPages contents))).
Proof.
  rewrite bucket_sortPages_5, sortPages_buckets.
  unfold pdfPagePaths, webTocPaths, tocColumns, buckets.
  cbn [flat_map List.filter Z.eqb Pos.eqb negb].
  rewrite !pdfPath_tocPath, !app_nil_r, !List.map_app, <- !app_assoc. reflexivity.
Qed.

(** C2, as claimed, fails: for an empty contents.json, whose loaded contents
    are the extra section alone, the web table of contents links no page and
    the PDF gets the release notes. *)
Lemma toc_and_pdf_page_lists_differ :
  webTocPaths (sortPages ([] ++ [extra])) = []
  /\ pdfPagePaths (js "out/") (sortPages ([] ++ [extra])) = [js "out/release-notes.html"]
  /\ webTocPaths (sortPages ([] ++ [extra]))
     <> pdfPagePaths (js "out/") (sortPages ([] ++ [extra])).
Proof.
  split; [reflexivity|]. split; [reflexivity|]. discriminate.
Qed.

(** ** Traces and outcomes *)

Arguments js : simpl never.

Lemma jseqb_eq (s t : jsstring) : jseqb s t = true <-> s = t.
Proof.
  revert t. induction s as [|c s IH]; intros [|d t]; cbn [jseqb].
  - split; reflexivity.
  - split; discriminate.
  - split; discriminate.
  - rewrite andb_true_iff, N.eqb_eq, IH. split.
    + intros [Hc Hs]. subst. reflexivity.
    + intros H. injection H as Hc Hs. auto.
Qed.

Lemma jseqb_neq (s t : jsstring) : jseqb s t = false <-> s <> t.
Proof.
  rewrite <- jseqb_eq. destruct (jseqb s t).
  - split; [discriminate|]. intros H. exfalso. apply H. reflexivity.
  - split; [discriminate|reflexivity].
Qed.

Lemma bind_Return {A B} (m : IO A) (k : A -> IO B) (t : list Event) (b : B) :
  bind m k = (t, Return b) ->
  exists t1 a t2, m = (t1, Return a) /\ k a = (t2, Return b) /\ t = t1 ++ t2.
Proof.
  destruct m as [t1 [a|code|e]]; cbn [bind]; try discriminate.
  destruct (k a) as [t2 o] eqn:Hk. intros [= <- ->].
  exists t1, a, t2. auto.
Qed.

(** A handler that always leaves ([exit]) cannot be where a result comes
    from. *)
Lemma catch_Return {A} (m : IO A) (handler : Error -> IO A) (t : list Event) (a : A) :
  (forall e t' a', handler e <> (t', Return a')) ->
  catch m handler = (t, Return a) -> m = (t, Return a).
Proof.
  intros Hh. destruct m as [t1 [a1|code|e]]; cbn [catch]; try (intros H; exact H).
  destruct (handler e) as [t' o] eqn:He. intros [= <- ->].
  exfalso. exact (Hh _ _ _ He).
Qed.

Lemma fst_bind {A B} (m : IO A) (k : A -> IO B) :
  fst (bind m k)
  = fst m ++ match snd m with Return a => fst (k a) | _ => [] end.
Proof.
  destruct m as [t [a|code|e]]; cbn [bind fst snd]; rewrite ?app_nil_r; try reflexivity.
  destruct (k a); reflexivity.
Qed.

Lemma snd_bind {A B} (m : IO A) (k : A -> IO B) :
  snd (bind m k)
  = match snd m with Return a => snd (k a) | Exit code => Exit code | Throw e => Throw e end.
Proof.
  destruct m as [t [a|code|e]]; cbn [bind fst snd]; try reflexivity.
  destruct (k a); reflexivity.
Qed.

Lemma fst_catch {A} (m : IO A) (handler : Error -> IO A) :
  fst (catch m handler)
  = fst m ++ match snd m with Throw e => fst (handler e) | _ => [] end.
Proof.
  destruct m as [t [a|code|e]]; cbn [catch fst snd]; rewrite ?app_nil_r; try reflexivity.
  destruct (handler e); reflexivity.
Qed.

Lemma snd_catch {A} (m : IO A) (handler : Error -> IO A) :
  snd (catch m handler)
  = match snd m with Throw e => snd (handler e) | o => o end.
Proof.
  destruct m as [t [a|code|e]]; cbn [catch fst snd]; try reflexivity.
  destruct (handler e); reflexivity.
Qed.

(** ** Copy failures *)

(** C3 (as the code has it).  A failed copy of a directory is reported; it
    ends the run, with status 1, when verbose diagnostics are on, and lets the
    run go on with what follows when they are off. *)
Theorem copy_failure_fatal_iff_verbose {A} (W : World) (options : Options)
        (source destination : jsstring) (next : IO A) :
  copySync_ok W source destination = false ->
  (copyDirSync W options source destination ;;; next)
  = if verbose options
    then ([fs_copySync source destination;
           console_log red (js "Error copying directory: " ++ source
                            ++ js " to " ++ destination);
           console_log_error (IOError source)],
          Exit 1)
    else ([fs_copySync source destination;
           console_log red (js "Error copying directory: " ++ source
                            ++ js " to " ++ destination)] ++ fst next,
          snd next).
Proof.
  intros Hfail. unfold copyDirSync, log, emit.
  cbn [bind catch]. rewrite Hfail. cbn [throw bind catch app].
  destruct (verbose options); cbn [bind exit ret app]; [reflexivity|].
  destruct next; reflexivity.
Qed.

Lemma copy_failure_fatal_iff_verbose_witness :
  copySync_ok (Example.world "parameters" "contents" false None)
              (js "/docgen/require") (js "out/require") = false
  /\ snd (copyDirSync (Example.world "parameters" "contents" false None)
                      (Example.options false false)
                      (js "/docgen/require") (js "out/require") ;;; ret tt)
     = Return tt.
Proof.
  split; [reflexivity|].
  rewrite (copy_failure_fatal_iff_verbose
             (Example.world "parameters" "contents" false None)
             (Example.options false false)
             (js "/docgen/require") (js "out/require") (ret tt) eq_refl).
  reflexivity.
Defined.

(** C3, as claimed, fails: with verbose diagnostics off, the copies of the
    example fail, are reported, and the run goes on to its end with
    status 0. *)
Lemma copy_failure_is_not_fatal :
  let W := Example.world "parameters" "contents" false None in
  let result := run W Example.libraries (Example.options false false) in
  copySync_ok W (js "/docgen/require") (js "out/require") = false
  /\ In (console_log red (js "Error copying directory: /docgen/require to out/require"))
        (fst result)
  /\ In (console_log greenBold (js "Done!")) (fst result)
  /\ status (snd result) = 0.
Proof.
  vm_compute. repeat split; auto 50.
Qed.

(** ** The version check of the renderer *)

Ltac io_step :=
  unfold log_detail, when, log, emit, ret, exit, throw;
  cbn [bind catch fst snd app negb flat_map spawned written copied status].




(** ** Stages that write nothing *)

Lemma silent_ret {X A} (f : Event -> list X) (a : A) : silent f (ret a).
Proof. reflexivity. Qed.

Lemma silent_exit {X A} (f : Event -> list X) (code : Z) : silent f (@exit A code).
Proof. reflexivity. Qed.

Lemma silent_throw {X A} (f : Event -> list X) (e : Error) : silent f (@throw A e).
Proof. reflexivity. Qed.

Lemma silent_emit {X} (f : Event -> list X) (e : Event) : f e = [] -> silent f (emit e).
Proof. intros H. unfold silent, emit. cbn [fst flat_map]. rewrite H. reflexivity. Qed.

Lemma silent_bind {X A B} (f : Event -> list X) (m : IO A) (k : A -> IO B) :
  silent f m -> (forall a, silent f (k a)) -> silent f (bind m k).
Proof.
  unfold silent. intros Hm Hk. rewrite fst_bind, flat_map_app, Hm.
  destruct (snd m); [apply Hk|reflexivity|reflexivity].
Qed.

Lemma silent_bind_halted {X A B} (f : Event -> list X) (m : IO A) (k : A -> IO B) :
  silent f m -> (forall a, snd m <> Return a) -> silent f (bind m k).
Proof.
  unfold silent. intros Hm Hhalt. rewrite fst_bind, flat_map_app, Hm.
  destruct (snd m) as [a| |]; [exfalso; exact (Hhalt a eq_refl)|reflexivity|reflexivity].
Qed.

Lemma silent_catch {X A} (f : Event -> list X) (m : IO A) (handler : Error -> IO A) :
  silent f m -> (forall e, silent f (handler e)) -> silent f (catch m handler).
Proof.
  unfold silent. intros Hm Hh. rewrite fst_catch, flat_map_app, Hm.
  destruct (snd m); [reflexivity|reflexivity|apply Hh].
Qed.

Lemma silent_mapIO {X A B} (f : Event -> list X) (g : A -> IO B) (l : list A) :
  (forall a, silent f (g a)) -> silent f (mapIO g l).
Proof.
  intros Hg. induction l as [|a l IH]; [reflexivity|].
  cbn [mapIO]. apply silent_bind; [apply Hg|]. intros b.
  apply silent_bind; [exact IH|]. intros bs. reflexivity.
Qed.

Lemma silent_foldIO {X A S} (f : Event -> list X) (g : S -> A -> IO S) (l : list A) (s : S) :
  (forall s a, silent f (g s a)) -> silent f (foldIO g l s).
Proof.
  intros Hg. revert s. induction l as [|a l IH]; intros s; [reflexivity|].
  cbn [foldIO]. apply silent_bind; [apply Hg|]. intros s'. apply IH.
Qed.

(** Take a computation apart down to its events. *)
Ltac silence :=
  repeat first
    [ apply silent_ret | apply silent_exit | apply silent_throw
    | apply silent_emit; reflexivity
    | apply silent_bind; [|intros ?]
    | apply silent_catch; [|intros ?]
    | match goal with
      | |- silent _ (if ?b then _ else _) => destruct b
      | |- silent _ (match ?o with Some _ => _ | None => _ end) => destruct o
      end
    | progress unfold log, when, log_detail ].

Lemma silent_readFile {X} (f : Event -> list X) (W : World) (path : jsstring) :
  f (fs_readFile path) = [] ->
  (forall c msg, f (console_log c msg) = []) ->
  silent f (readFile W path).
Proof.
  intros Hread Hlog. unfold readFile, log.
  apply silent_bind; [apply silent_emit, Hread|]. intros _.
  destruct (readFile_data W path); [apply silent_ret|].
  apply silent_bind; [apply silent_emit, Hlog|]. intros _. apply silent_throw.
Qed.

Lemma silent_remakeDirSync {X} (f : Event -> list X) (W : World) (options : Options)
      (path : jsstring) :
  f (fs_removeSync path) = [] -> f (fs_mkdirpSync path) = [] ->
  (forall c msg, f (console_log c msg) = []) ->
  (forall e, f (console_log_error e) = []) ->
  silent f (remakeDirSync W options path).
Proof.
  intros Hrm Hmk Hlog Herr. unfold remakeDirSync, log.
  apply silent_catch.
  - apply silent_bind; [apply silent_emit, Hrm|]. intros _.
    apply silent_bind; [destruct (removeSync_ok W path); silence|]. intros _.
    apply silent_bind; [apply silent_emit, Hmk|]. intros _.
    destruct (mkdirpSync_ok W path); silence.
  - intros e. apply silent_bind; [apply silent_emit, Hlog|]. intros _.
    destruct (verbose options); [|apply silent_ret].
    apply silent_bind; [apply silent_emit, Herr|]. intros _. apply silent_exit.
Qed.

Lemma silent_readTemplates {X} (f : Event -> list X) (W : World) :
  (forall path, f (fs_readFile path) = []) ->
  (forall c msg, f (console_log c msg) = []) ->
  silent f (readTemplates W).
Proof.
  intros Hread Hlog. unfold readTemplates.
  repeat (apply silent_bind; [apply silent_readFile; [apply Hread|apply Hlog]|intros ?]).
  apply silent_ret.
Qed.

Lemma silent_parseMeta {X} (f : Event -> list X) (L : Libraries) (options : Options)
      (key text : jsstring) :
  (forall c msg, f (console_log c msg) = []) ->
  (forall e, f (console_log_error e) = []) ->
  silent f (parseMeta L options key text).
Proof.
  intros Hlog Herr. unfold parseMeta, validateJSON, log_detail, when, log.
  destruct (JSON_parse L text) as [file|].
  - apply silent_bind; [|intros [|]; silence].
    apply silent_bind; [|intros _; apply silent_ret].
    destruct (validate (schema_of key) file); [apply silent_ret|].
    apply silent_bind; [apply silent_emit, Hlog|]. intros _.
    destruct (verbose options); [apply silent_emit, Herr|apply silent_ret].
  - apply silent_bind; [apply silent_emit, Hlog|]. intros _.
    apply silent_bind; [|intros _; apply silent_exit].
    destruct (verbose options); [apply silent_emit, Herr|apply silent_ret].
Qed.

Lemma silent_readMeta {X} (f : Event -> list X) (W : World) (L : Libraries)
      (options : Options) :
  (forall path, f (fs_readFile path) = []) ->
  (forall c msg, f (console_log c msg) = []) ->
  (forall e, f (console_log_error e) = []) ->
  silent f (readMeta W L options).
Proof.
  intros Hread Hlog Herr. unfold readMeta, typed.
  repeat (apply silent_bind; [apply silent_readFile; [apply Hread|apply Hlog]|intros ?]).
  repeat (apply silent_bind; [apply silent_parseMeta; [apply Hlog|apply Herr]|intros ?]).
  silence.
Qed.

(** ** Fail-fast loading of the metadata *)

Lemma returns_or_exits_1_bind {A B} (m : IO A) (k : A -> IO B) :
  returns_or_exits_1 m -> (forall a, snd (k a) = Exit 1) -> snd (bind m k) = Exit 1.
Proof.
  intros [[a Ha]|Ha] Hk; rewrite snd_bind, Ha; [apply Hk|reflexivity].
Qed.

Lemma returns_or_exits_1_remakeDirSync (W : World) (options : Options) (path : jsstring) :
  returns_or_exits_1 (remakeDirSync W options path).
Proof.
  unfold returns_or_exits_1, remakeDirSync.
  destruct (removeSync_ok W path), (mkdirpSync_ok W path), (verbose options);
    io_step; eauto.
Qed.

Lemma readFile_outcome (W : World) (path : jsstring) :
  snd (readFile W path)
  = match readFile_data W path with
    | Some data => Return (stripBOM data)
    | None => Throw (IOError path)
    end.
Proof. unfold readFile. destruct (readFile_data W path); reflexivity. Qed.

Lemma returns_or_exits_1_catch_readTemplates (W : World) (options : Options) :
  returns_or_exits_1
    (catch (readTemplates W)
           (fun error =>
              log red (js "Error loading templates") ;;;
              log_detail options error ;;;
              exit 1)).
Proof.
  unfold returns_or_exits_1. rewrite snd_catch.
  destruct (snd (readTemplates W)) as [templates|code|e] eqn:Hread.
  - eauto.
  - exfalso. revert Hread. unfold readTemplates.
    repeat (rewrite snd_bind, readFile_outcome;
            destruct (readFile_data W _); [|discriminate]).
    discriminate.
  - right. destruct (verbose options) eqn:Hv; unfold log_detail; rewrite Hv; reflexivity.
Qed.

Lemma parseMeta_invalid (L : Libraries) (options : Options) (text : jsstring) :
  JSON_parse L text = None
  \/ (exists file, JSON_parse L text = Some file
                   /\ validate schemas.parameters file = false) ->
  snd (parseMeta L options (js "parameters") text) = Exit 1.
Proof.
  unfold parseMeta, validateJSON.
  change (schema_of (js "parameters")) with schemas.parameters.
  intros [Hparse|(file & Hparse & Hvalid)]; rewrite Hparse.
  - destruct (verbose options) eqn:Hv; unfold log_detail; rewrite Hv; reflexivity.
  - rewrite Hvalid.
    destruct (verbose options) eqn:Hv; unfold log_detail; rewrite Hv; reflexivity.
Qed.

Lemma readMeta_invalid (W : World) (L : Libraries) (options : Options) :
  (forall data,
      readFile_data W (input options ++ js "/parameters.json") = Some data ->
      JSON_parse L (stripBOM data) = None
      \/ (exists file, JSON_parse L (stripBOM data) = Some file
                       /\ validate schemas.parameters file = false)) ->
  snd (readMeta W L options) = Exit 1 \/ exists e, snd (readMeta W L options) = Throw e.
Proof.
  intros Hinvalid. unfold readMeta.
  rewrite snd_bind, readFile_outcome.
  destruct (readFile_data W (input options ++ js "/parameters.json")) as [data|] eqn:Hp;
    [|right; eauto].
  rewrite snd_bind, readFile_outcome.
  destruct (readFile_data W (input options ++ js "/contents.json")); [|right; eauto].
  rewrite snd_bind, (parseMeta_invalid L options _ (Hinvalid data eq_refl)).
  left. reflexivity.
Qed.

Lemma loadMeta_invalid {X} (f : Event -> list X) (W : World) (L : Libraries)
      (options : Options) (templates : Templates) :
  ignores_preparation f ->
  snd (readMeta W L options) = Exit 1 \/ (exists e, snd (readMeta W L options) = Throw e) ->
  snd (loadMeta W L options templates) = Exit 1
  /\ silent f (loadMeta W L options templates).
Proof.
  intros (Hread & Hlog & Herr & _) Hinvalid.
  assert (Hhalt : snd (catch (readMeta W L options)
                             (fun error =>
                                log red (js "Error loading required JSON metadata files") ;;;
                                log_detail options error ;;;
                                exit 1)) = Exit 1).
  { rewrite snd_catch. destruct Hinvalid as [->|[e ->]]; [reflexivity|].
    destruct (verbose options) eqn:Hv; unfold log_detail; rewrite Hv; reflexivity. }
  unfold loadMeta. split.
  - rewrite snd_bind. cbn [log emit snd]. rewrite snd_bind, Hhalt. reflexivity.
  - apply silent_bind; [apply silent_emit, Hlog|]. intros _.
    apply silent_bind_halted; [|rewrite Hhalt; discriminate].
    apply silent_catch; [apply silent_readMeta; assumption|].
    intros e. unfold log, log_detail, when.
    apply silent_bind; [apply silent_emit, Hlog|]. intros _.
    apply silent_bind; [|intros _; apply silent_exit].
    destruct (verbose options); [apply silent_emit, Herr|apply silent_ret].
Qed.

Lemma run_invalid {X} (f : Event -> list X) (W : World) (L : Libraries) (options : Options) :
  ignores_preparation f ->
  snd (readMeta W L options) = Exit 1 \/ (exists e, snd (readMeta W L options) = Throw e) ->
  snd (run W L options) = Exit 1 /\ silent f (run W L options).
Proof.
  intros Hf Hinvalid.
  pose proof Hf as (Hread & Hlog & Herr & Hrm & Hmk).
  unfold run, loadTemplates. split.
  - rewrite snd_bind. cbn [log emit snd].
    apply returns_or_exits_1_bind; [apply returns_or_exits_1_remakeDirSync|]. intros _.
    rewrite snd_bind. cbn [log emit snd].
    apply returns_or_exits_1_bind; [apply returns_or_exits_1_catch_readTemplates|].
    intros templates. apply (loadMeta_invalid f); assumption.
  - apply silent_bind; [apply silent_emit, Hlog|]. intros _.
    apply silent_bind; [apply silent_remakeDirSync; auto|]. intros _.
    apply silent_bind; [apply silent_emit, Hlog|]. intros _.
    apply silent_bind.
    + apply silent_catch; [apply silent_readTemplates; assumption|].
      intros e. unfold log, log_detail, when.
      apply silent_bind; [apply silent_emit, Hlog|]. intros _.
      apply silent_bind; [|intros _; apply silent_exit].
      destruct (verbose options); [apply silent_emit, Herr|apply silent_ret].
    + intros templates. apply (loadMeta_invalid f); assumption.
Qed.

(** C5.  When parameters.json is not JSON or does not pass its schema, the
    run ends with status 1, and by then it has written no file, started no
    copy and started no renderer. *)
Theorem invalid_parameters_halt_before_writing (W : World) (L : Libraries)
        (options : Options) :
  (forall data,
      readFile_data W (input options ++ js "/parameters.json") = Some data ->
      JSON_parse L (stripBOM data) = None
      \/ (exists file, JSON_parse L (stripBOM data) = Some file
                       /\ validate schemas.parameters file = false)) ->
  snd (run W L options) = Exit 1
  /\ filesWritten (fst (run W L options)) = []
  /\ copiesStarted (fst (run W L options)) = []
  /\ rendererRuns (fst (run W L options)) = [].
Proof.
  intros Hinvalid. apply readMeta_invalid in Hinvalid.
  split; [|split; [|split]].
  - apply (run_invalid written); [|exact Hinvalid]. repeat split; reflexivity.
  - apply (run_invalid written); [|exact Hinvalid]. repeat split; reflexivity.
  - apply (run_invalid copied); [|exact Hinvalid]. repeat split; reflexivity.
  - apply (run_invalid spawned); [|exact Hinvalid]. repeat split; reflexivity.
Qed.

Lemma invalid_parameters_halt_before_writing_witness :
  let W := Example.world "parameters without title" "contents" true None in
  let L := Example.libraries in
  let options := Example.options false false in
  (forall data,
      readFile_data W (input options ++ js "/parameters.json") = Some data ->
      JSON_parse L (stripBOM data) = None
      \/ (exists file, JSON_parse L (stripBOM data) = Some file
                       /\ validate schemas.parameters file = false))
  /\ snd (run W L options) = Exit 1
  /\ filesWritten (fst (run W L options)) = [].
Proof.
  intros W L options.
  assert (Hinvalid : forall data,
             readFile_data W (input options ++ js "/parameters.json") = Some data ->
             JSON_parse L (stripBOM data) = None
             \/ (exists file, JSON_parse L (stripBOM data) = Some file
                              /\ validate schemas.parameters file = false)).
  { intros data Hdata. right. exists Example.parameters_without_title.
    vm_compute in Hdata. injection Hdata as <-. split; vm_compute; reflexivity. }
  split; [exact Hinvalid|].
  destruct (invalid_parameters_halt_before_writing W L options Hinvalid)
    as (Hexit & Hwritten & _).
  split; assumption.
Defined.

(** ** Parameters without a backlink *)

Lemma insertParameters_without_backlink (W : World) (L : Libraries) (options : Options)
      (meta : Meta) (templates : Templates) :
  p_backlink (parameters meta) = None ->
  exists e, insertParameters W L options meta templates = ([], Throw e).
Proof.
  intros Hback. unfold insertParameters, homelink.
  destruct (contents meta) as [|section rest]; [eexists; reflexivity|].
  destruct (section_pages section) as [|page pages]; [eexists; reflexivity|].
  rewrite Hback. eexists. reflexivity.
Qed.

(** C10.  The example parameters.json without a backlink passes the schema
    and is loaded; whatever the contents are, [insertParameters] then throws
    on it; and the run of the example reaches that point, reports "Error
    loading source files", and ends with status 1 without a file written. *)
Theorem missing_backlink_crashes_after_validation :
  exists (file : json) (p : Parameters),
    validate schemas.parameters file = true
    /\ decodeParameters file = Some p
    /\ p_backlink p = None
    /\ (forall W L options contents templates,
          exists e,
            insertParameters W L options {| parameters := p; contents := contents |}
                             templates = ([], Throw e))
    /\ let W := Example.world "parameters without backlink" "contents" true None in
       let L := Example.libraries in
       let options := Example.options false false in
       JSON_parse L (js "parameters without backlink") = Some file
       /\ (exists contents,
             snd (readMeta W L options) = Return {| parameters := p; contents := contents |})
       /\ snd (run W L options) = Exit 1
       /\ In (console_log red (js "Error loading source files")) (fst (run W L options))
       /\ filesWritten (fst (run W L options)) = [].
Proof.
  exists Example.parameters_without_backlink.
  destruct (decodeParameters Example.parameters_without_backlink) as [p|] eqn:Hp;
    [|vm_compute in Hp; discriminate].
  exists p.
  assert (Hback : p_backlink p = None).
  { vm_compute in Hp. injection Hp as <-. reflexivity. }
  split; [vm_compute; reflexivity|].
  split; [reflexivity|].
  split; [exact Hback|].
  split.
  { intros W L options contents templates.
    apply insertParameters_without_backlink. exact Hback. }
  vm_compute in Hp. injection Hp as <-.
  split; [vm_compute; reflexivity|].
  split; [eexists; vm_compute; reflexivity|].
  split; [vm_compute; reflexivity|].
  split; [vm_compute; auto 50|vm_compute; reflexivity].
Qed.

(** ** What a loaded [meta] is *)

Lemma readFile_Return (W : World) (path text : jsstring) (t : list Event) :
  readFile W path = (t, Return text) ->
  exists data, readFile_data W path = Some data /\ text = stripBOM data.
Proof.
  unfold readFile. destruct (readFile_data W path) as [data|]; [|discriminate].
  intros [= _ <-]. eauto.
Qed.

Lemma parseMeta_Return (L : Libraries) (options : Options) (key text : jsstring)
      (t : list Event) (file : json) :
  parseMeta L options key text = (t, Return file) ->
  JSON_parse L text = Some file /\ validate (schema_of key) file = true.
Proof.
  unfold parseMeta, validateJSON.
  destruct (JSON_parse L text) as [file'|].
  - destruct (validate (schema_of key) file') eqn:Hvalid.
    + intros [= _ <-]. auto.
    + destruct (verbose options) eqn:Hv; unfold log_detail; rewrite Hv; discriminate.
  - destruct (verbose options) eqn:Hv; unfold log_detail; rewrite Hv; discriminate.
Qed.

Lemma typed_Return {A} (decode : json -> option A) (what : jsstring) (file : json)
      (t : list Event) (a : A) :
  typed decode what file = (t, Return a) -> decode file = Some a.
Proof. unfold typed. destruct (decode file); [intros [= _ <-]; reflexivity|discriminate]. Qed.

Lemma readMeta_Return (W : World) (L : Libraries) (options : Options)
      (t : list Event) (meta : Meta) :
  readMeta W L options = (t, Return meta) ->
  exists contents_data contents_file declared,
    readFile_data W (input options ++ js "/contents.json") = Some contents_data
    /\ JSON_parse L (stripBOM contents_data) = Some contents_file
    /\ validate schemas.contents contents_file = true
    /\ decodeContents contents_file = Some declared
    /\ contents meta = declared ++ [extra].
Proof.
  unfold readMeta. intros H.
  apply bind_Return in H as (t1 & ptext & t1' & _ & H & _).
  apply bind_Return in H as (t2 & ctext & t2' & Hcread & H & _).
  apply bind_Return in H as (t3 & pfile & t3' & _ & H & _).
  apply bind_Return in H as (t4 & cfile & t4' & Hcparse & H & _).
  apply bind_Return in H as (t5 & p & t5' & _ & H & _).
  apply bind_Return in H as (t6 & declared & t6' & Hdecode & H & _).
  injection H as _ <-.
  apply readFile_Return in Hcread as (cdata & Hcdata & ->).
  apply parseMeta_Return in Hcparse as [Hcparse Hcvalid].
  apply typed_Return in Hdecode.
  exists cdata, cfile, declared. auto.
Qed.

Lemma integer_in_range (q : Q) (lo hi : Z) :
  is_integer q = true ->
  Qle_bool (inject_Z lo) q = true ->
  Qle_bool q (inject_Z hi) = true ->
  lo <= Qnum q / Zpos (Qden q) <= hi.
Proof.
  destruct q as [n d]. unfold is_integer, Qle_bool, inject_Z. cbn [Qnum Qden].
  rewrite !Z.mul_1_r, !Z.leb_le, Z.eqb_eq. intros Hrem Hlo Hhi.
  apply Z.rem_divide in Hrem as [k ->]; [|lia].
  rewrite Z.div_mul by lia. nia.
Qed.

Lemma as_section_column (x : json) (s : Section) :
  validate schemas.section x = true ->
  as_section (Some x) = Some s ->
  1 <= section_column s <= 4.
Proof.
  intros Hvalid Hdecode.
  destruct x as [| | | | |o]; try discriminate.
  rewrite validate_unfold in Hvalid.
  unfold schemas.section, sObject in Hvalid.
  cbn [type_ok required_ok forallb minimum_ok maximum_ok andb] in Hvalid.
  cbn [as_section] in Hdecode.
  destruct (get (js "heading") o) as [heading|]; [|discriminate].
  destruct (get (js "column") o) as [[| |q| | |]|]; try discriminate.
  cbn [as_integer mbind option_bind] in Hdecode.
  destruct (is_integer q) eqn:Hint; [|discriminate].
  cbn [mbind option_bind] in Hdecode.
  destruct (as_list as_page (get (js "pages") o)) as [pages|]; [|discriminate].
  injection Hdecode as <-. cbn [section_column].
  rewrite !andb_true_iff in Hvalid.
  destruct Hvalid as [[[[[_ Hprops] _] _] _] _].
  destruct Hprops as [_ [Hcolumn _]].
  rewrite validate_unfold in Hcolumn. unfold sInteger in Hcolumn.
  cbn [type_ok required_ok forallb minimum_ok maximum_ok andb] in Hcolumn.
  rewrite !andb_true_iff in Hcolumn.
  destruct Hcolumn as [[[[[[_ _] _] _] _] Hlo] Hhi].
  apply integer_in_range; assumption.
Qed.

Lemma decodeContents_columns (file : json) (declared : list Section) :
  validate schemas.contents file = true ->
  decodeContents file = Some declared ->
  Forall (fun s => 1 <= section_column s <= 4) declared.
Proof.
  unfold decodeContents, as_list.
  destruct file as [| | | |xs|]; try discriminate.
  rewrite validate_contents. intros Hvalid Hdecode.
  apply mapM_Some in Hdecode.
  induction Hdecode as [|x s xs declared Hx _ IH]; [constructor|].
  cbn [forallb] in Hvalid. apply andb_true_iff in Hvalid as [Hvx Hvxs].
  constructor; [exact (as_section_column x s Hvx Hx)|apply IH, Hvxs].
Qed.

(** What a loaded [meta] holds: the declared sections, all in columns 1 to 4,
    then the extra section. *)
Lemma readMeta_declared (W : World) (L : Libraries) (options : Options)
      (t : list Event) (meta : Meta) :
  readMeta W L options = (t, Return meta) ->
  exists declared,
    declaredContents W L options = Some declared
    /\ contents meta = declared ++ [extra]
    /\ Forall (fun s => 1 <= section_column s <= 4) declared.
Proof.
  intros Hmeta.
  apply readMeta_Return in Hmeta
    as (data & file & declared & Hdata & Hparse & Hvalid & Hdecode & Hcontents).
  exists declared.
  split; [unfold declaredContents; rewrite Hdata; cbn; rewrite Hparse; exact Hdecode|].
  split; [exact Hcontents|].
  exact (decodeContents_columns file declared Hvalid Hdecode).
Qed.

(** ** The extra section *)



Lemma tocColumns_sortPages (contents : list Section) :
  tocColumns (sortPages contents)
  = [(1, List.filter (in_column 1) contents); (2, List.filter (in_column 2) contents);
     (3, List.filter (in_column 3) contents); (4, List.filter (in_column 4) contents)].
Proof. rewrite sortPages_buckets. reflexivity. Qed.




(** ** Loading the source files *)

Lemma files_keys (input : jsstring) (contents : list Section) :
  files input contents = List.map (key_file input) (keys contents).
Proof.
  unfold files, keys. rewrite List.map_app, List.map_map. reflexivity.
Qed.

Lemma mapIO_Return {A B} (f : A -> IO B) (l : list A) (t : list Event) (r : list B) :
  mapIO f l = (t, Return r) ->
  Forall2 (fun a b => exists t', f a = (t', Return b)) l r.
Proof.
  revert t r. induction l as [|a l IH]; intros t r H.
  - injection H as _ <-. constructor.
  - cbn [mapIO] in H.
    apply bind_Return in H as (t1 & b & t1' & Ha & H & _).
    apply bind_Return in H as (t2 & bs & t2' & Hl & H & _).
    injection H as _ <-. constructor; [eauto|eapply IH; eassumption].
Qed.


(** Every entry that [loadMarkdown] passes to the body of its loop is a key
    with the text of its file, less the byte-order mark. *)
Lemma loadPages_entries (W : World) (input : jsstring) (contents : list Section)
      (t : list Event) (texts : list jsstring) :
  mapIO (readFile W) (files input contents) = (t, Return texts) ->
  Forall2 (fun key text =>
             exists data, readFile_data W (key_file input key) = Some data
                          /\ text = stripBOM data)
          (keys contents) texts.
Proof.
  rewrite files_keys. intros H. apply mapIO_Return in H.
  apply Forall2_fmap_l in H.
  eapply Forall2_impl; [exact H|].
  intros key text [t' Hread]. cbn in Hread. eapply readFile_Return. exact Hread.
Qed.


Lemma loadPage_Return (L : Libraries) (pages pages' : gmap jsstring PageValue) (key : Key)
      (text : jsstring) (t : list Event) :
  loadPage L pages (key, text) = (t, Return pages') ->
  exists stored, pages' = <[key_source key := Rendered stored]> pages
                 /\ (key_html key = true -> stored = text).
Proof.
  unfold loadPage. destruct (key_html key).
  - intros [= _ <-]. eauto.
  - destruct (markdown_render L text) as [html|]; [|discriminate].
    intros [= _ <-]. exists html. split; [reflexivity|discriminate].
Qed.




(** The proviso of C7 at work: table.html listed as raw HTML and then again
    as Markdown ends up rendered in [pages]. *)
Example later_markdown_entry_overwrites :
  let W := Example.world "parameters" "contents with html twice" true None in
  let meta := {| parameters := default_parameters;
                 contents := decoded Example.contents_with_html_twice ++ [extra] |} in
  match snd (loadPages W Example.libraries (Example.options false false) meta) with
  | Return pages => pages !! js "table.html"
  | _ => None
  end = Some (Rendered (js "<p><h2>Sizes</h2> *not markdown*</p>")).
Proof. vm_compute. reflexivity. Qed.

(** ** The files of a completed run *)

Lemma silent_bind_Return {X A B} (f : Event -> list X) (m : IO A) (k : A -> IO B)
      (t : list Event) (b : B) :
  silent f m ->
  bind m k = (t, Return b) ->
  exists a t1 t2, m = (t1, Return a) /\ k a = (t2, Return b)
                  /\ flat_map f t = flat_map f t2.
Proof.
  intros Hm H. apply bind_Return in H as (t1 & a & t2 & Hma & Hk & ->).
  exists a, t1, t2. split; [exact Hma|]. split; [exact Hk|].
  unfold silent in Hm. rewrite Hma in Hm. cbn [fst] in Hm.
  rewrite flat_map_app, Hm. reflexivity.
Qed.

Lemma silent_loadPages {X} (f : Event -> list X) (W : World) (L : Libraries)
      (options : Options) (meta : Meta) :
  (forall path, f (fs_readFile path) = []) ->
  (forall c msg, f (console_log c msg) = []) ->
  silent f (loadPages W L options meta).
Proof.
  intros Hread Hlog. unfold loadPages.
  apply silent_bind; [apply silent_mapIO; intros path; apply silent_readFile; auto|].
  intros texts. apply silent_foldIO. intros pages [key text]. unfold loadPage.
  destruct (key_html key); [apply silent_ret|].
  destruct (markdown_render L text); reflexivity.
Qed.

Lemma silent_insertParameters {X} (f : Event -> list X) (W : World) (L : Libraries)
      (options : Options) (meta : Meta) (templates : Templates) :
  silent f (insertParameters W L options meta templates).
Proof.
  unfold insertParameters, homelink.
  destruct (contents meta) as [|section rest]; [reflexivity|].
  destruct (section_pages section) as [|page pages]; [reflexivity|].
  destruct (p_backlink (parameters meta)); reflexivity.
Qed.

Lemma silent_copyDirSync {X} (f : Event -> list X) (W : World) (options : Options)
      (source destination : jsstring) :
  f (fs_copySync source destination) = [] ->
  (forall c msg, f (console_log c msg) = []) ->
  (forall e, f (console_log_error e) = []) ->
  silent f (copyDirSync W options source destination).
Proof.
  intros Hcopy Hlog Herr. unfold copyDirSync, log.
  apply silent_catch.
  - apply silent_bind; [apply silent_emit, Hcopy|]. intros _.
    destruct (copySync_ok W source destination); silence.
  - intros e. apply silent_bind; [apply silent_emit, Hlog|]. intros _.
    destruct (verbose options); [|apply silent_ret].
    apply silent_bind; [apply silent_emit, Herr|]. intros _. apply silent_exit.
Qed.

Lemma silent_awaitWrites {X} (f : Event -> list X) (W : World)
      (promises : list (jsstring * jsstring)) :
  (forall c msg, f (console_log c msg) = []) ->
  silent f (awaitWrites W promises).
Proof.
  intros Hlog. induction promises as [|[key path] rest IH]; [reflexivity|].
  cbn [awaitWrites]. apply silent_bind; [|intros _; exact IH].
  destruct (writeFile_ok W path); [apply silent_ret|].
  apply silent_bind; [apply silent_emit, Hlog|]. intros _.
  destruct (existsb _ rest); [apply silent_ret|apply silent_throw].
Qed.

Lemma mapIO_writePage_written (L : Libraries) (options : Options)
      (pages : gmap jsstring PageValue) (l : list Page) (t : list Event)
      (promises : list (jsstring * jsstring)) :
  mapIO (writePage L options pages) l = (t, Return promises) ->
  filesWritten t = List.map (pagePath options) l.
Proof.
  revert t promises. induction l as [|page l IH]; intros t promises H.
  - injection H as <- _. reflexivity.
  - cbn [mapIO] in H.
    apply bind_Return in H as (t1 & r & t1' & Hpage & H & ->).
    apply bind_Return in H as (t2 & rs & t2' & Hl & H & ->).
    injection H as <- _.
    unfold filesWritten in *. rewrite !flat_map_app, (IH _ _ Hl).
    unfold writePage, writeFile in Hpage.
    destruct (pages !! page_source page) as [[text|d]|]; try discriminate.
    injection Hpage as <- _. cbn [flat_map written app]. rewrite app_nil_r. reflexivity.
Qed.

Lemma writePdfTemplates_written (W : World) (L : Libraries) (options : Options)
      (templates : Templates) (t : list Event) (promises : list (jsstring * jsstring)) :
  writePdfTemplates W L options templates = (t, Return promises) ->
  filesWritten t = pdfTemplateFiles options.
Proof.
  unfold writePdfTemplates, pdfTemplateFiles, writeFile.
  destruct (pdf options); [|intros [= <- _]; reflexivity].
  destruct (mkdirsSync_ok W (output options ++ js "temp/")); [|discriminate].
  intros [= <- _]. reflexivity.
Qed.

Lemma writePages_written (W : World) (L : Libraries) (options : Options) (meta : Meta)
      (templates : Templates) (pages : gmap jsstring PageValue) (t : list Event)
      (promises : list (jsstring * jsstring)) :
  writePages W L options meta templates pages = (t, Return promises) ->
  filesWritten t
  = List.map (pagePath options) (pagesOf (contents meta))
    ++ [output options ++ js "ownership.html"] ++ pdfTemplateFiles options.
Proof.
  unfold writePages, writeFile, log. intros H.
  apply bind_Return in H as (t1 & [] & t1' & Hlog & H & ->).
  apply bind_Return in H as (t2 & pp & t2' & Hpages & H & ->).
  apply bind_Return in H as (t3 & [] & t3' & Hown & H & ->).
  apply bind_Return in H as (t4 & pdfp & t4' & Hpdf & H & ->).
  injection Hlog as <-. injection Hown as <-. injection H as <- _.
  unfold filesWritten. rewrite !flat_map_app.
  fold (filesWritten t2). fold (filesWritten t4).
  rewrite (mapIO_writePage_written _ _ _ _ _ _ Hpages).
  rewrite (writePdfTemplates_written _ _ _ _ _ _ Hpdf).
  cbn [flat_map written app]. rewrite app_nil_r. reflexivity.
Qed.

Lemma silent_removeDirSync {X} (f : Event -> list X) (W : World) (options : Options)
      (path : jsstring) :
  f (fs_removeSync path) = [] ->
  (forall c msg, f (console_log c msg) = []) ->
  (forall e, f (console_log_error e) = []) ->
  silent f (removeDirSync W options path).
Proof.
  intros Hrm Hlog Herr. unfold removeDirSync, log.
  apply silent_catch.
  - apply silent_bind; [apply silent_emit, Hrm|]. intros _.
    destruct (removeSync_ok W path); silence.
  - intros e. apply silent_bind; [apply silent_emit, Hlog|]. intros _.
    destruct (verbose options); [|apply silent_ret].
    apply silent_bind; [apply silent_emit, Herr|]. intros _. apply silent_exit.
Qed.

Lemma createRedirect_written (W : World) (L : Libraries) (options : Options)
      (meta : Meta) (templates : Templates) (t : list Event) :
  createRedirect W L options meta templates = (t, Return tt) ->
  filesWritten t = redirectFile options.
Proof.
  unfold createRedirect, redirectFile, homelink, log_detail, when.
  destruct (redirect options); [|intros [= <-]; reflexivity].
  destruct (contents meta) as [|section rest]; [discriminate|].
  destruct (section_pages section) as [|page pages]; [discriminate|].
  destruct (outputFileSync_ok W _), (verbose options); io_step;
    intros H; injection H as Ht; subst t; reflexivity.
Qed.

Lemma cleanUp_written (W : World) (L : Libraries) (options : Options)
      (meta : Meta) (templates : Templates) (t : list Event) :
  cleanUp W L options meta templates = (t, Return tt) ->
  filesWritten t = redirectFile options.
Proof.
  unfold cleanUp. intros H.
  apply bind_Return in H as (t1 & [] & t2 & Hredirect & H & ->).
  unfold filesWritten. rewrite flat_map_app.
  fold (filesWritten t1). rewrite (createRedirect_written _ _ _ _ _ _ Hredirect).
  assert (Hsilent : silent written
                      (when (pdf options) (removeDirSync W options (output options ++ js "temp")) ;;;
                       log greenBold (js "Done!"))).
  { apply silent_bind; [|intros _; apply silent_emit; reflexivity].
    unfold when. destruct (pdf options); [|apply silent_ret].
    apply silent_removeDirSync; reflexivity. }
  unfold silent in Hsilent. rewrite H in Hsilent. cbn [fst] in Hsilent.
  rewrite Hsilent. apply app_nil_r.
Qed.

Lemma generatePdf_written (W : World) (L : Libraries) (options : Options)
      (meta : Meta) (templates : Templates) (sorted : SortedPages) (t : list Event) :
  generatePdf W L options meta templates sorted = (t, Return tt) ->
  filesWritten t = redirectFile options.
Proof.
  unfold generatePdf, filesWritten. intros H.
  repeat (apply (silent_bind_Return written) in H as ([] & ? & ? & _ & H & ->);
          [|solve [apply silent_emit; reflexivity
                  |unfold when, log, log_detail;
                   repeat match goal with
                          | |- silent _ (if ?b then _ else _) => destruct b
                          end; silence]]).
  apply cleanUp_written in H. exact H.
Qed.


Lemma checkPdfVersion_written (W : World) (L : Libraries) (options : Options)
      (meta : Meta) (templates : Templates) (sorted : SortedPages) (t : list Event) :
  checkPdfVersion W L options meta templates sorted = (t, Return tt) ->
  filesWritten t = redirectFile options.
Proof.
  unfold checkPdfVersion, checkPdfVersion_pdf.
  destruct (pdf options); [|apply cleanUp_written].
  unfold filesWritten. intros H.
  apply (silent_bind_Return written) in H as ([] & ? & ? & _ & H & ->);
    [|apply silent_emit; reflexivity].
  destruct (exec_stdout W _) as [stdout|].
  - apply (silent_bind_Return written) in H as ([] & ? & ? & _ & H & ->).
    + apply generatePdf_written in H. exact H.
    + unfold when. destruct (negb _); silence.
  - exfalso. revert H. unfold log_detail, when.
    destruct (verbose options); discriminate.
Qed.

Lemma writePages_then_written (W : World) (L : Libraries) (options : Options)
      (meta : Meta) (templates : Templates) (sorted : SortedPages)
      (promises : list (jsstring * jsstring)) (t : list Event) :
  writePages_then W L options meta templates sorted promises = (t, Return tt) ->
  filesWritten t = redirectFile options.
Proof.
  unfold writePages_then. intros H.
  apply bind_Return in H as (t1 & [] & t2 & Hcopies & Hpdf & ->).
  apply catch_Return in Hcopies;
    [|intros e t' a'; unfold log, log_detail, when;
      destruct (verbose options); discriminate].
  unfold filesWritten. rewrite flat_map_app.
  repeat (apply (silent_bind_Return written) in Hcopies as ([] & ? & ? & _ & Hcopies & ->);
          [|first [apply silent_awaitWrites; reflexivity
                  |apply silent_copyDirSync; reflexivity
                  |unfold when; destruct (mathKatex options);
                   [apply silent_copyDirSync; reflexivity|apply silent_ret]]]).
  destruct (pdf options).
  - injection Hcopies as <-. apply checkPdfVersion_written in Hpdf. exact Hpdf.
  - injection Hpdf as <-. apply checkPdfVersion_written in Hcopies.
    rewrite app_nil_r. exact Hcopies.
Qed.

Lemma processContent_written (W : World) (L : Libraries) (options : Options)
      (meta : Meta) (templates : Templates) (pages : gmap jsstring PageValue)
      (t : list Event) (composed : Templates * SortedPages * list (jsstring * jsstring)) :
  processContent W L options meta templates pages = (t, Return composed) ->
  filesWritten t
  = List.map (pagePath options) (pagesOf (contents meta))
    ++ [output options ++ js "ownership.html"] ++ pdfTemplateFiles options.
Proof.
  unfold processContent, webToc, filesWritten. intros H.
  apply (silent_bind_Return written) in H as ([] & ? & ? & _ & H & ->);
    [|apply silent_emit; reflexivity].
  apply (silent_bind_Return written) in H as (templates2 & ? & ? & _ & H & ->);
    [|apply silent_insertParameters].
  apply bind_Return in H as (t1 & promises & t2 & Hwrite & H & ->).
  injection H as <- _. rewrite app_nil_r.
  apply writePages_written in Hwrite. exact Hwrite.
Qed.

Lemma loadMarkdown_written (W : World) (L : Libraries) (options : Options)
      (meta : Meta) (templates : Templates) (t : list Event) :
  loadMarkdown W L options meta templates = (t, Return tt) ->
  filesWritten t
  = List.map (pagePath options) (pagesOf (contents meta))
    ++ [output options ++ js "ownership.html"] ++ pdfTemplateFiles options
    ++ redirectFile options.
Proof.
  unfold loadMarkdown, filesWritten. intros H.
  apply (silent_bind_Return written) in H as ([] & ? & ? & _ & H & ->);
    [|apply silent_emit; reflexivity].
  apply bind_Return in H as (t1 & [[templates' sorted] promises] & t2 & Hcompose & H & ->).
  apply catch_Return in Hcompose;
    [|intros e t' a'; unfold log, log_detail, when;
      destruct (verbose options); discriminate].
  rewrite flat_map_app.
  apply (silent_bind_Return written) in Hcompose as (pages & ? & ? & _ & Hcompose & ->);
    [|apply silent_loadPages; reflexivity].
  apply processContent_written in Hcompose.
  apply writePages_then_written in H.
  unfold filesWritten in *. rewrite Hcompose, H, <- !app_assoc. reflexivity.
Qed.

Lemma pagesOf_declared (declared : list Section) :
  pagesOf (declared ++ [extra])
  = pagesOf declared ++ [ {| page_title := js "Release notes";
                             page_source := js "release-notes.txt";
                             page_html := false |} ].
Proof. unfold pagesOf. rewrite flat_map_app. reflexivity. Qed.

(** C1 (as the code has it).  A completed run has started these writes, in
    this order: one file per declared page, at the output root and named
    after the page's source; release-notes.html, the page of the extra
    section; ownership.html; the three transient files of the PDF when a PDF
    is requested; and the redirect file, outside the output root, when a
    redirect is requested.  It has started no other write. *)
Theorem files_of_completed_run (W : World) (L : Libraries) (options : Options)
        (t : list Event) :
  run W L options = (t, Return tt) ->
  exists declared,
    declaredContents W L options = Some declared
    /\ filesWritten t
       = List.map (pagePath options) (pagesOf declared)
         ++ [output options ++ js "release-notes.html";
             output options ++ js "ownership.html"]
         ++ pdfTemplateFiles options
         ++ redirectFile options.
Proof.
  unfold run, loadTemplates, loadMeta, filesWritten. intros H.
  apply (silent_bind_Return written) in H as ([] & ? & ? & _ & H & ->);
    [|apply silent_emit; reflexivity].
  apply (silent_bind_Return written) in H as ([] & ? & ? & _ & H & ->);
    [|apply silent_remakeDirSync; reflexivity].
  apply (silent_bind_Return written) in H as ([] & ? & ? & _ & H & ->);
    [|apply silent_emit; reflexivity].
  apply (silent_bind_Return written) in H as (templates & ? & ? & _ & H & ->);
    [|apply silent_catch;
      [apply silent_readTemplates; reflexivity
      |intros e; unfold log, log_detail, when; destruct (verbose options); silence]].
  apply (silent_bind_Return written) in H as ([] & ? & ? & _ & H & ->);
    [|apply silent_emit; reflexivity].
  apply (silent_bind_Return written) in H as (meta & tm & ? & Hmeta & H & ->);
    [|apply silent_catch;
      [apply silent_readMeta; reflexivity
      |intros e; unfold log, log_detail, when; destruct (verbose options); silence]].
  apply catch_Return in Hmeta;
    [|intros e t' a'; unfold log, log_detail, when;
      destruct (verbose options); discriminate].
  destruct (readMeta_declared W L options tm meta Hmeta)
    as (declared & Hdeclared & Hcontents & _).
  exists declared. split; [exact Hdeclared|].
  apply loadMarkdown_written in H. unfold filesWritten in H.
  rewrite H, Hcontents, pagesOf_declared, List.map_app, <- !app_assoc.
  reflexivity.
Qed.

Lemma files_of_completed_run_witness :
  let W := Example.world "parameters" "contents" true None in
  let L := Example.libraries in
  let options := Example.options false false in
  exists t,
    run W L options = (t, Return tt)
    /\ filesWritten t
       = [js "out/intro.html"; js "out/release-notes.html"; js "out/ownership.html"].
Proof.
  intros W L options.
  destruct (run W L options) as [t [[]| |]] eqn:Hrun;
    try (vm_compute in Hrun; discriminate).
  exists t. split; [reflexivity|].
  destruct (files_of_completed_run W L options t Hrun) as (declared & Hdeclared & ->).
  vm_compute in Hdeclared. injection Hdeclared as <-. reflexivity.
Defined.

(** C1, as claimed, fails: the completed run of the example writes
    release-notes.html, which is not the file of a declared page and not
    ownership.html. *)
Lemma release_notes_file_is_extra :
  let W := Example.world "parameters" "contents" true None in
  let L := Example.libraries in
  let options := Example.options false false in
  let declared := decoded Example.contents_json in
  snd (run W L options) = Return tt
  /\ declaredContents W L options = Some declared
  /\ In (js "out/release-notes.html") (filesWritten (fst (run W L options)))
  /\ ~ In (js "out/release-notes.html") (spec_outputFiles options declared)
  /\ filesWritten (fst (run W L options)) <> spec_outputFiles options declared.
Proof.
  intros W L options declared.
  split; [vm_compute; reflexivity|].
  split; [vm_compute; reflexivity|].
  split; [vm_compute; auto|].
  split; [|vm_compute; discriminate].
  vm_compute. intros [H|[H|[]]]; discriminate.
Qed.

(** ** Validated metadata has the typed shape

    [typed] never throws in [readMeta]: a file that passed its schema
    decodes. *)

Lemma validate_string (v : json) :
  validate sString v = true -> exists s, v = JStr s.
Proof.
  rewrite validate_unfold. unfold sString. destruct v; try discriminate. eauto.
Qed.

Lemma as_string_valid (o : list (jsstring * json)) (k : jsstring) :
  hasOwn k o = true ->
  match get k o with Some v => validate sString v | None => true end = true ->
  exists s, as_string (get k o) = Some s.
Proof.
  unfold hasOwn. destruct (get k o) as [v|]; [|discriminate].
  intros _ Hv. apply validate_string in Hv as [s ->]. eauto.
Qed.

Lemma as_link_valid_value (v : json) :
  validate schemas.link v = true -> exists l, as_link (Some v) = Some l.
Proof.
  rewrite validate_unfold. unfold schemas.link, sObject.
  destruct v as [| | | | |o]; try discriminate.
  cbn [type_ok required_ok forallb minimum_ok maximum_ok andb as_link].
  rewrite !andb_true_iff.
  intros [[[[[[Hn [Hu _]] [Hvn [Hvu _]]] _] _] _] _].
  destruct (as_string_valid o (js "name") Hn Hvn) as [n ->].
  destruct (as_string_valid o (js "url") Hu Hvu) as [u ->].
  eauto.
Qed.

Lemma as_link_valid (o : list (jsstring * json)) (k : jsstring) :
  hasOwn k o = true ->
  match get k o with Some v => validate schemas.link v | None => true end = true ->
  exists l, as_link (get k o) = Some l.
Proof.
  unfold hasOwn. destruct (get k o) as [v|]; [|discriminate].
  intros _ Hv. apply as_link_valid_value, Hv.
Qed.

Lemma mapM_valid {A} (s : Schema) (f : option json -> option A) (xs : list json) :
  (forall v, validate s v = true -> exists a, f (Some v) = Some a) ->
  forallb (validate s) xs = true ->
  exists l, mapM (fun x => f (Some x)) xs = Some l.
Proof.
  intros Hf Hv.
  induction xs as [|x xs IH]; [exists []; reflexivity|].
  cbn [forallb] in Hv. apply andb_true_iff in Hv as [Hx Hxs].
  destruct (Hf x Hx) as [a Ha]. destruct (IH Hxs) as [l Hl].
  exists (a :: l). cbn. rewrite Ha. cbn. rewrite Hl. reflexivity.
Qed.

Lemma as_list_valid {A} (s : Schema) (f : option json -> option A)
      (o : list (jsstring * json)) (k : jsstring) :
  (forall v, validate s v = true -> exists a, f (Some v) = Some a) ->
  hasOwn k o = true ->
  match get k o with Some v => validate (sArray (sOneOf [s])) v | None => true end = true ->
  exists l, as_list f (get k o) = Some l.
Proof.
  intros Hf. unfold hasOwn. destruct (get k o) as [v|]; [|discriminate].
  intros _ Hv. destruct v as [| | | |xs|]; try (rewrite validate_unfold in Hv; discriminate).
  rewrite validate_array_of in Hv. cbn [as_list].
  exact (mapM_valid s f xs Hf Hv).
Qed.

Lemma decodeParameters_valid (file : json) :
  validate schemas.parameters file = true -> exists p, decodeParameters file = Some p.
Proof.
  rewrite validate_unfold. unfold schemas.parameters, sObject.
  destruct file as [| | | | |o]; try discriminate.
  cbn [type_ok required_ok forallb minimum_ok maximum_ok andb].
  rewrite !andb_true_iff.
  intros [[[[[[Htitle [Hname [Hversion [Hdate [Horg [Hauthor [Howner [Hcontrib
            [Hwebsite [Hmodule [Hid [Hsummary [Hmarking [Hlegalese _]]]]]]]]]]]]]]
            [Vtitle [Vname [Vversion [Vdate [Vorg [Vauthor [Vowner [Vcontrib
            [Vwebsite [Vbacklink [Vmodule [Vid [Vsummary [Vmarking [Vlegalese _]]]]]]]]]]]]]]]]
           _] _] _] _].
  unfold decodeParameters.
  destruct (as_string_valid o _ Htitle Vtitle) as [? ->].
  destruct (as_string_valid o _ Hname Vname) as [? ->].
  destruct (as_string_valid o _ Hversion Vversion) as [? ->].
  destruct (as_string_valid o _ Hdate Vdate) as [? ->].
  destruct (as_link_valid o _ Horg Vorg) as [? ->].
  destruct (as_link_valid o _ Hauthor Vauthor) as [? ->].
  destruct (as_link_valid o _ Howner Vowner) as [? ->].
  destruct (as_list_valid schemas.link as_link o _ as_link_valid_value Hcontrib Vcontrib)
    as [? ->].
  destruct (as_link_valid o _ Hwebsite Vwebsite) as [? ->].
  destruct (as_string_valid o _ Hmodule Vmodule) as [? ->].
  destruct (as_string_valid o _ Hid Vid) as [? ->].
  destruct (as_string_valid o _ Hsummary Vsummary) as [? ->].
  destruct (as_string_valid o _ Hmarking Vmarking) as [? ->].
  destruct (as_string_valid o _ Hlegalese Vlegalese) as [? ->].
  cbn [mbind option_bind].
  destruct (get (js "backlink") o) as [b|]; [|eauto].
  destruct (as_link_valid_value b Vbacklink) as [l ->]. cbn. eauto.
Qed.

Lemma as_page_valid (v : json) :
  validate schemas.page v = true -> exists p, as_page (Some v) = Some p.
Proof.
  rewrite validate_unfold. unfold schemas.page, sObject.
  destruct v as [| | | | |o]; try discriminate.
  cbn [type_ok required_ok forallb minimum_ok maximum_ok andb as_page].
  rewrite !andb_true_iff.
  intros [[[[[[Ht [Hs _]] [Vt [Vs _]]] _] _] _] _].
  destruct (as_string_valid o _ Ht Vt) as [? ->].
  destruct (as_string_valid o _ Hs Vs) as [? ->].
  cbn. eauto.
Qed.

Lemma as_section_valid (v : json) :
  validate schemas.section v = true -> exists s, as_section (Some v) = Some s.
Proof.
  rewrite validate_unfold. unfold schemas.section, sObject.
  destruct v as [| | | | |o]; try discriminate.
  cbn [type_ok required_ok forallb minimum_ok maximum_ok andb as_section].
  rewrite !andb_true_iff.
  intros [[[[[[Hh [Hc [Hp _]]] [_ [Vc [Vp _]]]] _] _] _] _].
  unfold hasOwn in Hh, Hc.
  destruct (get (js "heading") o) as [heading|]; [|discriminate].
  destruct (as_list_valid schemas.page as_page o _ as_page_valid Hp Vp) as [pages ->].
  destruct (get (js "column") o) as [c|]; [|discriminate].
  rewrite validate_unfold in Vc. unfold sInteger in Vc.
  destruct c as [| |q| | |]; try discriminate.
  cbn [type_ok andb] in Vc. rewrite !andb_true_iff in Vc.
  destruct Vc as [[[[[[Hint _] _] _] _] _] _].
  cbn [as_integer mbind option_bind]. rewrite Hint. cbn. eauto.
Qed.

Lemma decodeContents_valid (file : json) :
  validate schemas.contents file = true -> exists declared, decodeContents file = Some declared.
Proof.
  intros Hvalid. unfold decodeContents.
  destruct file as [| | | |xs|]; try (rewrite validate_unfold in Hvalid; discriminate).
  rewrite validate_contents in Hvalid. cbn [as_list].
  exact (mapM_valid schemas.section as_section xs as_section_valid Hvalid).
Qed.

Lemma parseMeta_outcome (L : Libraries) (options : Options) (key text : jsstring) :
  (exists file, snd (parseMeta L options key text) = Return file
                /\ validate (schema_of key) file = true)
  \/ snd (parseMeta L options key text) = Exit 1.
Proof.
  unfold parseMeta, validateJSON.
  destruct (JSON_parse L text) as [file|];
    [destruct (validate (schema_of key) file) eqn:Hvalid|];
    destruct (verbose options) eqn:Hv; unfold log_detail; rewrite ?Hv; io_step; eauto.
Qed.

(** [readMeta] returns, exits with 1, or fails on a file it cannot read. *)
Lemma readMeta_outcome (W : World) (L : Libraries) (options : Options) :
  (exists meta, snd (readMeta W L options) = Return meta)
  \/ snd (readMeta W L options) = Exit 1
  \/ (exists path, snd (readMeta W L options) = Throw (IOError path)).
Proof.
  unfold readMeta.
  rewrite snd_bind, readFile_outcome.
  destruct (readFile_data W _) as [pdata|]; [|right; right; eauto].
  rewrite snd_bind, readFile_outcome.
  destruct (readFile_data W _) as [cdata|]; [|right; right; eauto].
  rewrite snd_bind.
  destruct (parseMeta_outcome L options (js "parameters") (stripBOM pdata))
    as [(pfile & -> & Hpvalid)| ->]; [|right; left; reflexivity].
  change (schema_of (js "parameters")) with schemas.parameters in Hpvalid.
  rewrite snd_bind.
  destruct (parseMeta_outcome L options (js "contents") (stripBOM cdata))
    as [(cfile & -> & Hcvalid)| ->]; [|right; left; reflexivity].
  change (schema_of (js "contents")) with schemas.contents in Hcvalid.
  destruct (decodeParameters_valid pfile Hpvalid) as [p Hdp].
  destruct (decodeContents_valid cfile Hcvalid) as [declared Hdc].
  unfold typed. rewrite Hdp, Hdc. left. eauto.
Qed.

(** * Further properties of the code *)

(** ** Names of output files *)

Lemma lastIndexOf_from_absent (c : N) (s : jsstring) (i found : Z) :
  Forall (fun d => d <> c) s -> lastIndexOf_from c s i found = found.
Proof.
  intros Hs. revert i found. induction Hs as [|d s Hd _ IH]; intros i found; [reflexivity|].
  cbn [lastIndexOf_from]. apply N.eqb_neq in Hd. rewrite Hd. apply IH.
Qed.

Lemma lastIndexOf_from_last (c : N) (base rest : jsstring) (i found : Z) :
  Forall (fun d => d <> c) rest ->
  lastIndexOf_from c (base ++ c :: rest) i found = i + Z.of_nat (length base).
Proof.
  intros Hrest. revert i found. induction base as [|b base IH]; intros i found.
  - cbn [app lastIndexOf_from length]. rewrite N.eqb_refl.
    rewrite lastIndexOf_from_absent by exact Hrest. lia.
  - cbn [app lastIndexOf_from length]. rewrite IH. lia.
Qed.

(** X1.  The name of an output file is the page's source up to its last full
    stop: an extension without a full stop is dropped, whatever full stops
    the part before it has; and a source without any full stop has the empty
    name, so that its page goes to the file ".html" of the output root. *)
Theorem name_of_drops_last_extension (options : Options) (base extension title : jsstring)
        (html : bool) :
  Forall (fun c => c <> full_stop) extension ->
  name_of (base ++ full_stop :: extension) = base
  /\ pagePath options {| page_title := title; page_source := base ++ full_stop :: extension;
                         page_html := html |}
     = output options ++ base ++ js ".html"
  /\ name_of extension = []
  /\ pagePath options {| page_title := title; page_source := extension; page_html := html |}
     = output options ++ js ".html".
Proof.
  intros Hext.
  assert (Hname : name_of (base ++ full_stop :: extension) = base).
  { unfold name_of, lastIndexOf. rewrite lastIndexOf_from_last by exact Hext.
    unfold substr0. destruct base as [|b base]; [reflexivity|].
    destruct (0 + Z.of_nat (length (b :: base)) <=? 0) eqn:Hlen;
      [apply Z.leb_le in Hlen; cbn [length] in Hlen; lia|].
    rewrite Z.add_0_l, Nat2Z.id. apply (take_app_length (b :: base)). }
  assert (Hnone : name_of extension = []).
  { unfold name_of, lastIndexOf. rewrite lastIndexOf_from_absent by exact Hext.
    reflexivity. }
  unfold pagePath. cbn [page_source]. rewrite Hname, Hnone. auto.
Qed.

Lemma name_of_drops_last_extension_witness :
  Forall (fun c => c <> full_stop) (js "md")
  /\ name_of (js "notes.v2" ++ full_stop :: js "md") = js "notes.v2"
  /\ name_of (js "md") = [].
Proof.
  assert (H : Forall (fun c => c <> full_stop) (js "md"))
    by (repeat constructor; discriminate).
  destruct (name_of_drops_last_extension (Example.options false false)
              (js "notes.v2") (js "md") (js "Notes") false H) as (H1 & _ & H2 & _).
  auto.
Defined.

(** ** The contributors line *)

Lemma fold_left_contributors (contributors : list Link) (text : jsstring) :
  fold_left (fun text contributor => text ++ link_or_text contributor ++ js ", ")
            contributors text
  = text ++ concat (List.map (fun c => link_or_text c ++ js ", ") contributors).
Proof.
  revert text. induction contributors as [|c l IH]; intros text.
  - cbn. rewrite app_nil_r. reflexivity.
  - cbn [fold_left List.map concat]. rewrite IH, <- !app_assoc. reflexivity.
Qed.

Lemma strip_trailing_comma_separator (text : jsstring) :
  strip_trailing_comma (text ++ js ", ") = text.
Proof.
  unfold strip_trailing_comma.
  change (js ", ") with [44%N; 32%N].
  rewrite rev_app_distr. cbn [rev app trimStart].
  change (is_whitespace 32) with true. cbn [trimStart].
  change (is_whitespace 44) with false. cbn [N.eqb Pos.eqb].
  apply rev_involutive.
Qed.

(** X2.  The contributors line is empty for no contributor; otherwise it is
    the contributors, each as a link or as plain text, with ", " between
    them and nothing after the last one. *)
Theorem contributors_are_comma_separated (contributors : list Link) (last : Link) :
  contributors_text [] = []
  /\ contributors_text (contributors ++ [last])
     = concat (List.map (fun c => link_or_text c ++ js ", ") contributors)
       ++ link_or_text last.
Proof.
  split; [reflexivity|].
  unfold contributors_text. rewrite fold_left_contributors.
  rewrite List.map_app, concat_app. cbn [List.map concat app].
  rewrite app_nil_r, app_assoc. apply strip_trailing_comma_separator.
Qed.

(** ** Anchors *)




(** ** The sorted pages *)

(** X4.  [sortPages] always has the five buckets 1 to 5, in this order; the
    bucket of a column holds the sections of that column in the order of the
    contents, and a section whose column is none of 1 to 5 is in no
    bucket. *)
Theorem sortPages_partitions (contents : list Section) (key : Z) :
  List.map fst (sortPages contents) = [1; 2; 3; 4; 5]
  /\ bucket key (sortPages contents)
     = (if (1 <=? key) && (key <=? 5) then List.filter (in_column key) contents else [])
  /\ flat_map snd (sortPages contents)
     = List.filter (in_column 1) contents ++ List.filter (in_column 2) contents
       ++ List.filter (in_column 3) contents ++ List.filter (in_column 4) contents
       ++ List.filter (in_column 5) contents.
Proof.
  rewrite sortPages_buckets. unfold buckets, bucket.
  split; [reflexivity|]. split; [|cbn [flat_map snd]; rewrite app_nil_r; reflexivity].
  cbn [flat_map]. rewrite app_nil_r.
  destruct (1 =? key) eqn:E1, (2 =? key) eqn:E2, (3 =? key) eqn:E3,
           (4 =? key) eqn:E4, (5 =? key) eqn:E5;
    rewrite ?Z.eqb_eq, ?Z.eqb_neq in *; try lia; subst;
    cbn [app andb Z.leb Z.compare Pos.compare Pos.compare_cont]; rewrite ?app_nil_r;
    try reflexivity.
  destruct ((1 <=? key) && (key <=? 5)) eqn:Hrange; [|reflexivity].
  apply andb_true_iff in Hrange as [H1 H5]. apply Z.leb_le in H1, H5. lia.
Qed.

Lemma flat_map_filter_cons {A B} (g : A -> list B) (P : A -> bool) (a : A) (l : list A) :
  flat_map g (List.filter P (a :: l))
  = (if P a then g a else []) ++ flat_map g (List.filter P l).
Proof. cbn [List.filter]. destruct (P a); reflexivity. Qed.

Lemma buckets_Permutation {B} (g : Section -> list B) (contents : list Section) :
  Forall (fun s => 1 <= section_column s <= 5) contents ->
  Permutation
    (flat_map g (List.filter (in_column 1) contents)
     ++ flat_map g (List.filter (in_column 2) contents)
     ++ flat_map g (List.filter (in_column 3) contents)
     ++ flat_map g (List.filter (in_column 4) contents)
     ++ flat_map g (List.filter (in_column 5) contents))
    (flat_map g contents).
Proof.
  induction 1 as [|s contents Hs _ IH]; [reflexivity|].
  rewrite !flat_map_filter_cons. cbn [flat_map]. rewrite <- IH.
  unfold in_column at 1 3 5 7 9.
  assert (Hc : section_column s = 1 \/ section_column s = 2 \/ section_column s = 3
               \/ section_column s = 4 \/ section_column s = 5) by lia.
  destruct Hc as [-> | [-> | [-> | [-> | ->]]]];
    cbn [Z.eqb Pos.eqb app]; solve_Permutation.
Qed.

(** X5.  When every section is in a column from 1 to 5, as all sections of a
    loaded contents are, the page list of the PDF holds the path of every
    page that [writePages] writes, as often as it is written: the two lists
    are permutations of each other (the PDF goes by column, the writes by
    the order of the contents). *)
Theorem pdf_pages_are_the_written_pages (options : Options) (contents : list Section) :
  Forall (fun s => 1 <= section_column s <= 5) contents ->
  Permutation (pdfPagePaths (output options) (sortPages contents))
              (List.map (pagePath options) (pagesOf contents)).
Proof.
  intros Hcolumns. rewrite sortPages_buckets.
  unfold pdfPagePaths, buckets, pagesOf. cbn [flat_map]. rewrite app_nil_r.
  rewrite (buckets_Permutation _ contents Hcolumns).
  clear Hcolumns. induction contents as [|s contents IH]; [reflexivity|].
  cbn [flat_map]. rewrite List.map_app, IH. reflexivity.
Qed.

Lemma pdf_pages_are_the_written_pages_witness :
  let contents := decoded Example.contents_with_html ++ [extra] in
  Forall (fun s => 1 <= section_column s <= 5) contents
  /\ Permutation (pdfPagePaths (js "out/") (sortPages contents))
                 [js "out/intro.html"; js "out/table.html"; js "out/release-notes.html"].
Proof.
  intros contents.
  assert (H : Forall (fun s => 1 <= section_column s <= 5) contents).
  { unfold contents.
    let l := eval vm_compute in (decoded Example.contents_with_html) in
    change (decoded Example.contents_with_html) with l.
    repeat constructor; cbn; lia. }
  split; [exact H|].
  exact (pdf_pages_are_the_written_pages (Example.options false false) contents H).
Defined.

(** ** The table of contents *)

Lemma tocLink_in_group (L : Libraries) (sections : list Section) (s : Section) (p : Page) :
  In s sections -> In p (section_pages s) -> In (tocLink p) (tocGroup L sections).
Proof.
  intros Hs Hp. unfold tocGroup. apply in_app_iff. right. apply in_app_iff. left.
  apply in_flat_map. exists s. split; [exact Hs|].
  unfold tocSection. apply in_app_iff. right. apply in_app_iff. left.
  apply in_map. exact Hp.
Qed.

(** X6.  Every page of a section in one of the columns 1 to 4 has its link
    in the table of contents that [webToc] builds: a list item with the page's
    output path as target and the page's title as text. *)
Theorem toc_links_every_page (L : Libraries) (options : Options) (meta : Meta)
        (contents : list Section) (s : Section) (p : Page) :
  In s contents ->
  1 <= section_column s <= 4 ->
  In p (section_pages s) ->
  In (js "<li><a href=" ++ quoted (name_of (page_source p) ++ js ".html") ++ js ">"
        ++ page_title p ++ js "</a></li>")
     (webTocHtml L options meta (sortPages contents)).
Proof.
  intros Hs Hcolumn Hp. unfold webTocHtml.
  apply in_app_iff. right. apply in_app_iff. left.
  rewrite tocColumns_sortPages. apply in_flat_map.
  exists (section_column s, List.filter (in_column (section_column s)) contents).
  split.
  - assert (Hc : section_column s = 1 \/ section_column s = 2 \/ section_column s = 3
                 \/ section_column s = 4) by lia.
    destruct Hc as [-> | [-> | [-> | ->]]]; cbn; auto.
  - apply (tocLink_in_group L _ s p); [|exact Hp].
    apply filter_In. split; [exact Hs|]. unfold in_column. apply Z.eqb_refl.
Qed.

Lemma toc_links_every_page_witness :
  let contents := decoded Example.contents_json ++ [extra] in
  let s := {| section_heading := JStr (js "Guide"); section_column := 1;
              section_pages := [ {| page_title := js "Intro"; page_source := js "intro.md";
                                    page_html := false |} ] |} in
  let p := {| page_title := js "Intro"; page_source := js "intro.md"; page_html := false |} in
  In s contents /\ 1 <= section_column s <= 4 /\ In p (section_pages s)
  /\ In (js "<li><a href=" ++ quoted (js "intro.html") ++ js ">Intro</a></li>")
        (webTocHtml Example.libraries (Example.options false false)
                    {| parameters := default_parameters; contents := contents |}
                    (sortPages contents)).
Proof.
  intros contents s p.
  assert (Hs : In s contents) by (left; reflexivity).
  assert (Hc : 1 <= section_column s <= 4) by (cbn; lia).
  assert (Hp : In p (section_pages s)) by (left; reflexivity).
  repeat (split; [assumption|]).
  exact (toc_links_every_page Example.libraries (Example.options false false)
           {| parameters := default_parameters; contents := contents |}
           contents s p Hs Hc Hp).
Defined.

(** ** The output directory *)

(** X7.  Whatever the input is, a run first announces its version and then
    removes the output directory: nothing has been read or validated by
    then. *)
Theorem run_removes_output_first (W : World) (L : Libraries) (options : Options) :
  exists rest,
    fst (run W L options)
    = console_log greenBold (js "DocGen version " ++ version)
      :: fs_removeSync (output options) :: rest.
Proof.
  unfold run. rewrite fst_bind. cbn [log emit fst snd app].
  rewrite fst_bind. unfold remakeDirSync at 1. rewrite fst_catch, fst_bind.
  cbn [emit fst app]. eexists. reflexivity.
Qed.

(** X8.  When the output directory cannot be removed, [remakeDirSync] does not
    try to create it; it reports the failure, and ends the run with status 1
    only under verbose diagnostics: otherwise the run goes on to load the
    templates. *)
Theorem remakeDirSync_failed_removal (W : World) (L : Libraries) (options : Options) :
  removeSync_ok W (output options) = false ->
  remakeDirSync W options (output options)
  = ([fs_removeSync (output options);
      console_log red (js "Error recreating directory: " ++ output options)]
     ++ (if verbose options then [console_log_error (IOError (output options))] else []),
     if verbose options then Exit 1 else Return tt)
  /\ (verbose options = false ->
      run W L options
      = ([console_log greenBold (js "DocGen version " ++ version);
          fs_removeSync (output options);
          console_log red (js "Error recreating directory: " ++ output options)]
         ++ fst (loadTemplates W L options),
         snd (loadTemplates W L options))).
Proof.
  intros Hfail.
  assert (Heq : remakeDirSync W options (output options)
                = ([fs_removeSync (output options);
                    console_log red (js "Error recreating directory: " ++ output options)]
                   ++ (if verbose options
                       then [console_log_error (IOError (output options))] else []),
                   if verbose options then Exit 1 else Return tt)).
  { unfold remakeDirSync. rewrite Hfail.
    destruct (verbose options); io_step; reflexivity. }
  split; [exact Heq|].
  intros Hquiet. unfold run. rewrite Heq, Hquiet.
  destruct (loadTemplates W L options) as [t o]. reflexivity.
Qed.

Lemma remakeDirSync_failed_removal_witness :
  let W := {| dirname := js "/docgen"; readFile_data := fun _ => None;
              writeFile_ok := fun _ => true; outputFileSync_ok := fun _ => true;
              copySync_ok := fun _ _ => true; removeSync_ok := fun _ => false;
              mkdirpSync_ok := fun _ => true; mkdirsSync_ok := fun _ => true;
              imageSizeOf := fun _ => None; moment_format := fun p => p;
              exec_stdout := fun _ => None; spawn_error := fun _ _ => false;
              spawn_code := fun _ _ => 0 |} in
  let options := Example.options true false in
  removeSync_ok W (output options) = false
  /\ snd (remakeDirSync W options (output options)) = Exit 1
  /\ ~ In (fs_mkdirpSync (output options)) (fst (remakeDirSync W options (output options))).
Proof.
  intros W options.
  destruct (remakeDirSync_failed_removal W Example.libraries options eq_refl) as [Heq _].
  split; [reflexivity|]. rewrite Heq. split; [reflexivity|].
  cbn. intros [H|[H|[H|[]]]]; discriminate.
Defined.

(** ** The scaffold command *)

(** X9.  [scaffold] starts one copy, of the example directory to the output
    path, and writes nothing itself; a failed copy ends it with status 1 only
    under verbose diagnostics, and with status 0 otherwise. *)
Theorem scaffold_copies_the_example (W : World) (options : Options) :
  copiesStarted (fst (scaffold W options))
  = [(dirname W ++ js "/example", output options)]
  /\ filesWritten (fst (scaffold W options)) = []
  /\ status (snd (scaffold W options))
     = (if negb (copySync_ok W (dirname W ++ js "/example") (output options))
           && verbose options
        then 1 else 0).
Proof.
  unfold scaffold, copyDirSync.
  destruct (copySync_ok W (dirname W ++ js "/example") (output options)),
           (verbose options); io_step; repeat split; reflexivity.
Qed.

(** ** The redirect page *)

Lemma last_component_from_plain (name acc : jsstring) :
  Forall (fun c => c <> slash) name ->
  last_component_from name acc = rev acc ++ name.
Proof.
  intros Hname. revert acc. induction Hname as [|c name Hc _ IH]; intros acc.
  - cbn. symmetry. apply app_nil_r.
  - cbn [last_component_from]. apply N.eqb_neq in Hc. rewrite Hc, IH.
    cbn [rev]. rewrite <- app_assoc. reflexivity.
Qed.

Lemma last_component_from_slash (parent name acc : jsstring) :
  Forall (fun c => c <> slash) name ->
  last_component_from (parent ++ slash :: name) acc = name.
Proof.
  intros Hname. revert acc. induction parent as [|c parent IH]; intros acc.
  - cbn [app last_component_from]. rewrite N.eqb_refl.
    apply (last_component_from_plain name [] Hname).
  - cbn [app last_component_from]. destruct (c =? slash)%N; apply IH.
Qed.

Lemma strip_trailing_slash_slash (s : jsstring) : strip_trailing_slash (s ++ [slash]) = s.
Proof.
  unfold strip_trailing_slash. rewrite rev_app_distr. cbn [rev app].
  rewrite N.eqb_refl. apply rev_involutive.
Qed.

(** X10.  The parent named in the redirect link is the last directory of the
    output path: for an output path that ends in [/name/], it is [name],
    whatever comes before. *)
Theorem redirect_parent_is_last_directory (parent name : jsstring) :
  Forall (fun c => c <> slash) name ->
  last_component (strip_trailing_slash (parent ++ slash :: name ++ [slash])) = name
  /\ last_component (strip_trailing_slash (name ++ [slash])) = name.
Proof.
  intros Hname. unfold last_component. split.
  - replace (parent ++ slash :: name ++ [slash]) with ((parent ++ slash :: name) ++ [slash])
      by (rewrite <- app_assoc; reflexivity).
    rewrite strip_trailing_slash_slash. apply last_component_from_slash, Hname.
  - rewrite strip_trailing_slash_slash. apply (last_component_from_plain name [] Hname).
Qed.

Lemma redirect_parent_is_last_directory_witness :
  Forall (fun c => c <> slash) (js "manual")
  /\ last_component (strip_trailing_slash (js "/var/www" ++ slash :: js "manual" ++ [slash]))
     = js "manual".
Proof.
  assert (H : Forall (fun c => c <> slash) (js "manual"))
    by (repeat constructor; discriminate).
  split; [exact H|].
  exact (proj1 (redirect_parent_is_last_directory (js "/var/www") (js "manual") H)).
Defined.

(** X11.  Writing the redirect page never ends the run: when the home page
    exists, [createRedirect] returns whether the write works or not and
    whatever the verbose setting is.  When a redirect is asked for, it makes
    one write, of the redirect template with its link and its refresh target
    set to the last directory of the output path, a slash and the home page,
    to index.html one directory above the output root; otherwise it does
    nothing. *)
Theorem createRedirect_is_not_fatal (W : World) (L : Libraries) (options : Options)
        (meta : Meta) (templates : Templates) (home : jsstring) :
  homelink meta = ([], Return home) ->
  let link := last_component (strip_trailing_slash (output options)) ++ js "/" ++ home in
  let file := output options ++ js "../" ++ js "index.html" in
  snd (createRedirect W L options meta templates) = Return tt
  /\ (redirect options = false -> fst (createRedirect W L options meta templates) = [])
  /\ (redirect options = true ->
      exists after,
        fst (createRedirect W L options meta templates)
        = fs_outputFileSync file
            (cheerio_html L
               (mutate (t_redirect templates)
                  [set_attr (js "a") (js "href") link;
                   set_attr (js "meta[http-equiv=REFRESH]") (js "content")
                            (js "0;url=" ++ link)]))
          :: after
        /\ filesWritten after = []).
Proof.
  intros Hhome link file. subst link file.
  unfold createRedirect. rewrite Hhome. unfold log_detail, when.
  destruct (redirect options).
  - destruct (outputFileSync_ok W _), (verbose options); io_step;
      (split; [reflexivity|]); (split; [discriminate|]);
      intros _; eexists; (split; [reflexivity|reflexivity]).
  - io_step. split; [reflexivity|]. split; [reflexivity|discriminate].
Qed.

Lemma createRedirect_is_not_fatal_witness :
  let W := {| dirname := js "/docgen"; readFile_data := fun _ => None;
              writeFile_ok := fun _ => true; outputFileSync_ok := fun _ => false;
              copySync_ok := fun _ _ => true; removeSync_ok := fun _ => true;
              mkdirpSync_ok := fun _ => true; mkdirsSync_ok := fun _ => true;
              imageSizeOf := fun _ => None; moment_format := fun p => p;
              exec_stdout := fun _ => None; spawn_error := fun _ _ => false;
              spawn_code := fun _ _ => 0 |} in
  let options := {| input := js "docs/"; output := js "site/manual/"; verbose := true;
                    pdf := false; redirect := true; pageToc := false;
                    mathKatex := false; mathMathjax := false;
                    wkhtmltopdfPath := js "wkhtmltopdf"; pdfDelay := js "1000";
                    setVersion := None; setReleaseDate := None |} in
  let meta := {| parameters := default_parameters; contents := [extra] |} in
  homelink meta = ([], Return (js "release-notes.html"))
  /\ outputFileSync_ok W (js "site/manual/../index.html") = false
  /\ snd (createRedirect W Example.libraries options meta default_templates) = Return tt.
Proof.
  intros W options meta.
  assert (Hhome : homelink meta = ([], Return (js "release-notes.html"))) by reflexivity.
  split; [exact Hhome|]. split; [reflexivity|].
  exact (proj1 (createRedirect_is_not_fatal W Example.libraries options meta
                  default_templates _ Hhome)).
Defined.

(** ** The renderer *)

Lemma silent_cleanUp {X} (f : Event -> list X) (W : World) (L : Libraries)
      (options : Options) (meta : Meta) (templates : Templates) :
  (forall path data, f (fs_outputFileSync path data) = []) ->
  (forall path, f (fs_removeSync path) = []) ->
  (forall c msg, c <> yellow -> f (console_log c msg) = []) ->
  (forall e, f (console_log_error e) = []) ->
  silent f (cleanUp W L options meta templates).
Proof.
  intros Hout Hrm Hlog Herr. unfold cleanUp, createRedirect, homelink, removeDirSync.
  apply silent_bind.
  - destruct (redirect options); [|apply silent_ret].
    destruct (contents meta) as [|section rest]; [apply silent_throw|].
    destruct (section_pages section) as [|page pages]; [apply silent_throw|].
    apply silent_bind; [apply silent_ret|]. intros home.
    apply silent_catch.
    + apply silent_bind; [apply silent_emit, Hout|]. intros _.
      destruct (outputFileSync_ok W _); silence.
    + intros e. unfold log, log_detail, when.
      apply silent_bind; [apply silent_emit, Hlog; discriminate|]. intros _.
      destruct (verbose options); [apply silent_emit, Herr|apply silent_ret].
  - intros _. apply silent_bind; [|intros _; apply silent_emit, Hlog; discriminate].
    unfold when. destruct (pdf options); [|apply silent_ret].
    apply silent_catch.
    + apply silent_bind; [apply silent_emit, Hrm|]. intros _.
      destruct (removeSync_ok W _); silence.
    + intros e. unfold log.
      apply silent_bind; [apply silent_emit, Hlog; discriminate|]. intros _.
      destruct (verbose options); [|apply silent_ret].
      apply silent_bind; [apply silent_emit, Herr|]. intros _. apply silent_exit.
Qed.


(** ** The version of the renderer *)

Lemma trimStart_whitespace (pre rest : jsstring) :
  Forall (fun c => is_whitespace c = true) pre -> trimStart (pre ++ rest) = trimStart rest.
Proof.
  induction 1 as [|c pre Hc _ IH]; [reflexivity|].
  cbn [app trimStart]. rewrite Hc. exact IH.
Qed.

Lemma trimStart_fixed_app (s post : jsstring) :
  s <> [] -> trimStart s = s -> trimStart (s ++ post) = s ++ post.
Proof.
  destruct s as [|c s]; [congruence|]. intros _. cbn [app trimStart].
  destruct (is_whitespace c) eqn:Hc; [|reflexivity].
  intros H. exfalso.
  assert (Hlen : (length (trimStart s) <= length s)%nat).
  { clear. induction s as [|d s IH]; [reflexivity|].
    cbn [trimStart]. destruct (is_whitespace d); cbn [length]; lia. }
  rewrite H in Hlen. cbn [length] in Hlen. lia.
Qed.

Lemma trim_surrounded (pre s post : jsstring) :
  Forall (fun c => is_whitespace c = true) pre ->
  Forall (fun c => is_whitespace c = true) post ->
  s <> [] -> trimStart s = s -> trimStart (rev s) = rev s ->
  trim (pre ++ s ++ post) = s.
Proof.
  intros Hpre Hpost Hs Hstart Hend. unfold trim.
  rewrite (trimStart_whitespace pre _ Hpre), (trimStart_fixed_app s post Hs Hstart).
  rewrite rev_app_distr, trimStart_whitespace, Hend; [apply rev_involutive|].
  apply Forall_rev. exact Hpost.
Qed.

(** X13.  The version check is on the output of [wkhtmltopdf -V] without the
    white space around it: when the output is the pinned version with white
    space before or after it (the newline that ends a line), no warning is
    given, and [checkPdfVersion] goes on to [generatePdf] right after the
    call. *)
Theorem pinned_version_gives_no_warning (W : World) (L : Libraries) (options : Options)
        (meta : Meta) (templates : Templates) (sorted : SortedPages)
        (before after : jsstring) :
  pdf options = true ->
  Forall (fun c => is_whitespace c = true) before ->
  Forall (fun c => is_whitespace c = true) after ->
  exec_stdout W (wkhtmltopdfPath options ++ js " -V")
  = Some (before ++ wkhtmltopdfVersion ++ after) ->
  checkPdfVersion W L options meta templates sorted
  = (childProcess_exec (wkhtmltopdfPath options ++ js " -V")
       :: fst (generatePdf W L options meta templates sorted),
     snd (generatePdf W L options meta templates sorted)).
Proof.
  intros Hpdf Hbefore Hafter Hexec.
  unfold checkPdfVersion, checkPdfVersion_pdf. rewrite Hpdf, Hexec.
  rewrite (trim_surrounded before wkhtmltopdfVersion after Hbefore Hafter);
    [|discriminate|reflexivity|reflexivity].
  replace (jseqb wkhtmltopdfVersion wkhtmltopdfVersion) with true
    by (symmetry; apply jseqb_eq; reflexivity).
  destruct (generatePdf W L options meta templates sorted) as [t o].
  reflexivity.
Qed.

Lemma pinned_version_gives_no_warning_witness :
  let options := Example.options false true in
  let stdout := [] ++ wkhtmltopdfVersion ++ [10%N] in
  let W := Example.world "parameters" "contents" true (Some stdout) in
  let meta := {| parameters := default_parameters; contents := [extra] |} in
  pdf options = true
  /\ Forall (fun c => is_whitespace c = true) [10%N]
  /\ exec_stdout W (wkhtmltopdfPath options ++ js " -V") = Some stdout
  /\ warnings (fst (checkPdfVersion W Example.libraries options meta default_templates
                                    (sortPages [extra]))) = [].
Proof.
  intros options stdout W meta.
  assert (Hws : Forall (fun c => is_whitespace c = true) [10%N])
    by (repeat constructor).
  split; [reflexivity|]. split; [exact Hws|]. split; [reflexivity|].
  rewrite (pinned_version_gives_no_warning W Example.libraries options meta
             default_templates (sortPages [extra]) [] [10%N]
             eq_refl (List.Forall_nil _) Hws eq_refl).
  vm_compute. reflexivity.
Defined.

(** ** Required properties *)

Lemma forallb_false_In {A} (f : A -> bool) (l : list A) (a : A) :
  In a l -> f a = false -> forallb f l = false.
Proof.
  intros Hin Ha. destruct (forallb f l) eqn:Hall; [|reflexivity].
  rewrite forallb_forall in Hall. rewrite (Hall a Hin) in Ha. discriminate.
Qed.

(** X14.  Validation rejects an object that lacks a property of the schema's
    [required] list, whatever else the object holds, and it rejects every
    value that is not an object when the schema's type is ['object']: so a
    parameters.json without one of its fourteen required properties, a
    section without heading, column or pages, and a page without title or
    source are all rejected. *)
Theorem missing_required_property_is_rejected (s : Schema) (o : list (jsstring * json))
        (k : jsstring) (v : json) :
  In k (schema_required s) ->
  get k o = None ->
  validate s (JObj o) = false
  /\ (schema_type s = Some TObject -> (forall fields, v <> JObj fields) ->
      validate s v = false)
  /\ schema_required schemas.parameters
     = [js "title"; js "name"; js "version"; js "date"; js "organization";
        js "author"; js "owner"; js "contributors"; js "website"; js "module";
        js "id"; js "summary"; js "marking"; js "legalese"]
  /\ schema_required schemas.section = [js "heading"; js "column"; js "pages"]
  /\ schema_required schemas.page = [js "title"; js "source"].
Proof.
  intros Hin Hget. split; [|split; [|repeat split]].
  - rewrite validate_unfold. destruct s as [type required properties items oneOf lo hi].
    cbn [schema_required] in Hin. cbn [required_ok].
    rewrite (forallb_false_In _ required k Hin); [|unfold hasOwn; rewrite Hget; reflexivity].
    rewrite andb_false_r. reflexivity.
  - intros Htype Hv. rewrite validate_unfold.
    destruct s as [type required properties items oneOf lo hi].
    cbn [schema_type] in Htype. subst type.
    destruct v; try reflexivity. exfalso. exact (Hv fields eq_refl).
Qed.

Lemma missing_required_property_is_rejected_witness :
  In (js "title") (schema_required schemas.parameters)
  /\ get (js "title") (List.tl Example.required_parameters) = None
  /\ validate schemas.parameters Example.parameters_without_title = false.
Proof.
  assert (Hin : In (js "title") (schema_required schemas.parameters))
    by (left; reflexivity).
  assert (Hget : get (js "title") (List.tl Example.required_parameters) = None)
    by reflexivity.
  split; [exact Hin|]. split; [exact Hget|].
  exact (proj1 (missing_required_property_is_rejected schemas.parameters
                  (List.tl Example.required_parameters) (js "title") JNull Hin Hget)).
Defined.

(** ** Parameter injection *)


(** ** Failures while loading *)

Lemma loadPage_outcome (L : Libraries) (pages : gmap jsstring PageValue)
      (entry : Key * jsstring) :
  fst (loadPage L pages entry) = []
  /\ ((exists pages', snd (loadPage L pages entry) = Return pages')
      \/ (key_html (fst entry) = false /\ markdown_render L (snd entry) = None
          /\ snd (loadPage L pages entry) = Throw (ReferenceError (js "file")))).
Proof.
  destruct entry as [key text]. unfold loadPage. cbn [fst snd].
  destruct (key_html key); [split; [reflexivity|left; eauto]|].
  destruct (markdown_render L text); [split; [reflexivity|left; eauto]|].
  split; [reflexivity|right; auto].
Qed.

Lemma foldIO_loadPage_outcome (L : Libraries) (entries : list (Key * jsstring))
      (pages : gmap jsstring PageValue) :
  fst (foldIO (loadPage L) entries pages) = []
  /\ ((exists pages', snd (foldIO (loadPage L) entries pages) = Return pages'
                      /\ Forall (fun entry => key_html (fst entry) = true
                                              \/ markdown_render L (snd entry) <> None)
                                entries)
      \/ (snd (foldIO (loadPage L) entries pages) = Throw (ReferenceError (js "file"))
          /\ Exists (fun entry => key_html (fst entry) = false
                                  /\ markdown_render L (snd entry) = None) entries)).
Proof.
  revert pages. induction entries as [|entry entries IH]; intros pages.
  - cbn. split; [reflexivity|]. left. eauto.
  - cbn [foldIO]. rewrite fst_bind, snd_bind.
    destruct (loadPage_outcome L pages entry) as [Ht [[pages' Hr]|(Hh & Hm & Hr)]];
      rewrite Ht, Hr.
    + destruct (IH pages') as [Ht' [(pages'' & Hr' & Hall)|[Hr' Hex]]]; rewrite Ht'.
      * split; [reflexivity|]. left. exists pages''. split; [exact Hr'|].
        constructor; [|exact Hall].
        destruct entry as [key text]. cbn [fst snd] in *. revert Hr. unfold loadPage.
        destruct (key_html key); [auto|].
        destruct (markdown_render L text); [right; discriminate|discriminate].
      * split; [reflexivity|]. right. split; [exact Hr'|]. apply Exists_cons_tl, Hex.
    + split; [reflexivity|]. right. split; [reflexivity|]. apply Exists_cons_hd. auto.
Qed.

Lemma mapIO_readFile_outcome (W : World) (paths : list jsstring) :
  Forall (fun e => (exists p, e = fs_readFile p)
                   \/ (exists p, e = console_log red (js "Error reading file: " ++ p)))
         (fst (mapIO (readFile W) paths))
  /\ ((exists texts, snd (mapIO (readFile W) paths) = Return texts
                     /\ Forall (fun p => readFile_data W p <> None) paths)
      \/ (exists p, In p paths /\ readFile_data W p = None
                    /\ snd (mapIO (readFile W) paths) = Throw (IOError p))).
Proof.
  induction paths as [|path paths IH].
  - cbn. split; [constructor|]. left. eauto.
  - cbn [mapIO].
    destruct (mapIO (readFile W) paths) as [t o]. cbn [fst snd] in IH.
    unfold readFile.
    destruct (readFile_data W path) as [data|] eqn:Hdata.
    + destruct IH as [Htrace [(texts & Hr & Hall)|(p & Hin & Hnone & Hr)]]; subst o;
        cbn [emit ret bind fst snd app]; rewrite ?app_nil_r.
      * split; [constructor; [left; eauto|exact Htrace]|].
        left. exists (stripBOM data :: texts). split; [reflexivity|].
        constructor; [congruence|exact Hall].
      * split; [constructor; [left; eauto|exact Htrace]|].
        right. exists p. split; [right; exact Hin|]. auto.
    + cbn [emit log throw bind fst snd app]. split.
      * constructor; [left; eauto|]. constructor; [right; eauto|]. constructor.
      * right. exists path. split; [left; reflexivity|]. auto.
Qed.

(** What [loadMarkdown] does when the work inside its promise throws. *)
Lemma loadMarkdown_Throw (W : World) (L : Libraries) (options : Options) (meta : Meta)
      (templates : Templates) (e : Error) :
  snd (pages <- loadPages W L options meta ;; processContent W L options meta templates pages)
  = Throw e ->
  loadMarkdown W L options meta templates
  = (console_log green (js "Loading source files")
       :: fst (pages <- loadPages W L options meta ;;
               processContent W L options meta templates pages)
       ++ console_log red (js "Error loading source files")
       :: (if verbose options then [console_log_error e] else []),
     Exit 1).
Proof.
  intros Hthrow. unfold loadMarkdown.
  destruct (pages <- loadPages W L options meta ;;
            processContent W L options meta templates pages) as [t o].
  cbn [snd] in Hthrow. subst o. unfold log_detail, when.
  destruct (verbose options); reflexivity.
Qed.

Lemma loadPages_Throw_body (W : World) (L : Libraries) (options : Options) (meta : Meta)
      (templates : Templates) (e : Error) :
  snd (loadPages W L options meta) = Throw e ->
  (pages <- loadPages W L options meta ;; processContent W L options meta templates pages)
  = (fst (loadPages W L options meta), Throw e).
Proof.
  destruct (loadPages W L options meta) as [t o]. cbn [snd]. intros ->. reflexivity.
Qed.

Lemma In_files_release_notes (input : jsstring) (contents : list Section) :
  In (input ++ js "/release-notes.txt") (files input contents).
Proof. unfold files. apply in_app_iff. right. left. reflexivity. Qed.

(** X16.  A source file that cannot be read ends the run: when one of the
    files that [loadMarkdown] reads is unreadable (release-notes.txt is
    always one of these files), [loadMarkdown] reports "Error loading source
    files" and exits with status 1, and it has written no file and started
    no copy. *)
Theorem unreadable_source_is_fatal (W : World) (L : Libraries) (options : Options)
        (meta : Meta) (templates : Templates) (path : jsstring) :
  In path (files (input options) (contents meta)) ->
  readFile_data W path = None ->
  snd (loadMarkdown W L options meta templates) = Exit 1
  /\ In (console_log red (js "Error loading source files"))
        (fst (loadMarkdown W L options meta templates))
  /\ filesWritten (fst (loadMarkdown W L options meta templates)) = []
  /\ copiesStarted (fst (loadMarkdown W L options meta templates)) = []
  /\ In (input options ++ js "/release-notes.txt") (files (input options) (contents meta)).
Proof.
  intros Hin Hnone.
  assert (Hthrow : exists p, snd (loadPages W L options meta) = Throw (IOError p)).
  { unfold loadPages. rewrite snd_bind.
    destruct (mapIO_readFile_outcome W (files (input options) (contents meta)))
      as [_ [(texts & _ & Hall)|(p & _ & _ & Hr)]].
    - rewrite List.Forall_forall in Hall. exfalso. exact (Hall path Hin Hnone).
    - rewrite Hr. eauto. }
  destruct Hthrow as [p Hthrow].
  pose proof (loadPages_Throw_body W L options meta templates _ Hthrow) as Hbody.
  rewrite (loadMarkdown_Throw W L options meta templates (IOError p))
    by (rewrite Hbody; reflexivity).
  rewrite Hbody. cbn [fst snd].
  split; [reflexivity|].
  split; [right; apply in_app_iff; right; left; reflexivity|].
  pose proof (silent_loadPages written W L options meta
                (fun _ => eq_refl) (fun _ _ => eq_refl)) as Hw.
  pose proof (silent_loadPages copied W L options meta
                (fun _ => eq_refl) (fun _ _ => eq_refl)) as Hc.
  unfold silent in Hw, Hc. unfold filesWritten, copiesStarted.
  cbn [flat_map written copied app]. rewrite !flat_map_app, Hw, Hc.
  split; [|split; [|apply In_files_release_notes]];
    destruct (verbose options); reflexivity.
Qed.

Lemma unreadable_source_is_fatal_witness :
  let W := Example.world "parameters" "contents" true None in
  let options := Example.options false false in
  let meta := {| parameters := default_parameters;
                 contents := [ {| section_heading := JStr (js "Guide"); section_column := 1;
                                  section_pages := [ {| page_title := js "Missing";
                                                        page_source := js "missing.md";
                                                        page_html := false |} ] |};
                               extra ] |} in
  In (js "docs//missing.md") (files (input options) (contents meta))
  /\ readFile_data W (js "docs//missing.md") = None
  /\ snd (loadMarkdown W Example.libraries options meta default_templates) = Exit 1.
Proof.
  intros W options meta.
  assert (Hin : In (js "docs//missing.md") (files (input options) (contents meta)))
    by (left; reflexivity).
  assert (Hnone : readFile_data W (js "docs//missing.md") = None) by reflexivity.
  split; [exact Hin|]. split; [exact Hnone|].
  exact (proj1 (unreadable_source_is_fatal W Example.libraries options meta
                  default_templates _ Hin Hnone)).
Defined.

(** X17.  When the renderer throws on a Markdown source, the handler inside
    the loop throws in turn on its undeclared variable [file]: the failure
    reaches the promise as that reference error, [loadMarkdown] reports
    "Error loading source files" (with the reference error as its detail
    under verbose diagnostics) and exits with status 1, and nothing is
    written.  Up to there the trace holds only reads and reports of failed
    reads: no report names the source that could not be rendered. *)
Theorem render_failure_is_fatal (W : World) (L : Libraries) (options : Options)
        (meta : Meta) (templates : Templates) (t : list Event) (texts : list jsstring)
        (key : Key) (text : jsstring) :
  mapIO (readFile W) (files (input options) (contents meta)) = (t, Return texts) ->
  In (key, text) (combine (keys (contents meta)) texts) ->
  key_html key = false ->
  markdown_render L text = None ->
  snd (loadPages W L options meta) = Throw (ReferenceError (js "file"))
  /\ loadMarkdown W L options meta templates
     = (console_log green (js "Loading source files") :: t
        ++ console_log red (js "Error loading source files")
        :: (if verbose options
            then [console_log_error (ReferenceError (js "file"))] else []),
        Exit 1)
  /\ Forall (fun e => exists p, e = fs_readFile p) t
  /\ filesWritten (fst (loadMarkdown W L options meta templates)) = [].
Proof.
  intros Hread Hin Hhtml Hrender.
  assert (Hpages : loadPages W L options meta = (t, Throw (ReferenceError (js "file")))).
  { unfold loadPages. rewrite Hread. cbn [bind].
    destruct (foldIO_loadPage_outcome L (combine (keys (contents meta)) texts) ∅)
      as [Ht [(pages' & _ & Hall)|[Hr _]]].
    - exfalso. rewrite List.Forall_forall in Hall.
      destruct (Hall _ Hin) as [H|H]; cbn [fst snd] in H; congruence.
    - destruct (foldIO (loadPage L) _ ∅) as [t' o]. cbn [fst snd] in *.
      subst. rewrite app_nil_r. reflexivity. }
  assert (Hreads : Forall (fun e => exists p, e = fs_readFile p) t).
  { destruct (mapIO_readFile_outcome W (files (input options) (contents meta)))
      as [Htrace [(texts' & _ & Hall)|(p & _ & _ & Hr)]];
      rewrite Hread in *; cbn [fst snd] in *; [|discriminate].
    clear - Htrace Hall Hread. revert t texts Hread Htrace.
    induction (files (input options) (contents meta)) as [|path paths IH];
      intros t texts Hread Htrace.
    - injection Hread as <- _. constructor.
    - cbn [mapIO] in Hread.
      apply bind_Return in Hread as (t1 & x & t2 & Hx & Hrest & ->).
      apply bind_Return in Hrest as (t3 & xs & t4 & Hxs & Hret & ->).
      injection Hret as <- _. rewrite app_nil_r.
      apply Forall_app. split.
      + unfold readFile in Hx. destruct (readFile_data W path); [|discriminate].
        injection Hx as <- _. repeat constructor. eauto.
      + inversion Hall; subst. apply Forall_app in Htrace as [_ Htrace].
        rewrite app_nil_r in Htrace.
        eapply IH; eauto. }
  split; [rewrite Hpages; reflexivity|].
  assert (Hbody : (pages <- loadPages W L options meta ;;
                   processContent W L options meta templates pages)
                  = (t, Throw (ReferenceError (js "file")))).
  { rewrite (loadPages_Throw_body W L options meta templates (ReferenceError (js "file")));
      rewrite Hpages; reflexivity. }
  pose proof (loadMarkdown_Throw W L options meta templates (ReferenceError (js "file"))) as Hm.
  rewrite Hbody in Hm. specialize (Hm eq_refl). cbn [fst] in Hm.
  split; [exact Hm|]. split; [exact Hreads|].
  rewrite Hm. cbn [fst]. unfold filesWritten. cbn [flat_map written app].
  rewrite flat_map_app.
  replace (flat_map written t) with (@nil jsstring).
  - destruct (verbose options); reflexivity.
  - symmetry. clear - Hreads. induction Hreads as [|e t [p ->] _ IH]; [reflexivity|exact IH].
Qed.

Lemma render_failure_is_fatal_witness :
  let W := Example.world "parameters" "contents" true None in
  let L := with_failing_renderer Example.libraries in
  let options := Example.options true false in
  let meta := {| parameters := default_parameters; contents := [] |} in
  snd (loadPages W L options meta) = Throw (ReferenceError (js "file"))
  /\ snd (loadMarkdown W L options meta default_templates) = Exit 1.
Proof.
  intros W L options meta.
  assert (Hread : mapIO (readFile W) (files (input options) (contents meta))
                  = ([fs_readFile (js "docs//release-notes.txt")],
                     Return [js "Widget 1.0 released"])) by reflexivity.
  assert (Hin : In (KOwnership, js "Widget 1.0 released")
                   (combine (keys (contents meta)) [js "Widget 1.0 released"]))
    by (left; reflexivity).
  destruct (render_failure_is_fatal W L options meta default_templates _ _ _ _
              Hread Hin eq_refl eq_refl) as (Hpages & Hmarkdown & _).
  split; [exact Hpages|]. rewrite Hmarkdown. reflexivity.
Defined.

Lemma loadPages_outcome (W : World) (L : Libraries) (options : Options) (meta : Meta) :
  (exists pages, snd (loadPages W L options meta) = Return pages)
  \/ (exists e, snd (loadPages W L options meta) = Throw e).
Proof.
  unfold loadPages. rewrite snd_bind.
  destruct (mapIO_readFile_outcome W (files (input options) (contents meta)))
    as [_ [(texts & Hr & _)|(p & _ & _ & Hr)]]; rewrite Hr; [|eauto].
  destruct (foldIO_loadPage_outcome L (combine (keys (contents meta)) texts) ∅)
    as [_ [(pages & Hr' & _)|[Hr' _]]]; rewrite Hr'; eauto.
Qed.

Lemma processContent_Throw (W : World) (L : Libraries) (options : Options) (meta : Meta)
      (templates : Templates) (pages : gmap jsstring PageValue) :
  (forall templates1, exists e, insertParameters W L options meta templates1 = ([], Throw e)) ->
  exists e, processContent W L options meta templates pages
            = ([console_log green (js "Generating the static web content")], Throw e).
Proof.
  intros Hthrow. unfold processContent.
  destruct (webToc L options meta templates) as [sorted templates1].
  destruct (Hthrow templates1) as [e He]. rewrite He. exists e. reflexivity.
Qed.

Lemma insertParameters_without_home (W : World) (L : Libraries) (options : Options)
      (meta : Meta) (templates : Templates) (first : Section) (rest : list Section) :
  contents meta = first :: rest -> section_pages first = [] ->
  exists e, insertParameters W L options meta templates = ([], Throw e).
Proof.
  intros Hcontents Hpages. unfold insertParameters, homelink.
  rewrite Hcontents, Hpages. eexists. reflexivity.
Qed.

(** X18.  [insertParameters] needs a backlink and a home page.  When the
    parameters have no backlink, or the first section of the contents has no
    page, [loadMarkdown] reports "Error loading source files" and exits with
    status 1, whatever the files hold, and by then nothing is written, no
    copy is started and no renderer is started. *)
Theorem missing_backlink_or_home_page_is_fatal (W : World) (L : Libraries)
        (options : Options) (meta : Meta) (templates : Templates) :
  p_backlink (parameters meta) = None
  \/ (exists first rest, contents meta = first :: rest /\ section_pages first = []) ->
  snd (loadMarkdown W L options meta templates) = Exit 1
  /\ In (console_log red (js "Error loading source files"))
        (fst (loadMarkdown W L options meta templates))
  /\ filesWritten (fst (loadMarkdown W L options meta templates)) = []
  /\ copiesStarted (fst (loadMarkdown W L options meta templates)) = []
  /\ rendererRuns (fst (loadMarkdown W L options meta templates)) = [].
Proof.
  intros Hmissing.
  assert (Hthrow : forall templates1,
             exists e, insertParameters W L options meta templates1 = ([], Throw e)).
  { intros templates1. destruct Hmissing as [Hback|(first & rest & Hc & Hp)].
    - apply insertParameters_without_backlink, Hback.
    - eapply insertParameters_without_home; eauto. }
  assert (Hbody : exists t e,
             (pages <- loadPages W L options meta ;;
              processContent W L options meta templates pages) = (t, Throw e)
             /\ (forall X (f : Event -> list X),
                    (forall path, f (fs_readFile path) = []) ->
                    (forall c msg, f (console_log c msg) = []) ->
                    flat_map f t = [])).
  { destruct (loadPages_outcome W L options meta) as [[pages Hr]|[e Hr]].
    - destruct (processContent_Throw W L options meta templates pages Hthrow) as [e He].
      destruct (loadPages W L options meta) as [t o] eqn:Hpages. cbn [snd] in Hr. subst o.
      exists (t ++ [console_log green (js "Generating the static web content")]), e.
      split; [cbn [bind]; rewrite He; reflexivity|].
      intros X f Hread Hlog.
      pose proof (silent_loadPages f W L options meta Hread Hlog) as Hs.
      unfold silent in Hs. rewrite Hpages in Hs. cbn [fst] in Hs.
      rewrite flat_map_app, Hs. cbn [flat_map]. rewrite Hlog. reflexivity.
    - exists (fst (loadPages W L options meta)), e.
      split; [apply loadPages_Throw_body, Hr|].
      intros X f Hread Hlog. apply (silent_loadPages f W L options meta Hread Hlog). }
  destruct Hbody as (t & e & Hbody & Hsilent).
  pose proof (loadMarkdown_Throw W L options meta templates e) as Hm.
  rewrite Hbody in Hm. specialize (Hm eq_refl). cbn [fst] in Hm.
  rewrite Hm. cbn [fst snd].
  split; [reflexivity|].
  split; [right; apply in_app_iff; right; left; reflexivity|].
  unfold filesWritten, copiesStarted, rendererRuns.
  cbn [flat_map written copied spawned app]. rewrite !flat_map_app.
  rewrite (Hsilent _ written), (Hsilent _ copied), (Hsilent _ spawned) by reflexivity.
  destruct (verbose options); repeat split; reflexivity.
Qed.

Lemma missing_backlink_or_home_page_is_fatal_witness :
  let W := Example.world "parameters" "contents" true None in
  let options := Example.options false true in
  let meta := {| parameters := default_parameters;
                 contents := [ {| section_heading := JStr (js "Empty"); section_column := 1;
                                  section_pages := [] |};
                               extra ] |} in
  (p_backlink (parameters meta) = None
   \/ (exists first rest, contents meta = first :: rest /\ section_pages first = []))
  /\ snd (loadMarkdown W Example.libraries options meta default_templates) = Exit 1.
Proof.
  intros W options meta.
  assert (H : p_backlink (parameters meta) = None
              \/ (exists first rest, contents meta = first :: rest /\ section_pages first = [])).
  { right. eexists _, _. split; reflexivity. }
  split; [exact H|].
  exact (proj1 (missing_backlink_or_home_page_is_fatal W Example.libraries options meta
                  default_templates H)).
Defined.

(** ** Failures before the sources are loaded *)

Lemma parseMeta_invalid_contents (L : Libraries) (options : Options) (text : jsstring) :
  JSON_parse L text = None
  \/ (exists file, JSON_parse L text = Some file
                   /\ validate schemas.contents file = false) ->
  snd (parseMeta L options (js "contents") text) = Exit 1.
Proof.
  unfold parseMeta, validateJSON.
  change (schema_of (js "contents")) with schemas.contents.
  intros [Hparse|(file & Hparse & Hvalid)]; rewrite Hparse.
  - destruct (verbose options) eqn:Hv; unfold log_detail; rewrite Hv; reflexivity.
  - rewrite Hvalid.
    destruct (verbose options) eqn:Hv; unfold log_detail; rewrite Hv; reflexivity.
Qed.

Lemma readMeta_invalid_contents (W : World) (L : Libraries) (options : Options) :
  (forall data,
      readFile_data W (input options ++ js "/contents.json") = Some data ->
      JSON_parse L (stripBOM data) = None
      \/ (exists file, JSON_parse L (stripBOM data) = Some file
                       /\ validate schemas.contents file = false)) ->
  snd (readMeta W L options) = Exit 1 \/ exists e, snd (readMeta W L options) = Throw e.
Proof.
  intros Hinvalid. unfold readMeta.
  rewrite snd_bind, readFile_outcome.
  destruct (readFile_data W (input options ++ js "/parameters.json")) as [pdata|];
    [|right; eauto].
  rewrite snd_bind, readFile_outcome.
  destruct (readFile_data W (input options ++ js "/contents.json")) as [data|] eqn:Hc;
    [|right; eauto].
  rewrite snd_bind.
  destruct (parseMeta_outcome L options (js "parameters") (stripBOM pdata))
    as [(file & Hr & _)|Hr]; rewrite Hr; [|left; reflexivity].
  rewrite snd_bind, (parseMeta_invalid_contents L options _ (Hinvalid data eq_refl)).
  left. reflexivity.
Qed.

(** X19.  When contents.json cannot be read, is not JSON or does not pass its
    schema, the run ends with status 1 whatever parameters.json holds, and by
    then it has written no file, started no copy and started no renderer. *)
Theorem invalid_contents_halt_before_writing (W : World) (L : Libraries)
        (options : Options) :
  (forall data,
      readFile_data W (input options ++ js "/contents.json") = Some data ->
      JSON_parse L (stripBOM data) = None
      \/ (exists file, JSON_parse L (stripBOM data) = Some file
                       /\ validate schemas.contents file = false)) ->
  snd (run W L options) = Exit 1
  /\ filesWritten (fst (run W L options)) = []
  /\ copiesStarted (fst (run W L options)) = []
  /\ rendererRuns (fst (run W L options)) = [].
Proof.
  intros Hinvalid. apply readMeta_invalid_contents in Hinvalid.
  split; [|split; [|split]].
  - apply (run_invalid written); [|exact Hinvalid]. repeat split; reflexivity.
  - apply (run_invalid written); [|exact Hinvalid]. repeat split; reflexivity.
  - apply (run_invalid copied); [|exact Hinvalid]. repeat split; reflexivity.
  - apply (run_invalid spawned); [|exact Hinvalid]. repeat split; reflexivity.
Qed.

Lemma invalid_contents_halt_before_writing_witness :
  let W := Example.world "parameters" "not json" true None in
  let L := Example.libraries in
  let options := Example.options false false in
  (forall data,
      readFile_data W (input options ++ js "/contents.json") = Some data ->
      JSON_parse L (stripBOM data) = None
      \/ (exists file, JSON_parse L (stripBOM data) = Some file
                       /\ validate schemas.contents file = false))
  /\ snd (run W L options) = Exit 1.
Proof.
  intros W L options.
  assert (H : forall data,
             readFile_data W (input options ++ js "/contents.json") = Some data ->
             JSON_parse L (stripBOM data) = None
             \/ (exists file, JSON_parse L (stripBOM data) = Some file
                              /\ validate schemas.contents file = false)).
  { intros data Hdata. left.
    assert (Hd : readFile_data W (input options ++ js "/contents.json")
                 = Some (js "not json")) by reflexivity.
    rewrite Hd in Hdata. injection Hdata as <-. reflexivity. }
  split; [exact H|].
  exact (proj1 (invalid_contents_halt_before_writing W L options H)).
Defined.

Lemma readTemplates_unreadable (W : World) (path : jsstring) :
  In path (templateFiles W) -> readFile_data W path = None ->
  exists p, snd (readTemplates W) = Throw (IOError p).
Proof.
  intros Hin Hnone. unfold readTemplates.
  repeat (rewrite snd_bind, readFile_outcome;
          match goal with
          | |- context [readFile_data W ?p] =>
              destruct (readFile_data W p) eqn:?; [|eauto]
          end).
  exfalso. unfold templateFiles in Hin. cbn [In] in Hin.
  repeat (destruct Hin as [<-|Hin]; [congruence|]). exact Hin.
Qed.

(** X20.  When one of the six template files cannot be read, the run ends
    with status 1, and by then it has written no file, started no copy and
    started no renderer. *)
Theorem unreadable_template_is_fatal (W : World) (L : Libraries) (options : Options)
        (path : jsstring) :
  In path (templateFiles W) ->
  readFile_data W path = None ->
  snd (run W L options) = Exit 1
  /\ filesWritten (fst (run W L options)) = []
  /\ copiesStarted (fst (run W L options)) = []
  /\ rendererRuns (fst (run W L options)) = [].
Proof.
  intros Hin Hnone.
  destruct (readTemplates_unreadable W path Hin Hnone) as [p Hthrow].
  set (handler := fun error : Error =>
                    log red (js "Error loading templates") ;;;
                    log_detail options error ;;;
                    (exit 1 : IO Templates)).
  assert (Hcatch : catch (readTemplates W) handler
                   = (fst (readTemplates W)
                      ++ console_log red (js "Error loading templates")
                      :: (if verbose options then [console_log_error (IOError p)] else []),
                      Exit 1)).
  { destruct (readTemplates W) as [t o]. cbn [snd] in Hthrow. subst o.
    unfold handler, log_detail, when. destruct (verbose options); reflexivity. }
  assert (Hload : loadTemplates W L options
                  = (console_log green (js "Loading templates")
                     :: fst (readTemplates W)
                     ++ console_log red (js "Error loading templates")
                     :: (if verbose options then [console_log_error (IOError p)] else []),
                     Exit 1)).
  { unfold loadTemplates. fold handler. rewrite Hcatch. reflexivity. }
  assert (Hsilent : forall X (f : Event -> list X),
             ignores_preparation f -> silent f (run W L options)).
  { intros X f (Hread & Hlog & Herr & Hrm & Hmk). unfold run.
    apply silent_bind; [apply silent_emit, Hlog|]. intros _.
    apply silent_bind; [apply silent_remakeDirSync; auto|]. intros _.
    unfold silent. rewrite Hload. cbn [fst flat_map]. rewrite Hlog, flat_map_app.
    pose proof (silent_readTemplates f W Hread Hlog) as Hs. unfold silent in Hs.
    rewrite Hs. cbn [flat_map app]. rewrite Hlog.
    destruct (verbose options); cbn [flat_map app]; rewrite ?Herr; reflexivity. }
  split; [|split; [|split]].
  - unfold run. rewrite snd_bind. cbn [log emit snd].
    apply returns_or_exits_1_bind; [apply returns_or_exits_1_remakeDirSync|]. intros _.
    rewrite Hload. reflexivity.
  - apply Hsilent. repeat split; reflexivity.
  - apply Hsilent. repeat split; reflexivity.
  - apply Hsilent. repeat split; reflexivity.
Qed.

Lemma unreadable_template_is_fatal_witness :
  let W := {| dirname := js "/docgen";
              readFile_data := fun _ => None;
              writeFile_ok := fun _ => true;
              outputFileSync_ok := fun _ => true;
              copySync_ok := fun _ _ => true;
              removeSync_ok := fun _ => true;
              mkdirpSync_ok := fun _ => true;
              mkdirsSync_ok := fun _ => true;
              imageSizeOf := fun _ => None;
              moment_format := fun pattern => pattern;
              exec_stdout := fun _ => None;
              spawn_error := fun _ _ => false;
              spawn_code := fun _ _ => 0 |} in
  let options := Example.options false true in
  In (js "/docgen/templates/main.html") (templateFiles W)
  /\ readFile_data W (js "/docgen/templates/main.html") = None
  /\ snd (run W Example.libraries options) = Exit 1.
Proof.
  intros W options.
  assert (Hin : In (js "/docgen/templates/main.html") (templateFiles W))
    by (left; reflexivity).
  split; [exact Hin|]. split; [reflexivity|].
  exact (proj1 (unreadable_template_is_fatal W Example.libraries options _ Hin eq_refl)).
Defined.

(** ** The store of pages *)

Lemma foldIO_app {A S} (f : S -> A -> IO S) (l1 l2 : list A) (s : S) :
  foldIO f (l1 ++ l2) s = (s' <- foldIO f l1 s ;; foldIO f l2 s').
Proof.
  revert s. induction l1 as [|x l1 IH]; intros s; cbn [foldIO app].
  - unfold ret, bind. destruct (foldIO f l2 s). reflexivity.
  - destruct (f s x) as [t [s'| |]]; cbn [bind]; [|reflexivity|reflexivity].
    rewrite IH. destruct (foldIO f l1 s') as [t1 [s''| |]]; cbn [bind]; [|reflexivity..].
    destruct (foldIO f l2 s'') as [t2 o]. rewrite app_assoc. reflexivity.
Qed.

Lemma combine_snoc {A B} (l : list A) (k : list B) (x : A) (y : B) :
  length l = length k -> combine (l ++ [x]) (k ++ [y]) = combine l k ++ [(x, y)].
Proof.
  revert k. induction l as [|a l IH]; intros [|b k] Hlen; try discriminate.
  - reflexivity.
  - cbn. f_equal. apply IH. cbn in Hlen. congruence.
Qed.

Lemma foldIO_loadPage_untouched (L : Libraries) (target : jsstring)
      (entries : list (Key * jsstring)) (pages pages' : gmap jsstring PageValue)
      (t : list Event) :
  (forall key text, In (key, text) entries -> key_source key <> target) ->
  foldIO (loadPage L) entries pages = (t, Return pages') ->
  pages' !! target = pages !! target.
Proof.
  revert pages t. induction entries as [|[key text] entries IH]; intros pages t Hkeys Hfold.
  - cbn in Hfold. injection Hfold as _ <-. reflexivity.
  - cbn [foldIO] in Hfold.
    apply bind_Return in Hfold as (t1 & pages1 & t2 & Hstep & Hrest & _).
    apply loadPage_Return in Hstep as (stored & -> & _).
    rewrite (IH _ _ (fun k x Hin => Hkeys k x (or_intror Hin)) Hrest).
    apply lookup_insert_ne. apply (Hkeys key text). left. reflexivity.
Qed.

(** X21.  [loadMarkdown] pushes the string ['ownership'] as the key of the
    release notes, and a string has no [source]: once the files are loaded,
    the rendered release notes are stored under the property name
    "undefined", and nothing is stored under "ownership" unless a page has
    that source. *)
Theorem release_notes_stored_under_undefined (W : World) (L : Libraries)
        (options : Options) (meta : Meta) (t : list Event)
        (pages : gmap jsstring PageValue) :
  loadPages W L options meta = (t, Return pages) ->
  (exists data html,
      readFile_data W (input options ++ js "/release-notes.txt") = Some data
      /\ markdown_render L (stripBOM data) = Some html
      /\ pages !! js "undefined" = Some (Rendered html))
  /\ ((forall page, In page (pagesOf (contents meta)) -> page_source page <> js "ownership") ->
      pages !! js "ownership" = None).
Proof.
  intros Hload. unfold loadPages in Hload.
  apply bind_Return in Hload as (t1 & texts & t2 & Hread & Hfold & _).
  pose proof (loadPages_entries W _ _ _ _ Hread) as Hentries.
  unfold keys in Hentries, Hfold.
  apply Forall2_app_inv_l in Hentries as (texts0 & last & Hpages & Hlast & ->).
  inversion Hlast as [|? text ? rest (data & Hdata & ->) Hnil]; subst.
  inversion Hnil; subst. cbn [key_file] in Hdata.
  rewrite combine_snoc in Hfold by (eapply Forall2_length; eauto).
  rewrite foldIO_app in Hfold.
  apply bind_Return in Hfold as (t3 & pages0 & t4 & Hfold & Hstep & _).
  cbn [foldIO] in Hstep.
  apply bind_Return in Hstep as (t5 & pages1 & t6 & Hstep & Hret & _).
  injection Hret as _ <-.
  unfold loadPage in Hstep. cbn [key_html key_source] in Hstep.
  destruct (markdown_render L (stripBOM data)) as [html|] eqn:Hrender; [|discriminate].
  injection Hstep as _ <-.
  split.
  - exists data, html. split; [exact Hdata|]. split; [exact Hrender|].
    apply lookup_insert_eq.
  - intros Hsources.
    rewrite lookup_insert_ne by (apply jseqb_neq; reflexivity).
    assert (Hkeys : forall key text,
               In (key, text) (combine (List.map KPage (pagesOf (contents meta))) texts0) ->
               key_source key <> js "ownership").
    { intros key text Hin. apply in_combine_l in Hin.
      apply List.in_map_iff in Hin as (page & <- & Hin). apply Hsources, Hin. }
    rewrite (foldIO_loadPage_untouched L _ _ _ _ _ Hkeys Hfold).
    apply lookup_empty.
Qed.

Lemma release_notes_stored_under_undefined_witness :
  let W := Example.world "parameters" "contents" true None in
  let L := Example.libraries in
  let options := Example.options false false in
  let meta := {| parameters := default_parameters; contents := [] |} in
  let pages : gmap jsstring PageValue :=
    <[js "undefined" := Rendered (js "<p>Widget 1.0 released</p>")]> ∅ in
  loadPages W L options meta = ([fs_readFile (js "docs//release-notes.txt")], Return pages)
  /\ pages !! js "ownership" = None.
Proof.
  intros W L options meta pages.
  assert (Hload : loadPages W L options meta
                  = ([fs_readFile (js "docs//release-notes.txt")], Return pages))
    by reflexivity.
  split; [exact Hload|].
  apply (release_notes_stored_under_undefined W L options meta _ _ Hload).
  intros page [].
Defined.







(** ** Failed writes *)

Lemma existsb_key_false (key : jsstring) (rest : list (jsstring * jsstring)) :
  ~ In key (List.map fst rest) ->
  existsb (fun '(k, _) => jseqb k key) rest = false.
Proof.
  induction rest as [|[k p] rest IH]; intros Hnotin; [reflexivity|].
  cbn [existsb]. rewrite IH by (intros H; apply Hnotin; right; exact H).
  rewrite orb_false_r. apply jseqb_neq. intros ->. apply Hnotin. left. reflexivity.
Qed.

Lemma awaitWrites_outcome (W : World) (promises : list (jsstring * jsstring)) :
  List.NoDup (List.map fst promises) ->
  snd (awaitWrites W promises)
  = match List.find (fun p => negb (writeFile_ok W (snd p))) promises with
    | Some p => Throw (IOError (snd p))
    | None => Return tt
    end.
Proof.
  induction promises as [|[key path] rest IH]; intros Hnodup; [reflexivity|].
  inversion Hnodup as [|? ? Hnotin Hrest]; subst.
  cbn [awaitWrites List.find snd]. rewrite snd_bind.
  destruct (writeFile_ok W path); cbn [negb ret snd].
  - apply IH, Hrest.
  - rewrite snd_bind. cbn [log emit snd].
    rewrite existsb_key_false by exact Hnotin. reflexivity.
Qed.

(** X23.  When no two promises share a key, [rsvp.hash] resolves exactly when
    every write succeeds; and one failed write makes the second half of
    [writePages] report "Error writing the web page files" and exit with
    status 1 before any directory is copied and any renderer is started. *)
Theorem failed_write_is_fatal (W : World) (L : Libraries) (options : Options)
        (meta : Meta) (templates : Templates) (sorted : SortedPages)
        (promises : list (jsstring * jsstring)) :
  List.NoDup (List.map fst promises) ->
  (snd (awaitWrites W promises) = Return tt
   <-> Forall (fun p => writeFile_ok W (snd p) = true) promises)
  /\ (Exists (fun p => writeFile_ok W (snd p) = false) promises ->
      snd (writePages_then W L options meta templates sorted promises) = Exit 1
      /\ In (console_log red (js "Error writing the web page files"))
            (fst (writePages_then W L options meta templates sorted promises))
      /\ copiesStarted (fst (writePages_then W L options meta templates sorted promises)) = []
      /\ rendererRuns (fst (writePages_then W L options meta templates sorted promises)) = []).
Proof.
  intros Hnodup. pose proof (awaitWrites_outcome W promises Hnodup) as Hout.
  split.
  - rewrite Hout. split.
    + intros Hfind.
      destruct (List.find _ promises) as [p|] eqn:Hp; [discriminate|].
      rewrite List.Forall_forall. intros p Hin.
      pose proof (List.find_none _ _ Hp p Hin) as H. cbn beta in H.
      destruct (writeFile_ok W (snd p)); [reflexivity|discriminate].
    + intros Hall. destruct (List.find _ promises) as [p|] eqn:Hp; [|reflexivity].
      apply List.find_some in Hp as [Hin Hfail].
      rewrite List.Forall_forall in Hall. rewrite (Hall p Hin) in Hfail. discriminate.
  - intros Hfailed.
    assert (Hthrow : exists p : jsstring * jsstring,
               snd (awaitWrites W promises) = Throw (IOError (snd p))).
    { rewrite Hout. destruct (List.find _ promises) as [p|] eqn:Hp; [eauto|].
      exfalso. apply List.Exists_exists in Hfailed as (p & Hin & Hfail).
      pose proof (List.find_none _ _ Hp p Hin) as H. cbn beta in H.
      rewrite Hfail in H. discriminate. }
    destruct Hthrow as [p Hthrow].
    assert (Hthen : writePages_then W L options meta templates sorted promises
                    = (fst (awaitWrites W promises)
                       ++ console_log red (js "Error writing the web page files")
                       :: (if verbose options
                           then [console_log_error (IOError (snd p))] else []),
                       Exit 1)).
    { unfold writePages_then. destruct (awaitWrites W promises) as [t o].
      cbn [snd] in Hthrow. subst o. unfold log_detail, when.
      destruct (verbose options); reflexivity. }
    rewrite Hthen. cbn [fst snd].
    split; [reflexivity|].
    split; [apply in_app_iff; right; left; reflexivity|].
    pose proof (silent_awaitWrites copied W promises (fun _ _ => eq_refl)) as Hc.
    pose proof (silent_awaitWrites spawned W promises (fun _ _ => eq_refl)) as Hs.
    unfold silent in Hc, Hs. unfold copiesStarted, rendererRuns.
    rewrite !flat_map_app, Hc, Hs.
    destruct (verbose options); split; reflexivity.
Qed.

Lemma failed_write_is_fatal_witness :
  let W := {| dirname := js "/docgen";
              readFile_data := fun _ => None;
              writeFile_ok := fun path => negb (jseqb path (js "out/intro.html"));
              outputFileSync_ok := fun _ => true;
              copySync_ok := fun _ _ => true;
              removeSync_ok := fun _ => true;
              mkdirpSync_ok := fun _ => true;
              mkdirsSync_ok := fun _ => true;
              imageSizeOf := fun _ => None;
              moment_format := fun pattern => pattern;
              exec_stdout := fun _ => None;
              spawn_error := fun _ _ => false;
              spawn_code := fun _ _ => 0 |} in
  let options := Example.options false false in
  let meta := {| parameters := default_parameters; contents := [extra] |} in
  let promises := [(js "intro.md", js "out/intro.html");
                   (js "ownership", js "out/ownership.html")] in
  List.NoDup (List.map fst promises)
  /\ Exists (fun p => writeFile_ok W (snd p) = false) promises
  /\ snd (writePages_then W Example.libraries options meta default_templates
                          (sortPages (contents meta)) promises) = Exit 1.
Proof.
  intros W options meta promises.
  assert (Hnodup : List.NoDup (List.map fst promises)).
  { repeat constructor; cbn; intros H; repeat destruct H as [H|H]; try discriminate H;
      exact H. }
  assert (Hfailed : Exists (fun p => writeFile_ok W (snd p) = false) promises)
    by (apply Exists_cons_hd; reflexivity).
  split; [exact Hnodup|]. split; [exact Hfailed|].
  exact (proj1 (proj2 (failed_write_is_fatal W Example.libraries options meta
                         default_templates (sortPages (contents meta)) promises Hnodup)
                 Hfailed)).
Defined.

(** ** The whole run *)

Lemma external_writePage (L : Libraries) (options : Options)
      (pages : gmap jsstring PageValue) (page : Page) :
  silent external (writePage L options pages page).
Proof.
  unfold writePage, writeFile.
  destruct (pages !! page_source page) as [[text|d]|]; silence.
Qed.

Lemma external_processContent (W : World) (L : Libraries) (options : Options)
      (meta : Meta) (templates : Templates) (pages : gmap jsstring PageValue) :
  pdf options = false ->
  silent external (processContent W L options meta templates pages).
Proof.
  intros Hpdf. unfold processContent.
  destruct (webToc L options meta templates) as [sorted templates1].
  apply silent_bind; [silence|]. intros _.
  apply silent_bind; [apply silent_insertParameters|]. intros templates2.
  apply silent_bind; [|intros ?; apply silent_ret].
  unfold writePages, writePdfTemplates, writeFile. rewrite Hpdf.
  apply silent_bind; [silence|]. intros _.
  apply silent_bind; [apply silent_mapIO; intros page; apply external_writePage|].
  intros promises. silence.
Qed.

Lemma external_writePages_then (W : World) (L : Libraries) (options : Options)
      (meta : Meta) (templates : Templates) (sorted : SortedPages)
      (promises : list (jsstring * jsstring)) :
  pdf options = false ->
  silent external (writePages_then W L options meta templates sorted promises).
Proof.
  intros Hpdf. unfold writePages_then, checkPdfVersion. rewrite Hpdf.
  apply silent_bind; [|intros _; apply silent_ret].
  apply silent_catch; [|intros e; silence].
  apply silent_bind; [apply silent_awaitWrites; reflexivity|]. intros _.
  apply silent_bind; [apply silent_copyDirSync; reflexivity|]. intros _.
  apply silent_bind; [apply silent_copyDirSync; reflexivity|]. intros _.
  apply silent_bind.
  - unfold when. destruct (mathKatex options); [|apply silent_ret].
    apply silent_copyDirSync; reflexivity.
  - intros _. apply silent_cleanUp; reflexivity.
Qed.

(** X24.  Without the PDF option, a run starts no child process (neither
    [wkhtmltopdf -V] nor the renderer) and makes no temporary directory,
    whatever the files hold and whatever fails. *)
Theorem no_pdf_no_child_process (W : World) (L : Libraries) (options : Options) :
  pdf options = false ->
  flat_map external (fst (run W L options)) = []
  /\ rendererRuns (fst (run W L options)) = [].
Proof.
  intros Hpdf.
  assert (Hrun : silent external (run W L options)).
  { unfold run, loadTemplates, loadMeta, loadMarkdown.
    apply silent_bind; [silence|]. intros _.
    apply silent_bind; [apply silent_remakeDirSync; reflexivity|]. intros _.
    apply silent_bind; [silence|]. intros _.
    apply silent_bind.
    { apply silent_catch; [apply silent_readTemplates; reflexivity|]. intros e. silence. }
    intros templates.
    apply silent_bind; [silence|]. intros _.
    apply silent_bind.
    { apply silent_catch; [apply silent_readMeta; reflexivity|]. intros e. silence. }
    intros meta.
    apply silent_bind; [silence|]. intros _.
    apply silent_bind.
    { apply silent_catch; [|intros e; silence].
      apply silent_bind; [apply silent_loadPages; reflexivity|]. intros pages.
      apply external_processContent, Hpdf. }
    intros [[templates' sorted] promises].
    apply external_writePages_then, Hpdf. }
  split; [exact Hrun|].
  unfold rendererRuns. unfold silent in Hrun.
  induction (fst (run W L options)) as [|e t IH]; [reflexivity|].
  cbn [flat_map] in *. apply app_eq_nil in Hrun as [He Ht].
  rewrite (IH Ht). destruct e; try reflexivity; discriminate He.
Qed.

Lemma no_pdf_no_child_process_witness :
  let W := Example.world "parameters" "contents" true None in
  let options := Example.options false false in
  pdf options = false /\ rendererRuns (fst (run W Example.libraries options)) = [].
Proof.
  intros W options. split; [reflexivity|].
  exact (proj2 (no_pdf_no_child_process W Example.libraries options eq_refl)).
Defined.





























